(** * Low-level SPI driver of the GD32E23x port (cpu/gd32e23x/periph/spi.c)

    A shallow embedding of the driver and the verification of its
    documented behaviour: clock-divider computation and caching, chip-select
    set-up and framing, the acquire/release protocol and the two transfer
    strategies (polled and DMA). *)

From Stdlib Require Import ZArith Lia List Bool.
From stdpp Require Import base option list gmap.

Local Open Scope Z_scope.

(** ** Machine integers

    The driver computes on [uint8_t], [uint16_t] and [uint32_t]; values are
    kept in [Z] and every C operation that can wrap is followed by the
    reduction of its type. *)

Definition u8 (z : Z) : Z := z mod 2 ^ 8.
Definition u16 (z : Z) : Z := z mod 2 ^ 16.
Definition u32 (z : Z) : Z := z mod 2 ^ 32.

(** [~m] on a 32-bit unsigned operand. *)
Definition not32 (m : Z) : Z := u32 (Z.lnot m).

(** [x & m] used as a C truth value. *)
Definition flag_set (x m : Z) : bool := negb (Z.land x m =? 0).

(** Modelled from the spec: [bitarithm_msb] of bitarithm.h (not part of the
    driver file), "the position of the highest set bit" of its argument. *)
Definition bitarithm_msb (v : Z) : Z := Z.log2 v.

(** ** Outcomes of a driver call

    A call returns ([Done]), waits for ever on the bus lock ([Blocked]), is
    still polling a status flag when the polling budget is used up ([Hang]),
    or leaves defined behaviour ([Fault]). *)

Inductive fault : Set :=
| DivisionByZero
| AssertionFailed
| OutOfBounds.

Inductive result (A : Type) : Type :=
| Done (a : A)
| Blocked
| Hang
| Fault (f : fault).

Arguments Done {A} a.
Arguments Blocked {A}.
Arguments Hang {A}.
Arguments Fault {A} f.

(** ** Bus descriptors and the platform

    [spi_conf_t] is declared in the CPU's periph_cpu.h; the fields are the
    ones the driver reads. *)

Record spi_conf_t : Set := {
  apbbus : Z;
  rcumask : Z;
  mosi_pin : Z;
  miso_pin : Z;
  sclk_pin : Z;
  cs_pin : Z;
  mosi_af : Z;
  miso_af : Z;
  sclk_af : Z;
  cs_af : Z;
  tx_dma : Z;
  tx_dma_chan : Z;
  rx_dma : Z;
  rx_dma_chan : Z
}.

(** What the driver takes from the board configuration, the vendor header
    and its collaborators (GPIO driver, clock manager): constants, the
    register bit masks, the compile-time switches ([MODULE_PERIPH_DMA],
    [DMA_CCR_EN], [GD32_PM_STOP]) and the pure queries.  [SPI_CTL1_SETTINGS]
    is the driver's own macro; its value depends on whether the header
    defines [SPI_CTL1_FRXTH]. *)

Class Platform : Type := {
  spi_config : list spi_conf_t;
  periph_apb_clk : Z -> Z;
  gpio_is_valid : Z -> bool;
  SPI_HWCS_MASK : Z;
  DMA_STREAM_UNDEF : Z;
  MODULE_PERIPH_DMA : bool;
  DMA_CCR_EN : bool;
  GD32_PM_STOP : option Z;
  SPI_CTL1_SETTINGS : Z;
  SPI0_CTL0_SPIEN_Msk : Z;
  SPI0_CTL0_MSTMOD_Msk : Z;
  SPI0_CTL0_SWNSSEN_Msk : Z;
  SPI0_CTL0_SWNSS_Msk : Z;
  SPI0_CTL1_NSSDRV_Msk : Z;
  SPI_CTL1_TXDMAEN : Z;
  SPI_CTL1_RXDMAEN : Z;
  SPI0_STAT_TBE_Msk : Z;
  SPI0_STAT_TRANS_Msk : Z;
  SPI0_STAT_RBNE_Msk : Z
}.

(** [SPI_NUMOF] is the number of entries of [spi_config]. *)
Definition SPI_NUMOF `{P : Platform} : nat := length spi_config.

(** ** Clock divider *)

Definition BR_SHIFT : Z := 3.
Definition BR_MAX : Z := 7.
Definition SPI_APB_CLOCK_SHIFT : Z := 4.
Definition SPI_APB_CLOCK_MULT : Z := u32 (Z.shiftl 1 SPI_APB_CLOCK_SHIFT).

Definition _get_clkdiv `{P : Platform} (conf : spi_conf_t) (clock : Z) : result Z :=
  let bus_clock := u32 (periph_apb_clk (apbbus conf)) in
  let divisor := u32 (2 * clock) in
  if divisor =? 0 then Fault DivisionByZero
  else
    let div := u32 (Z.shiftl bus_clock SPI_APB_CLOCK_SHIFT) / divisor in
    if div <=? SPI_APB_CLOCK_MULT then Done 0
    else
      let rounded_div := u8 (u32 (bitarithm_msb div - SPI_APB_CLOCK_SHIFT)) in
      let rounded_div :=
        if negb (Z.land div (u32 (div - 1)) =? 0) then u8 (rounded_div + 1)
        else rounded_div in
      Done (if BR_MAX <? rounded_div then BR_MAX else rounded_div).

(** The clock that results from selector [br], as [spi_acquire] prints it:
    [periph_apb_clk(apbbus) / (1 << (br + 1))]. *)
Definition resulting_clock `{P : Platform} (conf : spi_conf_t) (br : Z) : Z :=
  periph_apb_clk (apbbus conf) / Z.shiftl 1 (br + 1).

(** The fixed-point ratio [(bus_clock << 4) / (2 * clock)] when nothing
    wraps. *)
Definition fixed_ratio (B f : Z) : Z := (16 * B) / (2 * f).

(** ** The peripheral and the driver's state

    The status and data registers are driven by the hardware: reading one
    yields a value and lets the hardware move on.  The driver only calls the
    four accesses below; [read_DATA8] and [write_DATA8] are the 8-bit
    accesses through the recast data register, [read_DATA] the access of
    the register's own width. *)

Class SpiHw (D : Type) : Type := {
  read_STAT : D -> Z * D;
  read_DATA8 : D -> Z * D;
  read_DATA : D -> Z * D;
  write_DATA8 : Z -> D -> D
}.

Record SPI_Type (D : Type) : Type := {
  CTL0 : Z;
  CTL1 : Z;
  port : D
}.

Arguments CTL0 {D} _.
Arguments CTL1 {D} _.
Arguments port {D} _.

Inductive gpio_mode_t : Set := GPIO_IN | GPIO_OUT.
Inductive dma_mode_t : Set := DMA_MEM_TO_PERIPH | DMA_PERIPH_TO_MEM.

(** The memory a DMA channel is armed with: the caller's output buffer, the
    caller's input buffer, or the one-byte local [tmp]. *)
Inductive dma_mem : Set := MemOut | MemIn | MemTmp.

(** What the driver does to its collaborators and to the registers, in the
    order it does it. *)
Inductive event : Set :=
| EvMutexInit (bus : nat)
| EvMutexLock (bus : nat)
| EvMutexUnlock (bus : nat)
| EvClkEn (apb mask : Z)
| EvClkDis (apb mask : Z)
| EvPmUnblock (mode : Z)
| EvGpioInit (pin : Z) (m : gpio_mode_t)
| EvGpioInitAf (pin af : Z)
| EvGpioSet (pin : Z)
| EvGpioClear (pin : Z)
| EvCTL0 (bus : nat) (v : Z)
| EvCTL1 (bus : nat) (v : Z)
| EvSTAT (bus : nat) (v : Z)
| EvDataRead (bus : nat) (v : Z)
| EvDataWrite (bus : nat) (v : Z)
| EvDmaAcquire (stream : Z)
| EvDmaSetup (stream chan : Z) (m : dma_mode_t)
| EvDmaPrepare (stream : Z) (mem : dma_mem) (len : nat) (incr : bool)
| EvDmaStart (stream : Z)
| EvDmaWait (stream : Z)
| EvDmaStop (stream : Z)
| EvDmaRelease (stream : Z).

(** [locks], [clocks] and [dividers] are the driver's three static arrays;
    [regs] holds the register block [dev(bus)] of every bus, [gpio_out] the
    level last driven on each output pin ([true] is high). *)
Record driver_state (D : Type) : Type := {
  locks : list bool;
  clocks : list Z;
  dividers : list Z;
  regs : list (SPI_Type D);
  gpio_out : gmap Z bool;
  trace : list event
}.

Arguments locks {D} _.
Arguments clocks {D} _.
Arguments dividers {D} _.
Arguments regs {D} _.
Arguments gpio_out {D} _.
Arguments trace {D} _.

Definition set_locks {D} (l : list bool) (st : driver_state D) : driver_state D :=
  {| locks := l; clocks := clocks st; dividers := dividers st;
     regs := regs st; gpio_out := gpio_out st; trace := trace st |}.
Definition set_clocks {D} (l : list Z) (st : driver_state D) : driver_state D :=
  {| locks := locks st; clocks := l; dividers := dividers st;
     regs := regs st; gpio_out := gpio_out st; trace := trace st |}.
Definition set_dividers {D} (l : list Z) (st : driver_state D) : driver_state D :=
  {| locks := locks st; clocks := clocks st; dividers := l;
     regs := regs st; gpio_out := gpio_out st; trace := trace st |}.
Definition set_regs {D} (l : list (SPI_Type D)) (st : driver_state D) : driver_state D :=
  {| locks := locks st; clocks := clocks st; dividers := dividers st;
     regs := l; gpio_out := gpio_out st; trace := trace st |}.
Definition set_gpio_out {D} (g : gmap Z bool) (st : driver_state D) : driver_state D :=
  {| locks := locks st; clocks := clocks st; dividers := dividers st;
     regs := regs st; gpio_out := g; trace := trace st |}.
Definition log {D} (e : event) (st : driver_state D) : driver_state D :=
  {| locks := locks st; clocks := clocks st; dividers := dividers st;
     regs := regs st; gpio_out := gpio_out st; trace := trace st ++ [e] |}.

(** ** The monad of driver code: state, with the four outcomes *)

Definition M (D A : Type) : Type := driver_state D -> result (A * driver_state D).

Definition ret {D A} (a : A) : M D A := fun st => Done (a, st).

Definition bind {D A B} (m : M D A) (k : A -> M D B) : M D B :=
  fun st =>
    match m st with
    | Done (a, st') => k a st'
    | Blocked => Blocked
    | Hang => Hang
    | Fault f => Fault f
    end.

Definition raise {D A} (f : fault) : M D A := fun _ => Fault f.
Definition block {D A} : M D A := fun _ => Blocked.
Definition hang {D A} : M D A := fun _ => Hang.
Definition lift {D A} (r : result A) : M D A :=
  fun st =>
    match r with
    | Done a => Done (a, st)
    | Blocked => Blocked
    | Hang => Hang
    | Fault f => Fault f
    end.
Definition gets {D A} (f : driver_state D -> A) : M D A := fun st => Done (f st, st).
Definition modify {D} (f : driver_state D -> driver_state D) : M D unit :=
  fun st => Done (tt, f st).
Definition emit {D} (e : event) : M D unit := modify (log e).

Declare Scope drv_scope.
Delimit Scope drv_scope with drv.
Notation "x <- m ;; k" := (bind m (fun x => k))
  (at level 100, m at next level, right associativity) : drv_scope.
Notation "m ;; k" := (bind m (fun _ => k))
  (at level 100, right associativity) : drv_scope.
Local Open Scope drv_scope.

(** [assert(c)]. *)
Definition assert {D} (c : bool) : M D unit :=
  if c then ret tt else raise AssertionFailed.

(** [a[i]] for an array kept in the state; an index out of range is
    undefined behaviour in C. *)
Definition index {D A} (a : driver_state D -> list A) (i : nat) : M D A :=
  fun st =>
    match a st !! i with
    | Some x => Done (x, st)
    | None => Fault OutOfBounds
    end.

Section Driver.
Context `{P : Platform} {D : Type} `{HW : SpiHw D}.

(** ** Collaborators

    Modelled from the spec: the mutex of mutex.h (not part of the driver
    file), "mutual-exclusion primitive": [mutex_lock] takes a free lock and
    does not return while the lock is held, [mutex_unlock] frees it,
    [mutex_init] creates it free. *)

Definition mutex_init (bus : nat) : M D unit :=
  _ <- index locks bus;;
  modify (fun st => set_locks (<[bus := false]> (locks st)) st);;
  emit (EvMutexInit bus).

Definition mutex_lock (bus : nat) : M D unit :=
  held <- index locks bus;;
  if held : bool then block
  else
    modify (fun st => set_locks (<[bus := true]> (locks st)) st);;
    emit (EvMutexLock bus).

Definition mutex_unlock (bus : nat) : M D unit :=
  _ <- index locks bus;;
  modify (fun st => set_locks (<[bus := false]> (locks st)) st);;
  emit (EvMutexUnlock bus).

(** Clock gating and power management only leave their mark in the trace. *)
Definition periph_clk_en (apb mask : Z) : M D unit := emit (EvClkEn apb mask).
Definition periph_clk_dis (apb mask : Z) : M D unit := emit (EvClkDis apb mask).
Definition pm_unblock (mode : Z) : M D unit := emit (EvPmUnblock mode).

(** The GPIO driver: [gpio_set] drives a pin high, [gpio_clear] low. *)
Definition gpio_init (pin : Z) (m : gpio_mode_t) : M D unit := emit (EvGpioInit pin m).
Definition gpio_init_af (pin af : Z) : M D unit := emit (EvGpioInitAf pin af).
Definition gpio_set (pin : Z) : M D unit :=
  modify (fun st => set_gpio_out (<[pin := true]> (gpio_out st)) st);;
  emit (EvGpioSet pin).
Definition gpio_clear (pin : Z) : M D unit :=
  modify (fun st => set_gpio_out (<[pin := false]> (gpio_out st)) st);;
  emit (EvGpioClear pin).

(** The DMA driver: its calls are recorded, the bytes it moves are its own
    business. *)
Definition dma_acquire (s : Z) : M D unit := emit (EvDmaAcquire s).
Definition dma_release (s : Z) : M D unit := emit (EvDmaRelease s).
Definition dma_setup (s chan : Z) (m : dma_mode_t) : M D unit := emit (EvDmaSetup s chan m).
Definition dma_prepare (s : Z) (mem : dma_mem) (len : nat) (incr : bool) : M D unit :=
  emit (EvDmaPrepare s mem len incr).
Definition dma_start (s : Z) : M D unit := emit (EvDmaStart s).
Definition dma_wait (s : Z) : M D unit := emit (EvDmaWait s).
Definition dma_stop (s : Z) : M D unit := emit (EvDmaStop s).

(** ** Register accesses through [dev(bus)] *)

Definition config (bus : nat) : M D spi_conf_t :=
  fun st =>
    match spi_config !! bus with
    | Some c => Done (c, st)
    | None => Fault OutOfBounds
    end.

Definition dev (bus : nat) : M D (SPI_Type D) := index regs bus.

Definition set_dev (bus : nat) (r : SPI_Type D) : M D unit :=
  modify (fun st => set_regs (<[bus := r]> (regs st)) st).

Definition get_CTL0 (bus : nat) : M D Z := r <- dev bus;; ret (CTL0 r).

Definition put_CTL0 (bus : nat) (v : Z) : M D unit :=
  r <- dev bus;;
  set_dev bus {| CTL0 := v; CTL1 := CTL1 r; port := port r |};;
  emit (EvCTL0 bus v).

Definition put_CTL1 (bus : nat) (v : Z) : M D unit :=
  r <- dev bus;;
  set_dev bus {| CTL0 := CTL0 r; CTL1 := v; port := port r |};;
  emit (EvCTL1 bus v).

Definition set_port (r : SPI_Type D) (d : D) : SPI_Type D :=
  {| CTL0 := CTL0 r; CTL1 := CTL1 r; port := d |}.

Definition get_STAT (bus : nat) : M D Z :=
  r <- dev bus;;
  let '(v, d) := read_STAT (port r) in
  set_dev bus (set_port r d);;
  emit (EvSTAT bus v);;
  ret v.

Definition get_DATA8 (bus : nat) : M D Z :=
  r <- dev bus;;
  let '(v, d) := read_DATA8 (port r) in
  set_dev bus (set_port r d);;
  emit (EvDataRead bus v);;
  ret (u8 v).

Definition get_DATA (bus : nat) : M D Z :=
  r <- dev bus;;
  let '(v, d) := read_DATA (port r) in
  set_dev bus (set_port r d);;
  emit (EvDataRead bus v);;
  ret v.

Definition put_DATA8 (bus : nat) (v : Z) : M D unit :=
  r <- dev bus;;
  set_dev bus (set_port r (write_DATA8 v (port r)));;
  emit (EvDataWrite bus v).

(** ** Polling loops

    [while (!(STAT & mask)) {}] and [while (STAT & mask) {}]: every loop may
    read the status register [fuel] times. *)

Fixpoint wait_flag_set (fuel : nat) (bus : nat) (mask : Z) : M D unit :=
  match fuel with
  | O => hang
  | S fuel' =>
      v <- get_STAT bus;;
      if flag_set v mask then ret tt else wait_flag_set fuel' bus mask
  end.

Fixpoint wait_flag_clear (fuel : nat) (bus : nat) (mask : Z) : M D unit :=
  match fuel with
  | O => hang
  | S fuel' =>
      v <- get_STAT bus;;
      if flag_set v mask then wait_flag_clear fuel' bus mask else ret tt
  end.

(** [while (STAT & RBNE) { DATA; }] *)
Fixpoint drain_receive (fuel : nat) (bus : nat) : M D unit :=
  match fuel with
  | O => hang
  | S fuel' =>
      v <- get_STAT bus;;
      if flag_set v SPI0_STAT_RBNE_Msk
      then _ <- get_DATA bus;; drain_receive fuel' bus
      else ret tt
  end.

(** [for (size_t i = 0; i < len; i++) body(i)], started at [i] with [n]
    rounds to go; the results of the rounds are collected. *)
Fixpoint for_loop {A} (n : nat) (i : nat) (body : nat -> M D A) : M D (list A) :=
  match n with
  | O => ret []
  | S n' =>
      a <- body i;;
      l <- for_loop n' (S i) body;;
      ret (a :: l)
  end.

(** [buf[i]] of a caller's buffer of bytes; a null or too short buffer is
    undefined behaviour. *)
Definition load (buf : option (list Z)) (i : nat) : M D Z :=
  match buf with
  | Some l =>
      match l !! i with
      | Some b => ret (u8 b)
      | None => raise OutOfBounds
      end
  | None => raise OutOfBounds
  end.

(** ** The driver *)

Definition _use_dma (conf : spi_conf_t) : bool :=
  negb (tx_dma conf =? DMA_STREAM_UNDEF) && negb (rx_dma conf =? DMA_STREAM_UNDEF).

Definition spi_init_pins (bus : nat) : M D unit :=
  conf <- config bus;;
  (if gpio_is_valid (mosi_pin conf)
   then gpio_init (mosi_pin conf) GPIO_OUT;; gpio_init_af (mosi_pin conf) (mosi_af conf)
   else ret tt);;
  (if gpio_is_valid (miso_pin conf)
   then gpio_init (miso_pin conf) GPIO_IN;; gpio_init_af (miso_pin conf) (miso_af conf)
   else ret tt);;
  (if gpio_is_valid (sclk_pin conf)
   then gpio_init (sclk_pin conf) GPIO_OUT;; gpio_init_af (sclk_pin conf) (sclk_af conf)
   else ret tt).

(** The write to [I2SCFGR], compiled only where the header defines
    [SPI_I2SCFGR_I2SE], is left out: nothing in the driver reads that
    register. *)
Definition spi_init (bus : nat) : M D unit :=
  assert (bus <? SPI_NUMOF)%nat;;
  mutex_init bus;;
  spi_init_pins bus;;
  conf <- config bus;;
  periph_clk_en (apbbus conf) (rcumask conf);;
  put_CTL0 bus 0;;
  put_CTL1 bus SPI_CTL1_SETTINGS;;
  periph_clk_dis (apbbus conf) (rcumask conf).

Inductive spi_status : Set := SPI_OK | SPI_NODEV | SPI_NOCS.

Definition spi_init_cs (bus : nat) (cs : Z) : M D spi_status :=
  if (SPI_NUMOF <=? bus)%nat then ret SPI_NODEV
  else if negb (gpio_is_valid cs)
          || ((Z.land cs SPI_HWCS_MASK =? SPI_HWCS_MASK)
              && flag_set cs (not32 SPI_HWCS_MASK))
  then ret SPI_NOCS
  else if cs =? SPI_HWCS_MASK then
    conf <- config bus;;
    if negb (gpio_is_valid (cs_pin conf)) then ret SPI_NOCS
    else
      gpio_init (cs_pin conf) GPIO_OUT;;
      gpio_init_af (cs_pin conf) (cs_af conf);;
      ret SPI_OK
  else
    gpio_init cs GPIO_OUT;;
    gpio_set cs;;
    ret SPI_OK.

Definition spi_acquire (bus : nat) (cs mode clk : Z) : M D unit :=
  assert (bus <? SPI_NUMOF)%nat;;
  mutex_lock bus;;
  conf <- config bus;;
  periph_clk_en (apbbus conf) (rcumask conf);;
  cached <- index clocks bus;;
  (if negb (clk =? cached) then
     d <- lift (_get_clkdiv conf clk);;
     modify (fun st => set_dividers (<[bus := d]> (dividers st)) st);;
     modify (fun st => set_clocks (<[bus := clk]> (clocks st)) st)
   else ret tt);;
  br <- index dividers bus;;
  let ctl0_settings :=
    u16 (Z.lor (Z.lor (Z.shiftl br BR_SHIFT) mode) SPI0_CTL0_MSTMOD_Msk) in
  let ctl0_settings :=
    if negb (cs =? SPI_HWCS_MASK)
    then u16 (Z.lor ctl0_settings (Z.lor SPI0_CTL0_SWNSSEN_Msk SPI0_CTL0_SWNSS_Msk))
    else ctl0_settings in
  let ctl1_extra_settings :=
    if negb (cs =? SPI_HWCS_MASK) then 0 else u16 SPI0_CTL1_NSSDRV_Msk in
  ctl1_extra_settings <-
    (if MODULE_PERIPH_DMA && _use_dma conf then
       dma_acquire (tx_dma conf);;
       dma_setup (tx_dma conf) (tx_dma_chan conf) DMA_MEM_TO_PERIPH;;
       dma_acquire (rx_dma conf);;
       dma_setup (rx_dma conf) (rx_dma_chan conf) DMA_PERIPH_TO_MEM;;
       ret (u16 (Z.lor ctl1_extra_settings (Z.lor SPI_CTL1_TXDMAEN SPI_CTL1_RXDMAEN)))
     else ret ctl1_extra_settings);;
  put_CTL0 bus ctl0_settings;;
  if negb (ctl1_extra_settings =? 0)
  then put_CTL1 bus (Z.lor SPI_CTL1_SETTINGS ctl1_extra_settings)
  else ret tt.

Definition spi_release (bus : nat) : M D unit :=
  conf <- config bus;;
  (if MODULE_PERIPH_DMA && _use_dma conf
   then dma_release (tx_dma conf);; dma_release (rx_dma conf)
   else ret tt);;
  put_CTL0 bus 0;;
  put_CTL1 bus SPI_CTL1_SETTINGS;;
  periph_clk_dis (apbbus conf) (rcumask conf);;
  (match GD32_PM_STOP with Some m => pm_unblock m | None => ret tt end);;
  mutex_unlock bus.

Definition _wait_for_end (fuel : nat) (bus : nat) : M D unit :=
  wait_flag_set fuel bus SPI0_STAT_TBE_Msk;;
  wait_flag_clear fuel bus SPI0_STAT_TRANS_Msk.

(** [out] is the caller's output buffer ([None] for a null pointer), [inp]
    tells whether an input buffer is given; the result is what the driver
    itself stores into the input buffer. *)
Definition _transfer_dma (fuel : nat) (bus : nat) (out : option (list Z))
    (inp : bool) (len : nat) : M D (list Z) :=
  conf <- config bus;;
  match out with
  | Some _ => dma_prepare (tx_dma conf) MemOut len true
  | None => dma_prepare (tx_dma conf) MemTmp len false
  end;;
  (if inp then dma_prepare (rx_dma conf) MemIn len true
   else dma_prepare (rx_dma conf) MemTmp len false);;
  dma_start (rx_dma conf);;
  dma_start (tx_dma conf);;
  dma_wait (rx_dma conf);;
  dma_wait (tx_dma conf);;
  (if DMA_CCR_EN then dma_stop (rx_dma conf);; dma_stop (tx_dma conf) else ret tt);;
  _wait_for_end fuel bus;;
  ret [].

Definition _transfer_no_dma (fuel : nat) (bus : nat) (out : option (list Z))
    (inp : bool) (len : nat) : M D (list Z) :=
  inbuf <-
    (if negb inp then
       for_loop len 0%nat (fun i =>
         wait_flag_set fuel bus SPI0_STAT_TBE_Msk;;
         b <- load out i;;
         put_DATA8 bus b);;
       wait_flag_set fuel bus SPI0_STAT_TBE_Msk;;
       wait_flag_clear fuel bus SPI0_STAT_TRANS_Msk;;
       drain_receive fuel bus;;
       ret []
     else
       match out with
       | None =>
           for_loop len 0%nat (fun i =>
             wait_flag_set fuel bus SPI0_STAT_TBE_Msk;;
             put_DATA8 bus 0;;
             wait_flag_set fuel bus SPI0_STAT_RBNE_Msk;;
             get_DATA8 bus)
       | Some _ =>
           for_loop len 0%nat (fun i =>
             wait_flag_set fuel bus SPI0_STAT_TBE_Msk;;
             b <- load out i;;
             put_DATA8 bus b;;
             wait_flag_set fuel bus SPI0_STAT_RBNE_Msk;;
             get_DATA8 bus)
       end);;
  _wait_for_end fuel bus;;
  ret inbuf.

Definition spi_transfer_bytes (fuel : nat) (bus : nat) (cs : Z) (cont : bool)
    (out : option (list Z)) (inp : bool) (len : nat) : M D (list Z) :=
  assert (bool_decide (is_Some out) || inp);;
  v <- get_CTL0 bus;;
  put_CTL0 bus (Z.lor v SPI0_CTL0_SPIEN_Msk);;
  (if negb (cs =? SPI_HWCS_MASK) && gpio_is_valid cs then gpio_clear cs else ret tt);;
  inbuf <-
    (if MODULE_PERIPH_DMA then
       conf <- config bus;;
       if _use_dma conf then _transfer_dma fuel bus out inp len
       else _transfer_no_dma fuel bus out inp len
     else _transfer_no_dma fuel bus out inp len);;
  (if negb cont && gpio_is_valid cs then
     v <- get_CTL0 bus;;
     put_CTL0 bus (Z.land v (not32 SPI0_CTL0_SPIEN_Msk));;
     if negb (cs =? SPI_HWCS_MASK) then gpio_set cs else ret tt
   else ret tt);;
  ret inbuf.

End Driver.

(** Modelled from the spec: the peripheral behind the status and data
    registers, as far as the receive path is concerned.  "Every transmitted
    byte yields a received byte": a byte written to the data register is in
    flight until it has been exchanged, and is then pending in the receive
    path until the data register is read.  No access but a write adds a
    byte, a read of the data register takes a pending byte away, the
    receive-not-empty flag tells whether a byte is pending and a clear busy
    flag that none is in flight.  The flags a status read returns describe
    the peripheral as that read leaves it. *)
Record SpiHwLaws `{P : Platform} {D : Type} `{HW : SpiHw D} : Type := {
  rx_pending : D -> nat;
  in_flight : D -> nat;
  stat_total : forall d,
    (rx_pending (read_STAT d).2 + in_flight (read_STAT d).2
     <= rx_pending d + in_flight d)%nat;
  stat_in_flight : forall d, (in_flight (read_STAT d).2 <= in_flight d)%nat;
  stat_RBNE : forall d,
    flag_set (read_STAT d).1 SPI0_STAT_RBNE_Msk = true
    <-> (0 < rx_pending (read_STAT d).2)%nat;
  stat_TRANS : forall d,
    flag_set (read_STAT d).1 SPI0_STAT_TRANS_Msk = false ->
    in_flight (read_STAT d).2 = 0%nat;
  write_total : forall b d,
    (rx_pending (write_DATA8 b d) + in_flight (write_DATA8 b d)
     <= S (rx_pending d + in_flight d))%nat;
  read8_total : forall d,
    (0 < rx_pending d)%nat ->
    (S (rx_pending (read_DATA8 d).2 + in_flight (read_DATA8 d).2)
     <= rx_pending d + in_flight d)%nat;
  read_total : forall d,
    (rx_pending (read_DATA d).2 + in_flight (read_DATA d).2
     <= rx_pending d + in_flight d)%nat;
  read_in_flight : forall d, (in_flight (read_DATA d).2 <= in_flight d)%nat
}.

Arguments SpiHwLaws {P} D {HW}.

(** ** Vocabulary of the statements *)

Section Vocabulary.
Context `{P : Platform} {D : Type} `{HW : SpiHw D}.

(** The hardware chip select "combined with any other bits". *)
Definition hwcs_conflict (cs : Z) : Prop :=
  Z.land cs SPI_HWCS_MASK = SPI_HWCS_MASK /\ Z.land cs (not32 SPI_HWCS_MASK) <> 0.

(** What a transfer leaves alone: everything but the ports behind the
    status and data registers, and the trace. *)
Definition ctl (st : driver_state D) :=
  (locks st, clocks st, dividers st, gpio_out st,
   (fun r => (CTL0 r, CTL1 r)) <$> regs st).

Definition port_of (bus : nat) (st : driver_state D) : option D :=
  port <$> regs st !! bus.

(** The state after an access of bus [bus] that left port [d] and event [e]. *)
Definition accessed (bus : nat) (d : D) (e : event) (st : driver_state D) :
    driver_state D :=
  log e (set_regs (alter (fun r => set_port r d) bus (regs st)) st).

(** The calls of a DMA transfer that come before the final wait, in the
    order [_transfer_dma] makes them. *)
Definition dma_calls (conf : spi_conf_t) (out : option (list Z)) (inp : bool)
    (len : nat) : list event :=
  [EvDmaPrepare (tx_dma conf) (match out with Some _ => MemOut | None => MemTmp end)
     len (bool_decide (is_Some out));
   EvDmaPrepare (rx_dma conf) (if inp then MemIn else MemTmp) len inp;
   EvDmaStart (rx_dma conf);
   EvDmaStart (tx_dma conf);
   EvDmaWait (rx_dma conf);
   EvDmaWait (tx_dma conf)]
  ++ (if DMA_CCR_EN then [EvDmaStop (rx_dma conf); EvDmaStop (tx_dma conf)] else []).

(** The status reads of a loop that waits for [mask] to be set: all but the
    last see it clear. *)
Definition polls_until_set (mask : Z) (vs : list Z) : Prop :=
  exists ws v, vs = ws ++ [v] /\
               Forall (fun w => flag_set w mask = false) ws /\ flag_set v mask = true.

Definition polls_until_clear (mask : Z) (vs : list Z) : Prop :=
  exists ws v, vs = ws ++ [v] /\
               Forall (fun w => flag_set w mask = true) ws /\ flag_set v mask = false.

(** The lock and the cache, which the exchange of bytes cannot reach. *)
Definition statics (st : driver_state D) := (locks st, clocks st, dividers st).

(** The control word of bus [bus]. *)
Definition ctl0_of (bus : nat) (st : driver_state D) : option Z :=
  CTL0 <$> regs st !! bus.

(** Modelled from the spec: the chip-select line.  The hardware NSS output
    is low while the peripheral is enabled and high while it is disabled
    ("enabling the peripheral itself pulls the hardware NSS line low",
    "disabling the peripheral restores the hardware NSS line high"); a
    software chip select is the GPIO line itself, active low. *)
Definition cs_asserted (bus : nat) (cs : Z) (st : driver_state D) : Prop :=
  if cs =? SPI_HWCS_MASK
  then exists v, ctl0_of bus st = Some v /\ flag_set v SPI0_CTL0_SPIEN_Msk = true
  else gpio_out st !! cs = Some false.




(** What [spi_transfer_bytes] does before and after the exchange of bytes,
    [v] being the control word it reads. *)
Definition select_events (bus : nat) (cs : Z) (v : Z) : list event :=
  EvCTL0 bus (Z.lor v SPI0_CTL0_SPIEN_Msk)
  :: (if cs =? SPI_HWCS_MASK then [] else [EvGpioClear cs]).

Definition release_events (bus : nat) (cs : Z) (v : Z) : list event :=
  EvCTL0 bus (Z.land v (not32 SPI0_CTL0_SPIEN_Msk))
  :: (if cs =? SPI_HWCS_MASK then [] else [EvGpioSet cs]).

(** The events of the exchange itself: status and data register accesses
    and calls of the DMA driver. *)
Definition io_event (e : event) : Prop :=
  match e with
  | EvSTAT _ _ | EvDataRead _ _ | EvDataWrite _ _
  | EvDmaPrepare _ _ _ _ | EvDmaStart _ | EvDmaWait _ | EvDmaStop _ => True
  | _ => False
  end.

Definition io_frame (st st' : driver_state D) : Prop :=
  ctl st' = ctl st /\
  exists evs, trace st' = trace st ++ evs /\ Forall io_event evs.



(** The calls of the driver's users once the buses are initialised. *)
Inductive call : Type :=
| CallInitCs (bus : nat) (cs : Z)
| CallAcquire (bus : nat) (cs mode clk : Z)
| CallTransfer (bus : nat) (cs : Z) (cont : bool) (out : option (list Z))
    (inp : bool) (len : nat)
| CallRelease (bus : nat).

Definition do_call (fuel : nat) (c : call) : M D unit :=
  match c with
  | CallInitCs bus cs => _ <- spi_init_cs bus cs;; ret tt
  | CallAcquire bus cs mode clk => spi_acquire bus cs mode clk
  | CallTransfer bus cs cont out inp len =>
      _ <- spi_transfer_bytes fuel bus cs cont out inp len;; ret tt
  | CallRelease bus => spi_release bus
  end.

(** A run is the calls that returned, in the order they returned, each with
    the caller that made it. *)
Fixpoint do_run (fuel : nat) (run : list (nat * call)) : M D unit :=
  match run with
  | [] => ret tt
  | (_, c) :: rest => do_call fuel c;; do_run fuel rest
  end.

(** The port of bus [bus] satisfies [Q]. *)
Definition port_sat (bus : nat) (Q : D -> Prop) (st : driver_state D) : Prop :=
  exists d, port_of bus st = Some d /\ Q d.

(** The callers that have acquired bus [bus] and not released it yet. *)
Definition hold_step (bus : nat) (held : list nat) (x : nat * call) : list nat :=
  match x with
  | (t, CallAcquire b _ _ _) => if decide (b = bus) then t :: held else held
  | (t, CallRelease b) =>
      if decide (b = bus) then list_difference held [t] else held
  | _ => held
  end.

Definition holders (bus : nat) (run : list (nat * call)) : list nat :=
  fold_left (hold_step bus) run [].

(** The users keep the protocol: only a caller that holds a bus releases
    it. *)
Definition protocol_ok (run : list (nat * call)) : Prop :=
  forall before t bus after,
    run = before ++ (t, CallRelease bus) :: after -> t ∈ holders bus before.

(** The cached divider of every bus with a cached clock is the divider of
    that clock. *)
Definition cache_valid (st : driver_state D) : Prop :=
  forall bus conf clk,
    spi_config !! bus = Some conf -> clocks st !! bus = Some clk -> clk <> 0 ->
    exists d, dividers st !! bus = Some d /\ _get_clkdiv conf clk = Done d.

End Vocabulary.

(** ** Boards to evaluate the model on *)

Definition GPIO_UNDEF : Z := 0xffffffff.

Definition board_bus0 : spi_conf_t := {|
  apbbus := 1; rcumask := 0x1000;
  mosi_pin := 0x48000007; miso_pin := 0x48000006; sclk_pin := 0x48000005;
  cs_pin := 0x48000004;
  mosi_af := 0; miso_af := 0; sclk_af := 0; cs_af := 0;
  tx_dma := 0xff; tx_dma_chan := 0; rx_dma := 0xff; rx_dma_chan := 0
|}.

(** A board of the port: the register layout of the GD32E23x header, the
    GPIO conventions ([GPIO_UNDEF] is all ones, the hardware chip select is
    [0xffffff00]), a peripheral clock of [clk] Hz on every bus. *)
Definition mk_board (cfg : list spi_conf_t) (clk : Z) (dma : bool) : Platform := {|
  spi_config := cfg;
  periph_apb_clk := fun _ => clk;
  gpio_is_valid := fun pin => negb (pin =? GPIO_UNDEF);
  SPI_HWCS_MASK := 0xffffff00;
  DMA_STREAM_UNDEF := 0xff;
  MODULE_PERIPH_DMA := dma;
  DMA_CCR_EN := false;
  GD32_PM_STOP := None;
  SPI_CTL1_SETTINGS := 0x1700;
  SPI0_CTL0_SPIEN_Msk := 0x40;
  SPI0_CTL0_MSTMOD_Msk := 0x04;
  SPI0_CTL0_SWNSSEN_Msk := 0x200;
  SPI0_CTL0_SWNSS_Msk := 0x100;
  SPI0_CTL1_NSSDRV_Msk := 0x04;
  SPI_CTL1_TXDMAEN := 0x02;
  SPI_CTL1_RXDMAEN := 0x01;
  SPI0_STAT_TBE_Msk := 0x02;
  SPI0_STAT_TRANS_Msk := 0x80;
  SPI0_STAT_RBNE_Msk := 0x01
|}.

(** One bus without DMA streams on a 48 MHz peripheral clock. *)
Definition board : Platform := mk_board [board_bus0] 48000000 false.

(** The same bus on a 285 212 672 Hz clock, past the range ([2^28]) in
    which [bus_clock << 4] fits 32 bits. *)
Definition fast_board : Platform := mk_board [board_bus0] (2 ^ 28 + 2 ^ 24) false.

(** A bus with both DMA streams configured, in a build with the DMA module. *)
Definition dma_bus0 : spi_conf_t := {|
  apbbus := 1; rcumask := 0x1000;
  mosi_pin := 0x48000007; miso_pin := 0x48000006; sclk_pin := 0x48000005;
  cs_pin := 0x48000004;
  mosi_af := 0; miso_af := 0; sclk_af := 0; cs_af := 0;
  tx_dma := 2; tx_dma_chan := 0; rx_dma := 1; rx_dma_chan := 0
|}.

Definition dma_board : Platform := mk_board [dma_bus0] 48000000 true.

(** ** A peripheral and a start state to evaluate the model on

    A full-duplex peripheral wired in loopback: a byte written to the data
    register waits in the transmit buffer, is shifted over the wire and
    comes back into the receive buffer.  Each read of the status register
    lets one of these moves happen before the flags are sampled; a
    register-wide read of the data register takes up to two bytes. *)

Record loop_port : Set := {
  tx_buf : list Z;
  on_wire : option Z;
  rx_buf : list Z
}.

Definition loop_idle : loop_port := {| tx_buf := []; on_wire := None; rx_buf := [] |}.

Definition loop_tick (d : loop_port) : loop_port :=
  match on_wire d with
  | Some b => {| tx_buf := tx_buf d; on_wire := None; rx_buf := rx_buf d ++ [b] |}
  | None =>
      match tx_buf d with
      | b :: t => {| tx_buf := t; on_wire := Some b; rx_buf := rx_buf d |}
      | [] => d
      end
  end.

Definition loop_busy (d : loop_port) : bool :=
  match on_wire d, tx_buf d with
  | None, [] => false
  | _, _ => true
  end.

Definition loop_status (d : loop_port) : Z :=
  (match tx_buf d with [] => 0x02 | _ => 0 end)
  + (if loop_busy d then 0x80 else 0)
  + (match rx_buf d with [] => 0 | _ => 0x01 end).

Definition loop_hw : SpiHw loop_port := {|
  read_STAT := fun d => (loop_status (loop_tick d), loop_tick d);
  read_DATA8 := fun d =>
    match rx_buf d with
    | [] => (0, d)
    | b :: t => (b, {| tx_buf := tx_buf d; on_wire := on_wire d; rx_buf := t |})
    end;
  read_DATA := fun d =>
    match rx_buf d with
    | [] => (0, d)
    | [b] => (b, {| tx_buf := tx_buf d; on_wire := on_wire d; rx_buf := [] |})
    | b0 :: b1 :: t =>
        (b0 + 256 * b1, {| tx_buf := tx_buf d; on_wire := on_wire d; rx_buf := t |})
    end;
  write_DATA8 := fun b d =>
    {| tx_buf := tx_buf d ++ [b]; on_wire := on_wire d; rx_buf := rx_buf d |}
|}.

(** The driver's statics are zero-initialised: free locks, no cached
    clock. *)
Definition boot_state {D : Type} (n : nat) (d : D) : driver_state D := {|
  locks := replicate n false;
  clocks := replicate n 0;
  dividers := replicate n 0;
  regs := replicate n {| CTL0 := 0; CTL1 := 0; port := d |};
  gpio_out := ∅;
  trace := []
|}.

Definition trace_of {D A : Type} (r : result (A * driver_state D)) : option (list event) :=
  match r with
  | Done (_, st) => Some (trace st)
  | _ => None
  end.

Definition value_of {D A : Type} (r : result (A * driver_state D)) : option A :=
  match r with
  | Done (a, _) => Some a
  | _ => None
  end.

(** The runs the properties are evaluated on. *)

Definition state_of {D A : Type} (dflt : driver_state D)
    (r : result (A * driver_state D)) : driver_state D :=
  match r with
  | Done (_, st) => st
  | _ => dflt
  end.

(** A DMA transfer of one byte on the DMA board. *)
Definition dma_run : result (list Z * driver_state loop_port) :=
  _transfer_dma (P := dma_board) (HW := loop_hw) 4 0 (Some [0xAA]) true 1
    (boot_state 1 loop_idle).

Definition dma_run_end : driver_state loop_port :=
  Eval vm_compute in state_of (boot_state 1 loop_idle) dma_run.




(** A session on the evaluation board: caller 1 acquires bus 0 at 8 MHz
    and exchanges one byte on the GPIO chip select [0x48000004]. *)
Definition session : list (nat * call) :=
  [(1%nat, CallAcquire 0 0x48000004 0 8000000);
   (1%nat, CallTransfer 0 0x48000004 false (Some [0x9F]) true 1)].

Definition session_run : result (unit * driver_state loop_port) :=
  do_run (P := board) (HW := loop_hw) 4 session (boot_state 1 loop_idle).

Definition session_end : driver_state loop_port :=
  Eval vm_compute in state_of (boot_state 1 loop_idle) session_run.

(** Acquire at 8 MHz, release, acquire at 8 MHz again. *)
Definition acquired : driver_state loop_port :=
  Eval vm_compute in
    state_of (boot_state 1 loop_idle)
      (spi_acquire (P := board) 0 0x48000004 0 8000000 (boot_state 1 loop_idle)).

Definition released : driver_state loop_port :=
  Eval vm_compute in
    state_of (boot_state 1 loop_idle) (spi_release (P := board) 0 acquired).

Definition reacquired : driver_state loop_port :=
  Eval vm_compute in
    state_of (boot_state 1 loop_idle)
      (spi_acquire (P := board) 0 0xffffff00 3 8000000 released).

(** What is pending and in flight in the loopback peripheral. *)
Definition loop_rx_pending (d : loop_port) : nat := length (rx_buf d).

Definition loop_in_flight (d : loop_port) : nat :=
  (length (tx_buf d) + match on_wire d with Some _ => 1 | None => 0 end)%nat.

(** An output-only transfer of three bytes that starts with a stale byte in
    the receive path, and an input-only transfer of two bytes. *)
Definition stale_port : loop_port := {| tx_buf := []; on_wire := None; rx_buf := [0x55] |}.

Definition output_only_run : result (list Z * driver_state loop_port) :=
  _transfer_no_dma (P := board) (HW := loop_hw) 4 0 (Some [0xAA; 0xBB; 0xCC]) false 3
    (boot_state 1 stale_port).

Definition output_only_end : driver_state loop_port :=
  Eval vm_compute in state_of (boot_state 1 loop_idle) output_only_run.

Definition input_only_run : result (list Z * driver_state loop_port) :=
  _transfer_no_dma (P := board) (HW := loop_hw) 4 0 None true 2
    (boot_state 1 loop_idle).

Definition input_only_end : driver_state loop_port :=
  Eval vm_compute in state_of (boot_state 1 loop_idle) input_only_run.

(** Caller 1 acquires bus 0, transfers and releases; caller 2 acquires. *)
Definition handoff : list (nat * call) :=
  [(1%nat, CallAcquire 0 0x48000004 0 8000000);
   (1%nat, CallTransfer 0 0x48000004 false (Some [0x9F]) true 1);
   (1%nat, CallRelease 0);
   (2%nat, CallAcquire 0 0xffffff00 3 1000000)].

Definition handoff_run : result (unit * driver_state loop_port) :=
  do_run (P := board) (HW := loop_hw) 4 handoff (boot_state 1 loop_idle).

Definition handoff_end : driver_state loop_port :=
  Eval vm_compute in state_of (boot_state 1 loop_idle) handoff_run.

(** * Further vocabulary *)

(** The ratio as the 32-bit code computes it, wrap-around included. *)
Definition raw_ratio (B f : Z) : Z :=
  u32 (Z.shiftl (u32 B) SPI_APB_CLOCK_SHIFT) / u32 (2 * f).

(** The selector as a function of the ratio: the least number of halvings
    past the fixed-point one, kept within the field of the register. *)
Definition selector_of_ratio (r : Z) : Z :=
  Z.min BR_MAX (Z.max 0 (Z.log2_up r - SPI_APB_CLOCK_SHIFT)).


Section Lifecycle.
Context `{P : Platform} {D : Type} `{HW : SpiHw D}.

(** The second control register of bus [bus]. *)
Definition ctl1_of (bus : nat) (st : driver_state D) : option Z :=
  CTL1 <$> regs st !! bus.

(** The three static arrays and the register file have one entry for
    every configured bus. *)
Definition wf (st : driver_state D) : Prop :=
  length (locks st) = SPI_NUMOF /\ length (clocks st) = SPI_NUMOF /\
  length (dividers st) = SPI_NUMOF /\ length (regs st) = SPI_NUMOF.

(** Every cached selector fits the three bits of the register field. *)
Definition dividers_ok (st : driver_state D) : Prop :=
  Forall (fun d => 0 <= d <= BR_MAX) (dividers st).

(** The register blocks of the buses other than [bus] are the same. *)
Definition other_buses (bus : nat) (st st' : driver_state D) : Prop :=
  forall b, b <> bus -> regs st' !! b = regs st !! b.

(** The state after calls that only leave their mark in the trace. *)
Definition logged (evs : list event) (st : driver_state D) : driver_state D :=
  {| locks := locks st; clocks := clocks st; dividers := dividers st;
     regs := regs st; gpio_out := gpio_out st; trace := trace st ++ evs |}.

(** The calls [spi_init_pins] makes for the pins of [conf]. *)
Definition pin_events (conf : spi_conf_t) : list event :=
  (if gpio_is_valid (mosi_pin conf)
   then [EvGpioInit (mosi_pin conf) GPIO_OUT; EvGpioInitAf (mosi_pin conf) (mosi_af conf)]
   else [])
  ++ (if gpio_is_valid (miso_pin conf)
      then [EvGpioInit (miso_pin conf) GPIO_IN; EvGpioInitAf (miso_pin conf) (miso_af conf)]
      else [])
  ++ (if gpio_is_valid (sclk_pin conf)
      then [EvGpioInit (sclk_pin conf) GPIO_OUT; EvGpioInitAf (sclk_pin conf) (sclk_af conf)]
      else []).

(** The calls of the DMA driver in [spi_acquire] and in [spi_release]. *)
Definition dma_acquire_events (conf : spi_conf_t) : list event :=
  if MODULE_PERIPH_DMA && _use_dma conf
  then [EvDmaAcquire (tx_dma conf);
        EvDmaSetup (tx_dma conf) (tx_dma_chan conf) DMA_MEM_TO_PERIPH;
        EvDmaAcquire (rx_dma conf);
        EvDmaSetup (rx_dma conf) (rx_dma_chan conf) DMA_PERIPH_TO_MEM]
  else [].

Definition dma_release_events (conf : spi_conf_t) : list event :=
  if MODULE_PERIPH_DMA && _use_dma conf
  then [EvDmaRelease (tx_dma conf); EvDmaRelease (rx_dma conf)]
  else [].

Definition pm_events : list event :=
  match GD32_PM_STOP with Some m => [EvPmUnblock m] | None => [] end.

(** The baud-rate field of the first control register. *)
Definition BR_MASK : Z := Z.shiftl BR_MAX BR_SHIFT.

Definition br_field (v : Z) : Z := Z.shiftr (Z.land v BR_MASK) BR_SHIFT.

(** The bits [spi_acquire] ors into the control word stay clear of the
    baud-rate field and of the enable bit. *)
Definition ctl0_layout (mode : Z) : Prop :=
  Forall (fun m => Z.land m BR_MASK = 0 /\ Z.land m SPI0_CTL0_SPIEN_Msk = 0)
    [mode; SPI0_CTL0_MSTMOD_Msk; SPI0_CTL0_SWNSSEN_Msk; SPI0_CTL0_SWNSS_Msk] /\
  Z.land BR_MASK SPI0_CTL0_SPIEN_Msk = 0.

(** The control word [spi_acquire] programs for selector [br], and what
    it ors into the second control register. *)
Definition acquire_ctl0 (br mode cs : Z) : Z :=
  let w := u16 (Z.lor (Z.lor (Z.shiftl br BR_SHIFT) mode) SPI0_CTL0_MSTMOD_Msk) in
  if negb (cs =? SPI_HWCS_MASK)
  then u16 (Z.lor w (Z.lor SPI0_CTL0_SWNSSEN_Msk SPI0_CTL0_SWNSS_Msk))
  else w.

Definition acquire_ctl1_extra (conf : spi_conf_t) (cs : Z) : Z :=
  let e := if negb (cs =? SPI_HWCS_MASK) then 0 else u16 SPI0_CTL1_NSSDRV_Msk in
  if MODULE_PERIPH_DMA && _use_dma conf
  then u16 (Z.lor e (Z.lor SPI_CTL1_TXDMAEN SPI_CTL1_RXDMAEN))
  else e.

(** The state [spi_acquire] leaves when it returns, [cached] being the
    clock and [br] the selector the bus is left with, [r] its register
    block before the call. *)
Definition after_acquire (bus : nat) (cs mode clk : Z) (conf : spi_conf_t)
    (cached br : Z) (r : SPI_Type D) (st : driver_state D) : driver_state D :=
  let w := acquire_ctl0 br mode cs in
  let e := acquire_ctl1_extra conf cs in
  {| locks := <[bus := true]> (locks st);
     clocks := if clk =? cached then clocks st else <[bus := clk]> (clocks st);
     dividers := if clk =? cached then dividers st else <[bus := br]> (dividers st);
     regs := <[bus := {| CTL0 := w;
                         CTL1 := if negb (e =? 0) then Z.lor SPI_CTL1_SETTINGS e
                                 else CTL1 r;
                         port := port r |}]> (regs st);
     gpio_out := gpio_out st;
     trace := trace st
              ++ [EvMutexLock bus; EvClkEn (apbbus conf) (rcumask conf)]
              ++ dma_acquire_events conf
              ++ EvCTL0 bus w
                 :: (if negb (e =? 0)
                     then [EvCTL1 bus (Z.lor SPI_CTL1_SETTINGS e)] else []) |}.

(** The state [spi_release] leaves. *)
Definition after_release (bus : nat) (conf : spi_conf_t) (r : SPI_Type D)
    (st : driver_state D) : driver_state D :=
  {| locks := <[bus := false]> (locks st);
     clocks := clocks st;
     dividers := dividers st;
     regs := <[bus := {| CTL0 := 0; CTL1 := SPI_CTL1_SETTINGS; port := port r |}]>
               (regs st);
     gpio_out := gpio_out st;
     trace := trace st
              ++ dma_release_events conf
              ++ [EvCTL0 bus 0; EvCTL1 bus SPI_CTL1_SETTINGS;
                  EvClkDis (apbbus conf) (rcumask conf)]
              ++ pm_events ++ [EvMutexUnlock bus] |}.

(** What the processor itself does to the data register of a bus: the
    bytes it writes and the values it reads, in order. *)
Inductive data_access : Set := Wrote (v : Z) | Got (v : Z).

Definition data_accesses (bus : nat) (evs : list event) : list data_access :=
  omap (fun e => match e with
                 | EvDataWrite b v => if decide (b = bus) then Some (Wrote v) else None
                 | EvDataRead b v => if decide (b = bus) then Some (Got v) else None
                 | _ => None
                 end) evs.

(** The bytes a transfer of [len] bytes is to send: the first [len] bytes
    of the output buffer, or zeros where there is none. *)
Definition sent (out : option (list Z)) (len : nat) : list Z :=
  match out with
  | Some l => u8 <$> take len l
  | None => replicate len 0
  end.

(** Bytes exchanged in lock step: each is written, then its answer read. *)
Definition full_duplex (x : list (Z * Z)) : list data_access :=
  x ≫= (fun p => [Wrote p.1; Got p.2]).

(** Calls of the DMA driver, and accesses the processor itself makes to
    the status and data registers. *)
Definition dma_event (e : event) : Prop :=
  match e with
  | EvDmaAcquire _ | EvDmaSetup _ _ _ | EvDmaPrepare _ _ _ _ | EvDmaStart _
  | EvDmaWait _ | EvDmaStop _ | EvDmaRelease _ => True
  | _ => False
  end.

Definition register_io (e : event) : Prop :=
  match e with
  | EvSTAT _ _ | EvDataRead _ _ | EvDataWrite _ _ => True
  | _ => False
  end.

(** What [spi_transfer_bytes] does around the exchange of bytes: writes to
    the first control register and to the chip-select line. *)
Definition framing_event (e : event) : Prop :=
  match e with
  | EvCTL0 _ _ | EvGpioSet _ | EvGpioClear _ => True
  | _ => False
  end.

(** Whether [spi_transfer_bytes] hands the bytes of bus [bus] to the DMA
    driver. *)
Definition strategy_is_dma (bus : nat) : bool :=
  MODULE_PERIPH_DMA && from_option _use_dma false (spi_config !! bus).

(** [s] is [st0] after accesses to the status and data registers only,
    those to the data register of [bus] being [a]. *)
Definition exchanged_since (st0 : driver_state D) (bus : nat) (a : list data_access)
    (s : driver_state D) : Prop :=
  exists evs, trace s = trace st0 ++ evs /\ Forall register_io evs /\
              data_accesses bus evs = a.

End Lifecycle.

(** ** Further runs on the evaluation boards *)

(** A peripheral whose transmit buffer never empties: every status read
    returns 0. *)
Definition stuck_hw : SpiHw unit := {|
  read_STAT := fun d => (0, d);
  read_DATA8 := fun d => (0, d);
  read_DATA := fun d => (0, d);
  write_DATA8 := fun _ d => d
|}.

(** A full-duplex transfer of two bytes on a GPIO chip select. *)
Definition duplex_run : result (list Z * driver_state loop_port) :=
  spi_transfer_bytes (P := board) (HW := loop_hw) 4 0 0x48000004 false
    (Some [0x9F; 0x01]) true 2 (boot_state 1 loop_idle).

Definition duplex_end : driver_state loop_port :=
  Eval vm_compute in state_of (boot_state 1 loop_idle) duplex_run.

(** The same transfer of one byte on the DMA board. *)
Definition dma_bytes_run : result (list Z * driver_state loop_port) :=
  spi_transfer_bytes (P := dma_board) (HW := loop_hw) 4 0 0x48000004 false
    (Some [0xAA]) true 1 (boot_state 1 loop_idle).

Definition dma_bytes_end : driver_state loop_port :=
  Eval vm_compute in state_of (boot_state 1 loop_idle) dma_bytes_run.

(** A transfer of one byte with an undefined chip select. *)
Definition nocs_run : result (list Z * driver_state loop_port) :=
  spi_transfer_bytes (P := board) (HW := loop_hw) 4 0 GPIO_UNDEF false
    (Some [0x9F]) true 1 (boot_state 1 loop_idle).

Definition nocs_end : driver_state loop_port :=
  Eval vm_compute in state_of (boot_state 1 loop_idle) nocs_run.

(** ** The framing of one transfer, for any designator *)

Section FramingTrace.
Context `{P : Platform}.

(** What [spi_transfer_bytes] does before it exchanges a byte, [v] being
    the control word it finds: it enables the peripheral, then pulls a
    valid software chip select low. *)
Definition select_trace (bus : nat) (cs v : Z) : list event :=
  EvCTL0 bus (Z.lor v SPI0_CTL0_SPIEN_Msk)
  :: (if negb (cs =? SPI_HWCS_MASK) && gpio_is_valid cs then [EvGpioClear cs] else []).

(** What it does after the exchange: nothing when the continuation flag is
    set or the designator is no valid pin; otherwise it disables the
    peripheral, then raises a software chip select. *)
Definition release_trace (bus : nat) (cs : Z) (cont : bool) (v : Z) : list event :=
  if negb cont && gpio_is_valid cs
  then EvCTL0 bus (Z.land (Z.lor v SPI0_CTL0_SPIEN_Msk) (not32 SPI0_CTL0_SPIEN_Msk))
       :: (if negb (cs =? SPI_HWCS_MASK) then [EvGpioSet cs] else [])
  else [].

End FramingTrace.
(** * Verification *)

(** ** The clock divider *)

Section ClockDivider.
Context `{P : Platform}.

Lemma land_pred_pow2 (d : Z) :
  0 < d -> Z.land d (d - 1) = 0 <-> d = 2 ^ Z.log2 d.
Proof.
  intros Hd. pose proof (Z.log2_spec d Hd) as [Hlo Hhi].
  pose proof (Z.log2_nonneg d) as Hk.
  split.
  - intros Hland.
    destruct (Z.eq_dec d (2 ^ Z.log2 d)) as [|Hne]; [assumption|exfalso].
    assert (Hlog : Z.log2 (d - 1) = Z.log2 d).
    { apply Z.log2_unique; [assumption|]. unfold Z.succ in Hhi. lia. }
    assert (Hb1 : Z.testbit d (Z.log2 d) = true) by (apply Z.bit_log2; lia).
    assert (Hb2 : Z.testbit (d - 1) (Z.log2 d) = true).
    { rewrite <- Hlog. apply Z.bit_log2. lia. }
    assert (Hb : Z.testbit (Z.land d (d - 1)) (Z.log2 d) = true).
    { rewrite Z.land_spec, Hb1, Hb2. reflexivity. }
    rewrite Hland, Z.bits_0 in Hb. discriminate.
  - intros ->.
    replace (2 ^ Z.log2 d - 1) with (Z.ones (Z.log2 d))
      by (rewrite Z.ones_equiv; lia).
    rewrite Z.land_ones by assumption. apply Z.mod_same.
    apply Z.pow_nonzero; lia.
Qed.

Lemma pow2_shift4 (k : Z) : 4 <= k -> 2 ^ k = 16 * 2 ^ (k - 4).
Proof.
  intros Hk. replace k with (4 + (k - 4)) at 1 by lia.
  rewrite Z.pow_add_r by lia. reflexivity.
Qed.

(** The computation when nothing wraps: the ratio, its highest bit and the
    rounding, as mathematical integers. *)
Lemma get_clkdiv_in_range (conf : spi_conf_t) (f : Z) :
  let B := periph_apb_clk (apbbus conf) in
  let r := fixed_ratio B f in
  0 <= B < 2 ^ 28 -> 0 < f < 2 ^ 31 ->
  0 <= r < 2 ^ 32 /\
  _get_clkdiv conf f =
    Done (if r <=? 16 then 0
          else
            let rounded :=
              if Z.eq_dec r (2 ^ Z.log2 r) then Z.log2 r - 4 else Z.log2 r - 3 in
            if 7 <? rounded then 7 else rounded).
Proof.
  intros B r HB Hf.
  assert (Hr : 0 <= r < 2 ^ 32).
  { unfold r, fixed_ratio. split.
    - apply Z.div_pos; lia.
    - apply Z.div_lt_upper_bound; lia. }
  split; [assumption|].
  unfold _get_clkdiv. fold B. cbv zeta.
  assert (E1 : u32 B = B) by (apply Z.mod_small; lia).
  assert (E2 : u32 (2 * f) = 2 * f) by (apply Z.mod_small; lia).
  assert (E3 : u32 (Z.shiftl B SPI_APB_CLOCK_SHIFT) / (2 * f) = r).
  { unfold SPI_APB_CLOCK_SHIFT, u32. rewrite Z.shiftl_mul_pow2 by lia.
    rewrite Z.mod_small by lia. unfold r, fixed_ratio. f_equal. lia. }
  rewrite !E1, !E2, !E3.
  destruct (Z.eqb_spec (2 * f) 0) as [|_]; [lia|].
  change SPI_APB_CLOCK_MULT with 16. change BR_MAX with 7.
  destruct (Z.leb_spec r 16) as [|Hgt]; [reflexivity|].
  assert (Hk : 4 <= Z.log2 r < 32).
  { split.
    - change 4 with (Z.log2 16). apply Z.log2_le_mono. lia.
    - apply Z.log2_lt_pow2; lia. }
  unfold bitarithm_msb, u32, u8.
  rewrite (Z.mod_small (Z.log2 r - 4)) by lia.
  rewrite (Z.mod_small (Z.log2 r - 4)) by lia.
  rewrite (Z.mod_small (r - 1)) by lia.
  destruct (Z.eq_dec r (2 ^ Z.log2 r)) as [Hpow|Hnpow].
  - apply land_pred_pow2 in Hpow; [|lia]. rewrite Hpow. reflexivity.
  - destruct (Z.eqb_spec (Z.land r (r - 1)) 0) as [Hz|_].
    + apply land_pred_pow2 in Hz; [contradiction|lia].
    + cbn [negb]. rewrite (Z.mod_small (Z.log2 r - 4 + 1)) by lia.
      replace (Z.log2 r - 4 + 1) with (Z.log2 r - 3) by lia. reflexivity.
Qed.

End ClockDivider.

(** C1, as amended.  For a bus clock [B < 2^28] and a requested clock
    [0 < f < 2^31] (the range in which the 32-bit computation neither wraps
    nor divides by zero), with [r = (16 * B) / (2 * f)] the fixed-point
    ratio: [_get_clkdiv] returns a selector in [0, BR_MAX]; the selector is 0
    when [r <= 16]; when [16 < r <= 2048] and [r] is not a power of two (the
    selector is then rounded up) or [2 * f] divides [16 * B] exactly, the
    resulting clock [B / 2^(selector+1)] is at most [f]; when [r > 2048] the
    selector is clamped to [BR_MAX] and the resulting clock is not below
    [f]. *)
Theorem get_clkdiv_at_most_requested `{P : Platform} (conf : spi_conf_t) (f : Z) :
  let B := periph_apb_clk (apbbus conf) in
  let r := fixed_ratio B f in
  0 <= B < 2 ^ 28 -> 0 < f < 2 ^ 31 ->
  exists sel,
    _get_clkdiv conf f = Done sel /\ 0 <= sel <= BR_MAX /\
    (r <= 16 -> sel = 0) /\
    (16 < r <= 2048 -> r <> 2 ^ Z.log2 r \/ (16 * B) mod (2 * f) = 0 ->
     resulting_clock conf sel <= f) /\
    (2048 < r -> sel = BR_MAX /\ f <= resulting_clock conf sel).
Proof.
  intros B r HB Hf.
  destruct (get_clkdiv_in_range conf f HB Hf) as [Hr Heq].
  fold B in Heq. fold r in Heq, Hr.
  eexists. split; [exact Heq|]. clear Heq.
  change BR_MAX with 7. unfold resulting_clock. fold B.
  destruct (Z.leb_spec r 16) as [Hle|Hgt].
  { repeat split; intros; lia. }
  assert (Hk : 4 <= Z.log2 r).
  { change 4 with (Z.log2 16). apply Z.log2_le_mono. lia. }
  pose proof (Z.log2_spec r ltac:(lia)) as [Hlo Hhi].
  rewrite <- Z.add_1_r in Hhi.
  rewrite (pow2_shift4 (Z.log2 r)) in Hlo by lia.
  rewrite (pow2_shift4 (Z.log2 r + 1)) in Hhi by lia.
  replace (Z.log2 r + 1 - 4) with (1 + (Z.log2 r - 4)) in Hhi by lia.
  rewrite Z.pow_add_r in Hhi by lia. change (2 ^ 1) with 2 in Hhi.
  assert (Hdiv1 : 2 * f * r <= 16 * B)
    by (unfold r, fixed_ratio; apply Z.mul_div_le; lia).
  assert (Hdiv2 : 16 * B < 2 * f * (r + 1)).
  { pose proof (Z.mul_succ_div_gt (16 * B) (2 * f) ltac:(lia)) as Hs.
    unfold Z.succ in Hs. exact Hs. }
  set (k := Z.log2 r) in *.
  assert (Hp : 0 < 2 ^ (k - 4)) by (apply Z.pow_pos_nonneg; lia).
  set (p := 2 ^ (k - 4)) in *.
  assert (Hsmall : k <= 10 -> p <= 64).
  { intros. change 64 with (2 ^ 6). apply Z.pow_le_mono_r; lia. }
  assert (Hbig : 11 <= k -> 128 <= p).
  { intros. change 128 with (2 ^ 7). apply Z.pow_le_mono_r; lia. }
  assert (Hbig' : 12 <= k -> 256 <= p).
  { intros. change 256 with (2 ^ 8). apply Z.pow_le_mono_r; lia. }
  split.
  { destruct (Z.eq_dec r (2 ^ k)); cbv zeta;
      [destruct (Z.ltb_spec 7 (k - 4))|destruct (Z.ltb_spec 7 (k - 3))]; lia. }
  split; [lia|]. split.
  - (* not clamped *)
    intros Hrange Hexact.
    assert (Hk11 : k <= 11).
    { destruct (Z.le_gt_cases k 11) as [|Hc]; [assumption|].
      specialize (Hbig' ltac:(lia)). lia. }
    destruct (Z.eq_dec r (2 ^ k)) as [Hpow|Hnpow]; cbv zeta.
    + destruct Hexact as [Hne|Hmod]; [congruence|].
      destruct (Z.ltb_spec 7 (k - 4)); [lia|].
      rewrite Z.shiftl_1_l.
      replace (k - 4 + 1) with (1 + (k - 4)) by lia.
      rewrite Z.pow_add_r by lia. change (2 ^ 1) with 2. fold p.
      apply Z.div_le_upper_bound; [lia|].
      apply Z.div_exact in Hmod; [|lia].
      fold (fixed_ratio B f) in Hmod. fold r in Hmod.
      assert (Hr16 : r = 16 * p).
      { rewrite Hpow. apply pow2_shift4. lia. }
      rewrite Hr16 in Hmod. nia.
    + assert (Hk10 : k <= 10).
      { destruct (Z.le_gt_cases k 10) as [|Hc]; [assumption|].
        specialize (Hbig ltac:(lia)).
        assert (r = 2048) by lia.
        exfalso. apply Hnpow. subst r. 
        assert (E : k = 11) by lia. rewrite E.
        match goal with H : _ = 2048 |- _ => rewrite H end. reflexivity. }
      destruct (Z.ltb_spec 7 (k - 3)); [lia|].
      rewrite Z.shiftl_1_l.
      replace (k - 3 + 1) with (2 + (k - 4)) by lia.
      rewrite Z.pow_add_r by lia. change (2 ^ 2) with 4. fold p.
      apply Z.div_le_upper_bound; [lia|]. nia.
  - (* clamped *)
    intros Hrange.
    cbv zeta.
    assert (Hsel : (if 7 <? (if Z.eq_dec r (2 ^ k) then k - 4 else k - 3)
                    then 7 else if Z.eq_dec r (2 ^ k) then k - 4 else k - 3) = 7).
    { destruct (Z.eq_dec r (2 ^ k)) as [Hpow|Hnpow].
      - assert (12 <= k).
        { destruct (Z.le_gt_cases 12 k) as [|Hc]; [assumption|exfalso].
          assert (Hle : 2 ^ k <= 2 ^ 11) by (apply Z.pow_le_mono_r; lia).
          change (2 ^ 11) with 2048 in Hle. lia. }
        destruct (Z.ltb_spec 7 (k - 4)); lia.
      - assert (11 <= k).
        { destruct (Z.le_gt_cases 11 k) as [|Hc]; [assumption|exfalso].
          specialize (Hsmall ltac:(lia)). lia. }
        destruct (Z.ltb_spec 7 (k - 3)); lia. }
    rewrite Hsel. split; [reflexivity|].
    change (Z.shiftl 1 (7 + 1)) with 256.
    apply Z.div_le_lower_bound; [lia|nia].
Qed.

(** The amended property on the evaluation board at 8 MHz. *)
Lemma get_clkdiv_at_most_requested_witness :
  (0 <= 48000000 < 2 ^ 28 /\ 0 < 8000000 < 2 ^ 31) /\
  exists sel,
    _get_clkdiv (P := board) board_bus0 8000000 = Done sel /\ 0 <= sel <= BR_MAX /\
    (fixed_ratio 48000000 8000000 <= 16 -> sel = 0) /\
    (16 < fixed_ratio 48000000 8000000 <= 2048 ->
     fixed_ratio 48000000 8000000 <> 2 ^ Z.log2 (fixed_ratio 48000000 8000000)
     \/ (16 * 48000000) mod (2 * 8000000) = 0 ->
     resulting_clock (P := board) board_bus0 sel <= 8000000) /\
    (2048 < fixed_ratio 48000000 8000000 ->
     sel = BR_MAX /\ 8000000 <= resulting_clock (P := board) board_bus0 sel).
Proof.
  split; [lia|].
  apply (get_clkdiv_at_most_requested (P := board) board_bus0 8000000);
    cbn; lia.
Defined.

(** C1 as the specification words it fails where the selector is clamped:
    on the 48 MHz board a request for 1 kHz has a ratio far above 16, the
    selector is [BR_MAX] and the resulting clock is 187.5 kHz.  It also
    fails where [bus_clock << 4] wraps: on a 285 MHz bus a request for
    1 048 576 Hz yields selector 3 and a clock of 17.8 MHz. *)
Lemma get_clkdiv_exceeds_request :
  (16 < fixed_ratio 48000000 1000 /\
   _get_clkdiv (P := board) board_bus0 1000 = Done 7 /\
   resulting_clock (P := board) board_bus0 7 = 187500 /\
   1000 < 187500) /\
  (16 < fixed_ratio (2 ^ 28 + 2 ^ 24) (2 ^ 20) /\
   _get_clkdiv (P := fast_board) board_bus0 (2 ^ 20) = Done 3 /\
   resulting_clock (P := fast_board) board_bus0 3 = 17825792 /\
   2 ^ 20 < 17825792).
Proof. vm_compute. repeat split; congruence. Qed.

(** Where the truncated ratio is a power of two and the division is not
    exact, the selector is not rounded up: on a bus clock of 8.125 MHz a
    request for 2 MHz has the ratio 32.5, truncated to 32, and selector 1
    gives 2.03125 MHz. *)
Lemma get_clkdiv_truncated_ratio :
  fixed_ratio 8125000 2000000 = 32 /\ (16 * 8125000) mod (2 * 2000000) <> 0 /\
  _get_clkdiv (P := mk_board [board_bus0] 8125000 false) board_bus0 2000000 = Done 1 /\
  resulting_clock (P := mk_board [board_bus0] 8125000 false) board_bus0 1 = 2031250.
Proof. vm_compute. repeat split; congruence. Qed.

(** C7.  On a 48 MHz bus clock a request for 8 MHz yields selector 2, a
    division by 8 and a resulting clock of 6 MHz, below the request. *)
Theorem get_clkdiv_48MHz_8MHz `{P : Platform} (conf : spi_conf_t) :
  periph_apb_clk (apbbus conf) = 48000000 ->
  _get_clkdiv conf 8000000 = Done 2 /\
  Z.shiftl 1 (2 + 1) = 8 /\
  resulting_clock conf 2 = 6000000 /\
  resulting_clock conf 2 <= 8000000.
Proof.
  intros HB. unfold _get_clkdiv, resulting_clock. rewrite HB.
  vm_compute. repeat split; congruence.
Qed.

Lemma get_clkdiv_48MHz_8MHz_witness :
  periph_apb_clk (Platform := board) (apbbus board_bus0) = 48000000 /\
  _get_clkdiv (P := board) board_bus0 8000000 = Done 2 /\
  Z.shiftl 1 (2 + 1) = 8 /\
  resulting_clock (P := board) board_bus0 2 = 6000000 /\
  resulting_clock (P := board) board_bus0 2 <= 8000000.
Proof.
  split; [reflexivity|].
  apply (get_clkdiv_48MHz_8MHz (P := board) board_bus0). reflexivity.
Defined.

(** ** Chip-select set-up *)

Section ChipSelectSetup.
Context `{P : Platform} {D : Type} `{HW : SpiHw D}.


Lemma land_not32 (m : Z) : Z.land m (not32 m) = 0.
Proof.
  unfold not32, u32. rewrite <- Z.land_ones by lia.
  rewrite Z.land_assoc.
  replace (Z.land m (Z.lnot m)) with 0; [reflexivity|].
  symmetry. apply Z.bits_inj'. intros n Hn.
  rewrite Z.land_spec, Z.lnot_spec, Z.bits_0 by assumption.
  destruct (Z.testbit m n); reflexivity.
Qed.

(** The sentinel itself is never in conflict. *)
Lemma hwcs_no_conflict : ~ hwcs_conflict SPI_HWCS_MASK.
Proof. intros [_ Hne]. apply Hne. apply land_not32. Qed.

Lemma hwcs_conflict_test (cs : Z) :
  (Z.land cs SPI_HWCS_MASK =? SPI_HWCS_MASK) && flag_set cs (not32 SPI_HWCS_MASK) = true
  <-> hwcs_conflict cs.
Proof.
  unfold hwcs_conflict, flag_set.
  rewrite andb_true_iff, negb_true_iff, Z.eqb_eq, Z.eqb_neq. reflexivity.
Qed.

(** C4.  [spi_init_cs] always returns; it returns [SPI_NODEV] exactly when
    the bus index is not below [SPI_NUMOF]; for a bus in range it returns
    [SPI_NOCS] for a designator that is not a valid GPIO identifier, for the
    hardware chip select combined with other bits, and for the hardware chip
    select when the bus descriptor has no valid CS pin; and [SPI_OK] in
    every other case. *)
Theorem spi_init_cs_status (bus : nat) (cs : Z) (st : driver_state D) :
  exists r st',
    spi_init_cs bus cs st = Done (r, st') /\
    (r = SPI_NODEV <-> (SPI_NUMOF <= bus)%nat) /\
    ((bus < SPI_NUMOF)%nat ->
     (r = SPI_NOCS <->
      gpio_is_valid cs = false \/ hwcs_conflict cs \/
      (cs = SPI_HWCS_MASK /\
       exists conf, spi_config !! bus = Some conf /\
                    gpio_is_valid (cs_pin conf) = false)) /\
     (r = SPI_OK <->
      gpio_is_valid cs = true /\ ~ hwcs_conflict cs /\
      (cs = SPI_HWCS_MASK ->
       exists conf, spi_config !! bus = Some conf /\
                    gpio_is_valid (cs_pin conf) = true))).
Proof.
  unfold spi_init_cs.
  destruct (Nat.leb_spec SPI_NUMOF bus) as [Hge|Hlt].
  { exists SPI_NODEV, st. split; [reflexivity|]. split; [tauto|]. lia. }
  destruct (lookup_lt_is_Some_2 spi_config bus Hlt) as [conf Hconf].
  destruct (gpio_is_valid cs) eqn:Hvalid; cbn [negb orb].
  2:{ exists SPI_NOCS, st. split; [reflexivity|]. split; [split; [discriminate|lia]|].
      intros _. split; [tauto|]. split; [discriminate|]. intros [? _]. discriminate. }
  destruct ((Z.land cs SPI_HWCS_MASK =? SPI_HWCS_MASK)
            && flag_set cs (not32 SPI_HWCS_MASK)) eqn:Hconf_test.
  { apply hwcs_conflict_test in Hconf_test.
    exists SPI_NOCS, st. split; [reflexivity|]. split; [split; [discriminate|lia]|].
    intros _. split; [tauto|]. split; [discriminate|]. tauto. }
  assert (Hnc : ~ hwcs_conflict cs).
  { intros Hc. apply hwcs_conflict_test in Hc. congruence. }
  destruct (Z.eqb_spec cs SPI_HWCS_MASK) as [Hhw|Hsw].
  - unfold bind at 1, config. rewrite Hconf.
    destruct (gpio_is_valid (cs_pin conf)) eqn:Hpin; cbn [negb].
    + eexists SPI_OK, _. split; [reflexivity|]. split; [split; [discriminate|lia]|].
      intros _. split.
      * split; [discriminate|]. intros [?|[?|(_ & c & Hc & Hp)]]; try done.
        congruence.
      * split; [|reflexivity]. intros _. split; [reflexivity|].
        split; [assumption|]. intros _. exists conf. auto.
    + exists SPI_NOCS, st. split; [reflexivity|]. split; [split; [discriminate|lia]|].
      intros _. split.
      * split; [|reflexivity]. intros _. right. right. split; [assumption|].
        exists conf. auto.
      * split; [discriminate|]. intros (_ & _ & Hc).
        destruct (Hc Hhw) as (c & Hc1 & Hc2). congruence.
  - eexists SPI_OK, _. split; [reflexivity|]. split; [split; [discriminate|lia]|].
    intros _. split.
    + split; [discriminate|]. intros [?|[?|(? & _)]]; done.
    + split; [|reflexivity]. intros _. split; [reflexivity|].
      split; [assumption|]. intros; contradiction.
Qed.

End ChipSelectSetup.

(** The five outcomes on the evaluation board: no bus 1, an undefined pin,
    the hardware chip select with a stray bit, the hardware chip select, a
    GPIO line. *)
Lemma spi_init_cs_on_board :
  value_of (spi_init_cs (P := board) 1 0xffffff00 (boot_state 1 loop_idle)) = Some SPI_NODEV /\
  value_of (spi_init_cs (P := board) 0 GPIO_UNDEF (boot_state 1 loop_idle)) = Some SPI_NOCS /\
  value_of (spi_init_cs (P := board) 0 0xffffff01 (boot_state 1 loop_idle)) = Some SPI_NOCS /\
  value_of (spi_init_cs (P := board) 0 0xffffff00 (boot_state 1 loop_idle)) = Some SPI_OK /\
  value_of (spi_init_cs (P := board) 0 0x48000004 (boot_state 1 loop_idle)) = Some SPI_OK.
Proof. vm_compute. repeat split. Qed.

(** ** Reasoning about driver code *)

Section Execution.
Context `{P : Platform} {D : Type} `{HW : SpiHw D}.

Lemma bind_Done {A B} (m : M D A) (k : A -> M D B) st b st' :
  bind m k st = Done (b, st') ->
  exists a st1, m st = Done (a, st1) /\ k a st1 = Done (b, st').
Proof.
  unfold bind. destruct (m st) as [[a st1]| | |]; try discriminate.
  intros Hk. eauto.
Qed.

Lemma index_Done {A} (a : driver_state D -> list A) i st x st' :
  index a i st = Done (x, st') -> a st !! i = Some x /\ st' = st.
Proof.
  unfold index. destruct (a st !! i); [|discriminate].
  intros [= -> ->]. auto.
Qed.

Lemma config_Done bus (st : driver_state D) c st' :
  config bus st = Done (c, st') -> spi_config !! bus = Some c /\ st' = st.
Proof.
  unfold config. destruct (spi_config !! bus); [|discriminate].
  intros [= -> ->]. auto.
Qed.

Lemma assert_Done c (st : driver_state D) u st' :
  assert c st = Done (u, st') -> c = true /\ st' = st.
Proof. destruct c; cbn; [intros [= _ ->]; auto|discriminate]. Qed.



Lemma insert_set_port (bus : nat) (r : SPI_Type D) d (l : list (SPI_Type D)) :
  l !! bus = Some r -> <[bus := set_port r d]> l = alter (fun r => set_port r d) bus l.
Proof.
  intros Hr. apply list_eq. intros i.
  destruct (decide (i = bus)) as [->|Hne].
  - rewrite list_lookup_alter_eq, Hr. cbn.
    rewrite list_lookup_insert_eq; [reflexivity|]. eapply lookup_lt_Some; eauto.
  - rewrite list_lookup_alter_ne, list_lookup_insert_ne by auto. reflexivity.
Qed.

Lemma get_STAT_Done bus (st : driver_state D) v st' :
  get_STAT bus st = Done (v, st') ->
  exists d d', port_of bus st = Some d /\ read_STAT d = (v, d') /\
               st' = accessed bus d' (EvSTAT bus v) st.
Proof.
  unfold get_STAT, dev, bind, index, port_of.
  destruct (regs st !! bus) as [r|] eqn:Hr; [|discriminate].
  destruct (read_STAT (port r)) as [v0 d'] eqn:Hrd. cbn.
  intros [= -> <-]. exists (port r), d'. repeat split; [assumption|].
  unfold accessed. rewrite <- (insert_set_port _ _ _ _ Hr). reflexivity.
Qed.

Lemma get_DATA_Done bus (st : driver_state D) v st' :
  get_DATA bus st = Done (v, st') ->
  exists d d', port_of bus st = Some d /\ read_DATA d = (v, d') /\
               st' = accessed bus d' (EvDataRead bus v) st.
Proof.
  unfold get_DATA, dev, bind, index, port_of.
  destruct (regs st !! bus) as [r|] eqn:Hr; [|discriminate].
  destruct (read_DATA (port r)) as [v0 d'] eqn:Hrd. cbn.
  intros [= -> <-]. exists (port r), d'. repeat split; [assumption|].
  unfold accessed. rewrite <- (insert_set_port _ _ _ _ Hr). reflexivity.
Qed.

Lemma get_DATA8_Done bus (st : driver_state D) v st' :
  get_DATA8 bus st = Done (v, st') ->
  exists d d' w, port_of bus st = Some d /\ read_DATA8 d = (w, d') /\ v = u8 w /\
                 st' = accessed bus d' (EvDataRead bus w) st.
Proof.
  unfold get_DATA8, dev, bind, index, port_of.
  destruct (regs st !! bus) as [r|] eqn:Hr; [|discriminate].
  destruct (read_DATA8 (port r)) as [v0 d'] eqn:Hrd. cbn.
  intros [= <- <-]. exists (port r), d', v0. repeat split; [assumption|].
  unfold accessed. rewrite <- (insert_set_port _ _ _ _ Hr). reflexivity.
Qed.

Lemma put_DATA8_Done bus b (st : driver_state D) u st' :
  put_DATA8 bus b st = Done (u, st') ->
  exists d, port_of bus st = Some d /\
            st' = accessed bus (write_DATA8 b d) (EvDataWrite bus b) st.
Proof.
  unfold put_DATA8, dev, bind, index, port_of.
  destruct (regs st !! bus) as [r|] eqn:Hr; [|discriminate]. cbn.
  intros [= <- <-]. exists (port r). split; [reflexivity|].
  unfold accessed. rewrite <- (insert_set_port _ _ _ _ Hr). reflexivity.
Qed.

Lemma get_STAT_exec bus (st : driver_state D) d :
  port_of bus st = Some d ->
  get_STAT bus st =
    Done ((read_STAT d).1, accessed bus (read_STAT d).2 (EvSTAT bus (read_STAT d).1) st).
Proof.
  unfold get_STAT, dev, bind, index, port_of.
  destruct (regs st !! bus) as [r|] eqn:Hr; [|discriminate]. cbn.
  intros [= <-]. destruct (read_STAT (port r)) as [v d'] eqn:Hrd. cbn.
  unfold accessed. rewrite <- (insert_set_port _ _ _ _ Hr). reflexivity.
Qed.

Lemma put_DATA8_exec bus b (st : driver_state D) d :
  port_of bus st = Some d ->
  put_DATA8 bus b st = Done (tt, accessed bus (write_DATA8 b d) (EvDataWrite bus b) st).
Proof.
  unfold put_DATA8, dev, bind, index, port_of.
  destruct (regs st !! bus) as [r|] eqn:Hr; [|discriminate]. cbn.
  intros [= <-]. unfold accessed. rewrite <- (insert_set_port _ _ _ _ Hr). reflexivity.
Qed.

Lemma get_DATA8_exec bus (st : driver_state D) d :
  port_of bus st = Some d ->
  get_DATA8 bus st =
    Done (u8 (read_DATA8 d).1,
          accessed bus (read_DATA8 d).2 (EvDataRead bus (read_DATA8 d).1) st).
Proof.
  unfold get_DATA8, dev, bind, index, port_of.
  destruct (regs st !! bus) as [r|] eqn:Hr; [|discriminate]. cbn.
  intros [= <-]. destruct (read_DATA8 (port r)) as [v d'] eqn:Hrd. cbn.
  unfold accessed. rewrite <- (insert_set_port _ _ _ _ Hr). reflexivity.
Qed.

Lemma wait_flag_set_step fuel bus mask (st : driver_state D) d :
  port_of bus st = Some d ->
  wait_flag_set (S fuel) bus mask st =
    if flag_set (read_STAT d).1 mask
    then Done (tt, accessed bus (read_STAT d).2 (EvSTAT bus (read_STAT d).1) st)
    else wait_flag_set fuel bus mask
           (accessed bus (read_STAT d).2 (EvSTAT bus (read_STAT d).1) st).
Proof.
  intros Hport. cbn [wait_flag_set]. unfold bind.
  rewrite (get_STAT_exec bus st d Hport).
  destruct (flag_set (read_STAT d).1 mask); reflexivity.
Qed.

Lemma wait_flag_clear_step fuel bus mask (st : driver_state D) d :
  port_of bus st = Some d ->
  wait_flag_clear (S fuel) bus mask st =
    if flag_set (read_STAT d).1 mask
    then wait_flag_clear fuel bus mask
           (accessed bus (read_STAT d).2 (EvSTAT bus (read_STAT d).1) st)
    else Done (tt, accessed bus (read_STAT d).2 (EvSTAT bus (read_STAT d).1) st).
Proof.
  intros Hport. cbn [wait_flag_clear]. unfold bind.
  rewrite (get_STAT_exec bus st d Hport).
  destruct (flag_set (read_STAT d).1 mask); reflexivity.
Qed.

Lemma ctl_accessed bus d e (st : driver_state D) : ctl (accessed bus d e st) = ctl st.
Proof.
  unfold ctl, accessed. cbn. f_equal.
  apply list_eq. intros i. rewrite !list_lookup_fmap.
  destruct (decide (i = bus)) as [->|Hne].
  - rewrite list_lookup_alter_eq. destruct (regs st !! bus); reflexivity.
  - rewrite list_lookup_alter_ne by auto. reflexivity.
Qed.

Lemma trace_accessed bus d e (st : driver_state D) : trace (accessed bus d e st) = trace st ++ [e].
Proof. reflexivity. Qed.

Lemma port_of_accessed bus d e (st : driver_state D) d0 :
  port_of bus st = Some d0 -> port_of bus (accessed bus d e st) = Some d.
Proof.
  unfold port_of, accessed. cbn. rewrite list_lookup_alter_eq.
  destruct (regs st !! bus); [reflexivity|discriminate].
Qed.

End Execution.

(** ** The polling loops

    A loop that returns did so on its last status read; every state before
    that read satisfies whatever the earlier rounds preserve. *)

Section Loops.
Context `{P : Platform} {D : Type} `{HW : SpiHw D}.
Variable I : driver_state D -> Prop.
Variable bus : nat.

Lemma wait_flag_set_Done fuel mask st u st' :
  (forall s v s', I s -> get_STAT bus s = Done (v, s') ->
                  flag_set v mask = false -> I s') ->
  I st -> wait_flag_set fuel bus mask st = Done (u, st') ->
  exists s v, I s /\ get_STAT bus s = Done (v, st') /\ flag_set v mask = true.
Proof.
  intros Hstep. revert st.
  induction fuel as [|fuel IH]; intros st HI Hrun; [discriminate|].
  cbn in Hrun. apply bind_Done in Hrun as (v & s1 & Hget & Hrest).
  destruct (flag_set v mask) eqn:Hflag.
  - injection Hrest as _ <-. eauto.
  - eapply IH; [|exact Hrest]. eauto.
Qed.

Lemma wait_flag_clear_Done fuel mask st u st' :
  (forall s v s', I s -> get_STAT bus s = Done (v, s') ->
                  flag_set v mask = true -> I s') ->
  I st -> wait_flag_clear fuel bus mask st = Done (u, st') ->
  exists s v, I s /\ get_STAT bus s = Done (v, st') /\ flag_set v mask = false.
Proof.
  intros Hstep. revert st.
  induction fuel as [|fuel IH]; intros st HI Hrun; [discriminate|].
  cbn in Hrun. apply bind_Done in Hrun as (v & s1 & Hget & Hrest).
  destruct (flag_set v mask) eqn:Hflag.
  - eapply IH; [|exact Hrest]. eauto.
  - injection Hrest as _ <-. eauto.
Qed.

Lemma drain_receive_Done fuel st u st' :
  (forall s v s1 w s', I s -> get_STAT bus s = Done (v, s1) ->
                       flag_set v SPI0_STAT_RBNE_Msk = true ->
                       get_DATA bus s1 = Done (w, s') -> I s') ->
  I st -> drain_receive fuel bus st = Done (u, st') ->
  exists s v, I s /\ get_STAT bus s = Done (v, st') /\
              flag_set v SPI0_STAT_RBNE_Msk = false.
Proof.
  intros Hstep. revert st.
  induction fuel as [|fuel IH]; intros st HI Hrun; [discriminate|].
  cbn in Hrun. apply bind_Done in Hrun as (v & s1 & Hget & Hrest).
  destruct (flag_set v SPI0_STAT_RBNE_Msk) eqn:Hflag.
  - apply bind_Done in Hrest as (w & s2 & Hdata & Hrest).
    eapply IH; [|exact Hrest]. eauto.
  - injection Hrest as _ <-. eauto.
Qed.

Lemma for_loop_Done {A} (body : nat -> M D A) n i st l st' :
  (forall j s a s', I s -> body j s = Done (a, s') -> I s') ->
  I st -> for_loop n i body st = Done (l, st') -> I st'.
Proof.
  intros Hbody. revert i st l.
  induction n as [|n IH]; intros i st l HI Hrun; cbn in Hrun.
  - injection Hrun as _ <-. assumption.
  - apply bind_Done in Hrun as (a & s1 & Ha & Hrun).
    apply bind_Done in Hrun as (l' & s2 & Hl & Hret).
    injection Hret as _ <-. eapply IH; [|exact Hl]. eauto.
Qed.

End Loops.

(** ** The DMA strategy *)

Section DmaTransfer.
Context `{P : Platform} {D : Type} `{HW : SpiHw D}.

Lemma bind_emit {B} (e : event) (k : unit -> M D B) st :
  bind (emit e) k st = k tt (log e st).
Proof. reflexivity. Qed.

Lemma wait_flag_set_trace fuel bus mask (st : driver_state D) u st' :
  wait_flag_set fuel bus mask st = Done (u, st') ->
  ctl st' = ctl st /\
  exists vs, polls_until_set mask vs /\ trace st' = trace st ++ (EvSTAT bus <$> vs).
Proof.
  intros Hrun.
  eapply (wait_flag_set_Done
            (fun s => ctl s = ctl st /\
                      exists ws, Forall (fun w => flag_set w mask = false) ws /\
                                 trace s = trace st ++ (EvSTAT bus <$> ws)))
    in Hrun.
  - destruct Hrun as (s & v & (Hctl & ws & Hws & Htr) & Hget & Hv).
    apply get_STAT_Done in Hget as (d & d' & _ & _ & ->).
    split; [rewrite ctl_accessed; assumption|].
    exists (ws ++ [v]). split; [exists ws, v; auto|].
    rewrite trace_accessed, Htr, fmap_app, <- app_assoc. reflexivity.
  - intros s v s' (Hctl & ws & Hws & Htr) Hget Hv.
    apply get_STAT_Done in Hget as (d & d' & _ & _ & ->).
    split; [rewrite ctl_accessed; assumption|].
    exists (ws ++ [v]). split; [apply Forall_app; auto|].
    rewrite trace_accessed, Htr, fmap_app, <- app_assoc. reflexivity.
  - split; [reflexivity|]. exists []. split; [constructor|].
    cbn. rewrite app_nil_r. reflexivity.
Qed.

Lemma wait_flag_clear_trace fuel bus mask (st : driver_state D) u st' :
  wait_flag_clear fuel bus mask st = Done (u, st') ->
  ctl st' = ctl st /\
  exists vs, polls_until_clear mask vs /\ trace st' = trace st ++ (EvSTAT bus <$> vs).
Proof.
  intros Hrun.
  eapply (wait_flag_clear_Done
            (fun s => ctl s = ctl st /\
                      exists ws, Forall (fun w => flag_set w mask = true) ws /\
                                 trace s = trace st ++ (EvSTAT bus <$> ws)))
    in Hrun.
  - destruct Hrun as (s & v & (Hctl & ws & Hws & Htr) & Hget & Hv).
    apply get_STAT_Done in Hget as (d & d' & _ & _ & ->).
    split; [rewrite ctl_accessed; assumption|].
    exists (ws ++ [v]). split; [exists ws, v; auto|].
    rewrite trace_accessed, Htr, fmap_app, <- app_assoc. reflexivity.
  - intros s v s' (Hctl & ws & Hws & Htr) Hget Hv.
    apply get_STAT_Done in Hget as (d & d' & _ & _ & ->).
    split; [rewrite ctl_accessed; assumption|].
    exists (ws ++ [v]). split; [apply Forall_app; auto|].
    rewrite trace_accessed, Htr, fmap_app, <- app_assoc. reflexivity.
  - split; [reflexivity|]. exists []. split; [constructor|].
    cbn. rewrite app_nil_r. reflexivity.
Qed.

Lemma wait_for_end_trace fuel bus (st : driver_state D) u st' :
  _wait_for_end fuel bus st = Done (u, st') ->
  ctl st' = ctl st /\
  exists tbe trans,
    polls_until_set SPI0_STAT_TBE_Msk tbe /\
    polls_until_clear SPI0_STAT_TRANS_Msk trans /\
    trace st' = trace st ++ (EvSTAT bus <$> tbe) ++ (EvSTAT bus <$> trans).
Proof.
  unfold _wait_for_end. intros Hrun.
  apply bind_Done in Hrun as (u1 & s1 & H1 & H2).
  apply wait_flag_set_trace in H1 as (Hc1 & tbe & Htbe & Ht1).
  apply wait_flag_clear_trace in H2 as (Hc2 & trans & Htrans & Ht2).
  split; [congruence|]. exists tbe, trans. repeat split; try assumption.
  rewrite Ht2, Ht1, <- app_assoc. reflexivity.
Qed.

(** A DMA transfer is its calls of the DMA driver followed by the final
    wait. *)
Lemma transfer_dma_split fuel bus out inp len (st : driver_state D) r st' :
  _transfer_dma fuel bus out inp len st = Done (r, st') ->
  exists conf u,
    spi_config !! bus = Some conf /\
    _wait_for_end fuel bus
      (fold_left (fun s e => log e s) (dma_calls conf out inp len) st) = Done (u, st').
Proof.
  unfold _transfer_dma. intros Hrun.
  apply bind_Done in Hrun as (conf & s0 & Hconf & Hrun).
  apply config_Done in Hconf as [Hconf ->].
  exists conf.
  unfold dma_calls, dma_prepare, dma_start, dma_wait, dma_stop in *.
  destruct out, inp, DMA_CCR_EN; cbv [bind emit modify ret] in Hrun; cbn [fold_left app];
    match type of Hrun with
    | match ?w with _ => _ end = _ =>
        destruct w as [[u s1]| | |] eqn:Hend; try discriminate
    end;
    injection Hrun as _ <-; exists u; (split; [assumption|]); exact Hend.
Qed.

Lemma trace_fold_log evs (st : driver_state D) :
  trace (fold_left (fun s e => log e s) evs st) = trace st ++ evs.
Proof.
  revert st. induction evs as [|e evs IH]; intros st; cbn.
  - rewrite app_nil_r. reflexivity.
  - rewrite IH. cbn. rewrite <- app_assoc. reflexivity.
Qed.

Lemma ctl_fold_log evs (st : driver_state D) :
  ctl (fold_left (fun s e => log e s) evs st) = ctl st.
Proof.
  revert st. induction evs as [|e evs IH]; intros st; cbn; [reflexivity|].
  rewrite IH. reflexivity.
Qed.

(** C3, as amended.  A DMA transfer that returns has prepared the transmit
    channel and then the receive channel, started the receive channel and
    then the transmit channel, awaited the completion of both, and after
    that polled the status register until the transmit buffer was empty and
    then until the peripheral was no longer busy; nothing else happened. *)
Theorem transfer_dma_order fuel bus out inp len (st : driver_state D) r st' :
  _transfer_dma fuel bus out inp len st = Done (r, st') ->
  exists conf tbe trans,
    spi_config !! bus = Some conf /\
    polls_until_set SPI0_STAT_TBE_Msk tbe /\
    polls_until_clear SPI0_STAT_TRANS_Msk trans /\
    trace st' =
      trace st ++ dma_calls conf out inp len
               ++ (EvSTAT bus <$> tbe) ++ (EvSTAT bus <$> trans).
Proof.
  intros Hrun.
  apply transfer_dma_split in Hrun as (conf & u & Hconf & Hend).
  apply wait_for_end_trace in Hend as (_ & tbe & trans & Htbe & Htrans & Ht).
  exists conf, tbe, trans. repeat split; try assumption.
  rewrite Ht, trace_fold_log, <- !app_assoc. reflexivity.
Qed.

End DmaTransfer.

(** The amended order on a DMA transfer of one byte on the DMA board. *)
Lemma transfer_dma_order_witness :
  dma_run = Done ([], dma_run_end) /\
  exists conf tbe trans,
    spi_config (Platform := dma_board) !! 0%nat = Some conf /\
    polls_until_set (SPI0_STAT_TBE_Msk (Platform := dma_board)) tbe /\
    polls_until_clear (SPI0_STAT_TRANS_Msk (Platform := dma_board)) trans /\
    trace dma_run_end =
      trace (boot_state 1 loop_idle)
        ++ dma_calls (P := dma_board) conf (Some [0xAA]) true 1
        ++ (EvSTAT 0%nat <$> tbe) ++ (EvSTAT 0%nat <$> trans).
Proof.
  split; [vm_compute; reflexivity|].
  apply (transfer_dma_order (P := dma_board) (HW := loop_hw) 4 0 (Some [0xAA]) true 1
           (boot_state 1 loop_idle) [] dma_run_end).
  vm_compute. reflexivity.
Defined.

(** C3 as the specification words it fails on the order of preparation: in
    the trace of a DMA transfer the first call arms the transmit stream (2)
    and the second the receive stream (1). *)
Lemma transfer_dma_prepares_tx_first :
  trace_of dma_run =
  Some [EvDmaPrepare 2 MemOut 1 true; EvDmaPrepare 1 MemIn 1 true;
        EvDmaStart 1; EvDmaStart 2; EvDmaWait 1; EvDmaWait 2;
        EvSTAT 0 2; EvSTAT 0 2]
  /\ tx_dma dma_bus0 = 2 /\ rx_dma dma_bus0 = 1.
Proof. vm_compute. repeat split. Qed.

(** ** The exchange of bytes leaves the control registers and the pins alone *)

Section Frame.
Context `{P : Platform} {D : Type} `{HW : SpiHw D}.

Lemma io_frame_refl (st : driver_state D) : io_frame st st.
Proof.
  split; [reflexivity|]. exists []. split; [|constructor].
  rewrite app_nil_r. reflexivity.
Qed.

Lemma io_frame_trans (st s s' : driver_state D) :
  io_frame st s -> io_frame s s' -> io_frame st s'.
Proof.
  intros (Hc1 & e1 & Ht1 & Hf1) (Hc2 & e2 & Ht2 & Hf2).
  split; [congruence|]. exists (e1 ++ e2). split.
  - rewrite Ht2, Ht1, <- app_assoc. reflexivity.
  - apply Forall_app; auto.
Qed.

Lemma io_frame_accessed bus d e (st : driver_state D) :
  io_event e -> io_frame st (accessed bus d e st).
Proof.
  intros He. split; [apply ctl_accessed|].
  exists [e]. split; [reflexivity|]. constructor; [assumption|constructor].
Qed.

Lemma io_frame_log e (st : driver_state D) : io_event e -> io_frame st (log e st).
Proof.
  intros He. split; [reflexivity|].
  exists [e]. split; [reflexivity|]. constructor; [assumption|constructor].
Qed.

Lemma get_STAT_frame bus (st : driver_state D) v st' :
  get_STAT bus st = Done (v, st') -> io_frame st st'.
Proof.
  intros Hget. apply get_STAT_Done in Hget as (d & d' & _ & _ & ->).
  apply io_frame_accessed. exact Logic.I.
Qed.

Lemma get_DATA_frame bus (st : driver_state D) v st' :
  get_DATA bus st = Done (v, st') -> io_frame st st'.
Proof.
  intros Hget. apply get_DATA_Done in Hget as (d & d' & _ & _ & ->).
  apply io_frame_accessed. exact Logic.I.
Qed.

Lemma get_DATA8_frame bus (st : driver_state D) v st' :
  get_DATA8 bus st = Done (v, st') -> io_frame st st'.
Proof.
  intros Hget. apply get_DATA8_Done in Hget as (d & d' & w & _ & _ & _ & ->).
  apply io_frame_accessed. exact Logic.I.
Qed.

Lemma put_DATA8_frame bus b (st : driver_state D) u st' :
  put_DATA8 bus b st = Done (u, st') -> io_frame st st'.
Proof.
  intros Hput. apply put_DATA8_Done in Hput as (d & _ & ->).
  apply io_frame_accessed. exact Logic.I.
Qed.

Lemma load_Done buf i (st : driver_state D) b st' :
  load buf i st = Done (b, st') ->
  st' = st /\ exists l w, buf = Some l /\ l !! i = Some w /\ b = u8 w.
Proof.
  unfold load. destruct buf as [l|]; [|discriminate].
  destruct (l !! i) as [w|] eqn:Hw; [|discriminate].
  intros [= <- <-]. split; [reflexivity|]. eauto.
Qed.

Lemma wait_flag_set_frame fuel bus mask (st : driver_state D) u st' :
  wait_flag_set fuel bus mask st = Done (u, st') -> io_frame st st'.
Proof.
  intros Hrun.
  apply (wait_flag_set_Done (io_frame st)) in Hrun as (s & v & Hs & Hget & _).
  - eapply io_frame_trans; [exact Hs|]. eapply get_STAT_frame; eauto.
  - intros s v s' Hs Hget _.
    eapply io_frame_trans; [exact Hs|]. eapply get_STAT_frame; eauto.
  - apply io_frame_refl.
Qed.

Lemma wait_flag_clear_frame fuel bus mask (st : driver_state D) u st' :
  wait_flag_clear fuel bus mask st = Done (u, st') -> io_frame st st'.
Proof.
  intros Hrun.
  apply (wait_flag_clear_Done (io_frame st)) in Hrun as (s & v & Hs & Hget & _).
  - eapply io_frame_trans; [exact Hs|]. eapply get_STAT_frame; eauto.
  - intros s v s' Hs Hget _.
    eapply io_frame_trans; [exact Hs|]. eapply get_STAT_frame; eauto.
  - apply io_frame_refl.
Qed.

Lemma drain_receive_frame fuel bus (st : driver_state D) u st' :
  drain_receive fuel bus st = Done (u, st') -> io_frame st st'.
Proof.
  intros Hrun.
  apply (drain_receive_Done (io_frame st)) in Hrun as (s & v & Hs & Hget & _).
  - eapply io_frame_trans; [exact Hs|]. eapply get_STAT_frame; eauto.
  - intros s v s1 w s' Hs Hget _ Hdata.
    eapply io_frame_trans; [exact Hs|].
    eapply io_frame_trans; [eapply get_STAT_frame|eapply get_DATA_frame]; eauto.
  - apply io_frame_refl.
Qed.

Lemma wait_for_end_frame fuel bus (st : driver_state D) u st' :
  _wait_for_end fuel bus st = Done (u, st') -> io_frame st st'.
Proof.
  unfold _wait_for_end. intros Hrun.
  apply bind_Done in Hrun as (u1 & s1 & H1 & H2).
  eapply io_frame_trans;
    [eapply wait_flag_set_frame|eapply wait_flag_clear_frame]; eauto.
Qed.

(** Splits a hypothesis on a sequence of driver steps into its steps. *)
Ltac step H :=
  let a := fresh "a" in
  let s := fresh "s" in
  let Hs := fresh "Hstep" in
  match type of H with
  | bind _ _ _ = Done _ => apply bind_Done in H as (a & s & Hs & H)
  end.

Ltac frame_step :=
  match goal with
  | H : wait_flag_set _ _ _ ?s = Done _ |- io_frame ?s _ =>
      eapply io_frame_trans; [eapply wait_flag_set_frame; exact H|]
  | H : wait_flag_clear _ _ _ ?s = Done _ |- io_frame ?s _ =>
      eapply io_frame_trans; [eapply wait_flag_clear_frame; exact H|]
  | H : drain_receive _ _ ?s = Done _ |- io_frame ?s _ =>
      eapply io_frame_trans; [eapply drain_receive_frame; exact H|]
  | H : _wait_for_end _ _ ?s = Done _ |- io_frame ?s _ =>
      eapply io_frame_trans; [eapply wait_for_end_frame; exact H|]
  | H : put_DATA8 _ _ ?s = Done _ |- io_frame ?s _ =>
      eapply io_frame_trans; [eapply put_DATA8_frame; exact H|]
  | H : get_DATA8 _ ?s = Done _ |- io_frame ?s _ =>
      eapply io_frame_trans; [eapply get_DATA8_frame; exact H|]
  | H : load _ _ ?s = Done (_, ?s') |- io_frame ?s _ =>
      apply load_Done in H as [-> _]
  | H : ret _ ?s = Done (_, ?s') |- io_frame ?s _ =>
      injection H as _ <-
  end.

Lemma transfer_no_dma_frame fuel bus out inp len (st : driver_state D) r st' :
  _transfer_no_dma fuel bus out inp len st = Done (r, st') -> io_frame st st'.
Proof.
  unfold _transfer_no_dma. intros Hrun. step Hrun. step Hrun.
  injection Hrun as _ <-.
  eapply io_frame_trans; [|eapply wait_for_end_frame; eauto].
  clear Hstep0. destruct inp; cbn [negb] in Hstep.
  - destruct out as [l|].
    + eapply (for_loop_Done (io_frame st)); [|apply io_frame_refl|exact Hstep].
      intros j sj b sj' Hs Hbody. eapply io_frame_trans; [exact Hs|].
      cbv beta in Hbody.
      repeat (step Hbody). repeat frame_step. apply io_frame_refl.
    + eapply (for_loop_Done (io_frame st)); [|apply io_frame_refl|exact Hstep].
      intros j sj b sj' Hs Hbody. eapply io_frame_trans; [exact Hs|].
      cbv beta in Hbody.
      repeat (step Hbody). repeat frame_step. apply io_frame_refl.
  - repeat (step Hstep). injection Hstep as _ <-.
    eapply io_frame_trans.
    { eapply (for_loop_Done (io_frame st)); [|apply io_frame_refl|eassumption].
      intros j sj b sj' Hs Hbody. eapply io_frame_trans; [exact Hs|].
      cbv beta in Hbody.
      repeat (step Hbody). repeat frame_step. apply io_frame_refl. }
    repeat frame_step. apply io_frame_refl.
Qed.

(** A polled transfer is an exchange of bytes followed by the final wait. *)
Lemma transfer_no_dma_split fuel bus out inp len (st : driver_state D) r st' :
  _transfer_no_dma fuel bus out inp len st = Done (r, st') ->
  exists s u, io_frame st s /\ _wait_for_end fuel bus s = Done (u, st').
Proof.
  unfold _transfer_no_dma. intros Hrun. step Hrun. step Hrun.
  injection Hrun as _ <-.
  match goal with
  | H : _wait_for_end _ _ ?s = Done (?u, _) |- _ =>
      exists s, u; split; [clear H|exact H]
  end.
  destruct inp; cbn [negb] in Hstep.
  - destruct out as [l|].
    + eapply (for_loop_Done (io_frame st)); [|apply io_frame_refl|exact Hstep].
      intros j sj b sj' Hs Hbody. eapply io_frame_trans; [exact Hs|].
      cbv beta in Hbody.
      repeat (step Hbody). repeat frame_step. apply io_frame_refl.
    + eapply (for_loop_Done (io_frame st)); [|apply io_frame_refl|exact Hstep].
      intros j sj b sj' Hs Hbody. eapply io_frame_trans; [exact Hs|].
      cbv beta in Hbody.
      repeat (step Hbody). repeat frame_step. apply io_frame_refl.
  - repeat (step Hstep). injection Hstep as _ <-.
    eapply io_frame_trans.
    { eapply (for_loop_Done (io_frame st)); [|apply io_frame_refl|eassumption].
      intros j sj b sj' Hs Hbody. eapply io_frame_trans; [exact Hs|].
      cbv beta in Hbody.
      repeat (step Hbody). repeat frame_step. apply io_frame_refl. }
    repeat frame_step. apply io_frame_refl.
Qed.

Lemma transfer_dma_frame fuel bus out inp len (st : driver_state D) r st' :
  _transfer_dma fuel bus out inp len st = Done (r, st') -> io_frame st st'.
Proof.
  intros Hrun.
  apply transfer_dma_split in Hrun as (conf & u & Hconf & Hend).
  eapply io_frame_trans; [|eapply wait_for_end_frame; exact Hend].
  split; [apply ctl_fold_log|].
  exists (dma_calls conf out inp len). split; [apply trace_fold_log|].
  unfold dma_calls. destruct DMA_CCR_EN; repeat constructor.
Qed.

End Frame.

(** ** Chip-select framing *)

Section ChipSelectFraming.
Context `{P : Platform} {D : Type} `{HW : SpiHw D}.

Lemma ctl0_of_ctl bus (s s' : driver_state D) :
  ctl s' = ctl s -> ctl0_of bus s' = ctl0_of bus s.
Proof.
  intros Hctl.
  assert (Hpair : forall st : driver_state D,
             ctl0_of bus st = fst <$> ((ctl st).2 !! bus)).
  { intros st. unfold ctl0_of, ctl. cbn. rewrite list_lookup_fmap.
    destruct (regs st !! bus); reflexivity. }
  rewrite !Hpair, Hctl. reflexivity.
Qed.

Lemma gpio_out_ctl (s s' : driver_state D) :
  ctl s' = ctl s -> gpio_out s' = gpio_out s.
Proof. unfold ctl. intros [= _ _ _ Hg _]. exact Hg. Qed.

Lemma get_CTL0_Done bus (st : driver_state D) v st' :
  get_CTL0 bus st = Done (v, st') -> ctl0_of bus st = Some v /\ st' = st.
Proof.
  unfold get_CTL0, dev, bind, index, ctl0_of.
  destruct (regs st !! bus) as [r|]; [|discriminate].
  cbn. intros [= <- <-]. auto.
Qed.

Lemma put_CTL0_Done bus v (st : driver_state D) u st' :
  put_CTL0 bus v st = Done (u, st') ->
  ctl0_of bus st' = Some v /\ gpio_out st' = gpio_out st /\
  locks st' = locks st /\ clocks st' = clocks st /\ dividers st' = dividers st /\
  trace st' = trace st ++ [EvCTL0 bus v].
Proof.
  unfold put_CTL0, dev, bind, index, ctl0_of.
  destruct (regs st !! bus) as [r|] eqn:Hr; [|discriminate].
  cbn. intros [= <- <-]. cbn. repeat split.
  rewrite list_lookup_insert_eq; [reflexivity|]. eapply lookup_lt_Some; eauto.
Qed.

Lemma gpio_clear_Done cs (st : driver_state D) u st' :
  gpio_clear cs st = Done (u, st') ->
  gpio_out st' = <[cs := false]> (gpio_out st) /\ regs st' = regs st /\
  trace st' = trace st ++ [EvGpioClear cs].
Proof.
  unfold gpio_clear, bind, modify, emit. cbv beta iota.
  intros [= <- <-]. auto.
Qed.

Lemma gpio_set_Done cs (st : driver_state D) u st' :
  gpio_set cs st = Done (u, st') ->
  gpio_out st' = <[cs := true]> (gpio_out st) /\ regs st' = regs st /\
  locks st' = locks st /\ clocks st' = clocks st /\ dividers st' = dividers st /\
  trace st' = trace st ++ [EvGpioSet cs].
Proof.
  unfold gpio_set, bind, modify, emit. cbv beta iota.
  intros [= <- <-]. repeat split.
Qed.

Lemma land_lor_mask (v m : Z) : Z.land (Z.lor v m) m = m.
Proof.
  apply Z.bits_inj'. intros n _. rewrite Z.land_spec, Z.lor_spec.
  destruct (Z.testbit v n), (Z.testbit m n); reflexivity.
Qed.

Lemma flag_set_enable (v m : Z) : m <> 0 -> flag_set (Z.lor v m) m = true.
Proof.
  intros Hm. unfold flag_set. rewrite land_lor_mask.
  apply negb_true_iff, Z.eqb_neq. assumption.
Qed.

Lemma flag_set_disable (v m : Z) : flag_set (Z.land v (not32 m)) m = false.
Proof.
  unfold flag_set. rewrite <- Z.land_assoc, (Z.land_comm (not32 m)), land_not32.
  rewrite Z.land_0_r. reflexivity.
Qed.

(** One call of [spi_transfer_bytes] on a valid designator: the events it
    leaves and the state of the line when it returns. *)
Lemma transfer_bytes_events fuel bus cs cont out inp len (st : driver_state D) r st' :
  gpio_is_valid cs = true ->
  spi_transfer_bytes fuel bus cs cont out inp len st = Done (r, st') ->
  exists v evs,
    ctl0_of bus st = Some v /\ Forall io_event evs /\
    trace st' =
      trace st ++ select_events bus cs v ++ evs
               ++ (if cont then [] else release_events bus cs (Z.lor v SPI0_CTL0_SPIEN_Msk)) /\
    ctl0_of bus st' =
      Some (if cont then Z.lor v SPI0_CTL0_SPIEN_Msk
            else Z.land (Z.lor v SPI0_CTL0_SPIEN_Msk) (not32 SPI0_CTL0_SPIEN_Msk)) /\
    (cs <> SPI_HWCS_MASK -> gpio_out st' !! cs = Some (negb cont)).
Proof.
  intros Hvalid Hrun. unfold spi_transfer_bytes in Hrun. rewrite Hvalid in Hrun.
  apply bind_Done in Hrun as (u0 & s0 & Hassert & Hrun).
  apply assert_Done in Hassert as [_ ->].
  apply bind_Done in Hrun as (v & s1 & Hget & Hrun).
  apply get_CTL0_Done in Hget as [Hv ->].
  apply bind_Done in Hrun as (u1 & s1 & Hput & Hrun).
  apply put_CTL0_Done in Hput as (Hc1 & Hg1 & _ & _ & _ & Ht1).
  apply bind_Done in Hrun as (u2 & s2 & Hsel & Hrun).
  apply bind_Done in Hrun as (inbuf & s3 & Hbody & Hrun).
  apply bind_Done in Hrun as (u3 & s4 & Hrel & Hret).
  cbv beta delta [ret] in Hret. injection Hret as _ <-.
  exists v.
  (* selection *)
  assert (Hs2 : ctl0_of bus s2 = Some (Z.lor v SPI0_CTL0_SPIEN_Msk) /\
                trace s2 = trace st ++ select_events bus cs v /\
                (cs <> SPI_HWCS_MASK -> gpio_out s2 !! cs = Some false)).
  { unfold select_events. rewrite andb_true_r in Hsel.
    destruct (Z.eqb_spec cs SPI_HWCS_MASK) as [Hhw|Hsw]; cbn [negb] in Hsel.
    - cbv beta delta [ret] in Hsel. injection Hsel as _ <-.
      split; [exact Hc1|]. split; [exact Ht1|]. intros; contradiction.
    - apply gpio_clear_Done in Hsel as (Hg & Hr & Ht).
      split; [unfold ctl0_of in *; rewrite Hr; exact Hc1|].
      split; [rewrite Ht, Ht1, <- app_assoc; reflexivity|].
      intros _. rewrite Hg. apply lookup_insert_eq. }
  destruct Hs2 as (Hc2 & Ht2 & Hg2).
  (* exchange *)
  assert (Hframe : io_frame s2 s3).
  { destruct MODULE_PERIPH_DMA.
    - apply bind_Done in Hbody as (conf & s2' & Hconf & Hbody).
      apply config_Done in Hconf as [_ ->].
      destruct (_use_dma conf);
        [eapply transfer_dma_frame|eapply transfer_no_dma_frame]; eauto.
    - eapply transfer_no_dma_frame; eauto. }
  destruct Hframe as (Hctl & evs & Ht3 & Hio).
  pose proof (ctl0_of_ctl bus _ _ Hctl) as Hc3. rewrite Hc2 in Hc3.
  pose proof (gpio_out_ctl _ _ Hctl) as Hg3.
  exists evs. split; [assumption|]. split; [assumption|].
  (* release *)
  destruct cont; cbn [negb andb] in Hrel.
  - cbv beta delta [ret] in Hrel. injection Hrel as _ <-.
    split; [rewrite Ht3, Ht2, app_nil_r, <- app_assoc; reflexivity|].
    split; [assumption|]. intros Hsw. rewrite Hg3. auto.
  - apply bind_Done in Hrel as (w & s3' & Hget & Hrel).
    apply get_CTL0_Done in Hget as [Hw ->]. rewrite Hc3 in Hw. injection Hw as <-.
    apply bind_Done in Hrel as (u4 & s5 & Hput & Hrel).
    apply put_CTL0_Done in Hput as (Hc5 & Hg5 & _ & _ & _ & Ht5).
    unfold release_events.
    destruct (Z.eqb_spec cs SPI_HWCS_MASK) as [Hhw|Hsw]; cbn [negb] in Hrel.
    + cbv beta delta [ret] in Hrel. injection Hrel as _ <-.
      split; [rewrite Ht5, Ht3, Ht2, <- !app_assoc; reflexivity|].
      split; [assumption|]. intros; contradiction.
    + apply gpio_set_Done in Hrel as (Hg & Hr & _ & _ & _ & Ht).
      split; [rewrite Ht, Ht5, Ht3, Ht2, <- !app_assoc; reflexivity|].
      split; [unfold ctl0_of in *; rewrite Hr; exact Hc5|].
      intros _. rewrite Hg. apply lookup_insert_eq.
Qed.

(** A transfer with the continuation flag returns with the line low. *)
Lemma transfer_with_continuation_asserted fuel bus cs out inp len
    (st : driver_state D) r st' :
  gpio_is_valid cs = true -> SPI0_CTL0_SPIEN_Msk <> 0 ->
  spi_transfer_bytes fuel bus cs true out inp len st = Done (r, st') ->
  cs_asserted bus cs st'.
Proof.
  intros Hvalid Hm Hrun.
  apply transfer_bytes_events in Hrun as (v & evs & _ & _ & _ & Hc & Hg);
    [|assumption].
  unfold cs_asserted. destruct (Z.eqb_spec cs SPI_HWCS_MASK) as [Hhw|Hsw].
  - eexists. split; [exact Hc|]. apply flag_set_enable. assumption.
  - apply Hg. assumption.
Qed.





End ChipSelectFraming.



(** ** Acquire and release *)

Section AcquireRelease.
Context `{P : Platform} {D : Type} `{HW : SpiHw D}.

Lemma put_CTL1_Done bus v (st : driver_state D) u st' :
  put_CTL1 bus v st = Done (u, st') ->
  gpio_out st' = gpio_out st /\
  locks st' = locks st /\ clocks st' = clocks st /\ dividers st' = dividers st.
Proof.
  unfold put_CTL1, dev, bind, index.
  destruct (regs st !! bus) as [r|] eqn:Hr; [|discriminate].
  cbn. intros [= <- <-]. cbn. repeat split.
Qed.

Lemma statics_ctl (s s' : driver_state D) : ctl s' = ctl s -> statics s' = statics s.
Proof. unfold ctl, statics. intros [= -> -> -> _ _]. reflexivity. Qed.

Lemma mutex_lock_Done bus (st : driver_state D) u st' :
  mutex_lock bus st = Done (u, st') ->
  locks st !! bus = Some false /\
  st' = log (EvMutexLock bus) (set_locks (<[bus := true]> (locks st)) st).
Proof.
  unfold mutex_lock, bind, index.
  destruct (locks st !! bus) as [[]|]; try discriminate.
  cbn. intros [= <- <-]. auto.
Qed.

Lemma mutex_lock_held bus (st : driver_state D) :
  locks st !! bus = Some true -> mutex_lock bus st = Blocked.
Proof. unfold mutex_lock, bind, index. intros ->. reflexivity. Qed.

Lemma mutex_unlock_Done bus (st : driver_state D) u st' :
  mutex_unlock bus st = Done (u, st') ->
  (bus < length (locks st))%nat /\
  st' = log (EvMutexUnlock bus) (set_locks (<[bus := false]> (locks st)) st).
Proof.
  unfold mutex_unlock, bind, index.
  destruct (locks st !! bus) as [b|] eqn:Hb; [|discriminate].
  cbn. intros [= <- <-]. split; [|reflexivity]. eapply lookup_lt_Some; eauto.
Qed.

(** What a call of [spi_acquire] that returns has done to the lock and to
    the cache. *)
Lemma spi_acquire_Done bus cs mode clk (st : driver_state D) u st' :
  spi_acquire bus cs mode clk st = Done (u, st') ->
  exists conf cached br,
    (bus < SPI_NUMOF)%nat /\ spi_config !! bus = Some conf /\
    locks st !! bus = Some false /\ locks st' = <[bus := true]> (locks st) /\
    clocks st !! bus = Some cached /\ dividers st' !! bus = Some br /\
    (if clk =? cached
     then clocks st' = clocks st /\ dividers st' = dividers st
     else exists d, _get_clkdiv conf clk = Done d /\
                    clocks st' = <[bus := clk]> (clocks st) /\
                    dividers st' = <[bus := d]> (dividers st)).
Proof.
  unfold spi_acquire. intros Hrun.
  apply bind_Done in Hrun as (u0 & s0 & Hassert & Hrun).
  apply assert_Done in Hassert as [Hbus ->]. apply Nat.ltb_lt in Hbus.
  apply bind_Done in Hrun as (u1 & s1 & Hlock & Hrun).
  apply mutex_lock_Done in Hlock as [Hfree ->].
  apply bind_Done in Hrun as (conf & s2 & Hconf & Hrun).
  apply config_Done in Hconf as [Hconf ->].
  unfold periph_clk_en in Hrun. rewrite bind_emit in Hrun.
  apply bind_Done in Hrun as (cached & s3 & Hcached & Hrun).
  apply index_Done in Hcached as [Hcached ->]. cbn in Hcached.
  apply bind_Done in Hrun as (u4 & s4 & Hcache & Hrun).
  apply bind_Done in Hrun as (br & s5 & Hbr & Hrun).
  apply index_Done in Hbr as [Hbr ->].
  apply bind_Done in Hrun as (extra & s6 & Hdma & Hrun).
  apply bind_Done in Hrun as (u7 & s7 & Hctl0 & Hrun).
  apply put_CTL0_Done in Hctl0 as (_ & _ & Hl7 & Hc7 & Hd7 & _).
  assert (Hs6 : statics s6 = statics s4).
  { unfold dma_acquire, dma_setup in Hdma.
    destruct (MODULE_PERIPH_DMA && _use_dma conf).
    - rewrite !bind_emit in Hdma. cbv beta delta [ret] in Hdma.
      injection Hdma as _ <-. reflexivity.
    - cbv beta delta [ret] in Hdma. injection Hdma as _ <-. reflexivity. }
  assert (Hst' : statics st' = statics s7).
  { unfold statics. destruct (negb (extra =? 0)).
    - apply put_CTL1_Done in Hrun as (_ & -> & -> & ->). reflexivity.
    - cbv beta delta [ret] in Hrun. injection Hrun as _ <-. reflexivity. }
  assert (Hall : statics st' = statics s4).
  { rewrite Hst', <- Hs6. unfold statics. congruence. }
  unfold statics in Hall. injection Hall as Hl Hc Hd.
  exists conf, cached, br. rewrite Hl, Hc, Hd.
  split; [assumption|]. split; [assumption|]. split; [assumption|].
  destruct (Z.eqb_spec clk cached) as [Heq|Hne]; cbn [negb] in Hcache.
  - cbv beta delta [ret] in Hcache. injection Hcache as _ <-. cbn. auto.
  - apply bind_Done in Hcache as (d & sd & Hd0 & Hcache).
    unfold lift in Hd0. destruct (_get_clkdiv conf clk) as [d0| | |] eqn:Hclk;
      try discriminate.
    injection Hd0 as -> <-.
    cbv beta delta [bind modify] in Hcache. cbv beta iota in Hcache.
    injection Hcache as _ <-. cbn.
    split; [reflexivity|]. split; [assumption|]. split; [assumption|].
    exists d. auto.
Qed.

(** An acquire of a held bus does not return. *)
Lemma spi_acquire_held bus cs mode clk (st : driver_state D) :
  (bus < SPI_NUMOF)%nat -> locks st !! bus = Some true ->
  spi_acquire bus cs mode clk st = Blocked.
Proof.
  intros Hbus Hheld. unfold spi_acquire.
  apply Nat.ltb_lt in Hbus. rewrite Hbus. unfold bind at 1. cbn [assert ret].
  unfold bind at 1. rewrite mutex_lock_held by assumption. reflexivity.
Qed.

Lemma spi_release_Done bus (st : driver_state D) u st' :
  spi_release bus st = Done (u, st') ->
  (bus < length (locks st))%nat /\
  locks st' = <[bus := false]> (locks st) /\
  clocks st' = clocks st /\ dividers st' = dividers st.
Proof.
  unfold spi_release. intros Hrun.
  apply bind_Done in Hrun as (conf & s0 & Hconf & Hrun).
  apply config_Done in Hconf as [Hconf ->].
  apply bind_Done in Hrun as (u1 & s1 & Hdma & Hrun).
  assert (Hs1 : statics s1 = statics st).
  { unfold dma_release in Hdma. destruct (MODULE_PERIPH_DMA && _use_dma conf).
    - rewrite !bind_emit in Hdma. cbv in Hdma. injection Hdma as _ <-. reflexivity.
    - cbv beta delta [ret] in Hdma. injection Hdma as _ <-. reflexivity. }
  apply bind_Done in Hrun as (u2 & s2 & Hctl0 & Hrun).
  apply put_CTL0_Done in Hctl0 as (_ & _ & Hl2 & Hc2 & Hd2 & _).
  apply bind_Done in Hrun as (u3 & s3 & Hctl1 & Hrun).
  apply put_CTL1_Done in Hctl1 as (_ & Hl3 & Hc3 & Hd3).
  unfold periph_clk_dis in Hrun. rewrite bind_emit in Hrun.
  apply bind_Done in Hrun as (u4 & s4 & Hpm & Hrun).
  assert (Hs4 : statics s4 = statics s3).
  { unfold pm_unblock in Hpm. destruct GD32_PM_STOP.
    - cbv in Hpm. injection Hpm as _ <-. reflexivity.
    - cbv beta delta [ret] in Hpm. injection Hpm as _ <-. reflexivity. }
  apply mutex_unlock_Done in Hrun as [Hlen ->]. cbn.
  unfold statics in Hs1, Hs4. injection Hs1 as Hl1 Hc1 Hd1.
  injection Hs4 as Hl4 Hc4 Hd4. cbn in Hl4, Hc4, Hd4.
  rewrite Hl4, Hc4, Hd4, Hl3, Hc3, Hd3, Hl2, Hc2, Hd2, Hl1, Hc1, Hd1.
  rewrite Hl4, Hl3, Hl2, Hl1 in Hlen. auto.
Qed.

Lemma gpio_clear_statics cs (st : driver_state D) u st' :
  gpio_clear cs st = Done (u, st') -> statics st' = statics st.
Proof.
  unfold gpio_clear, bind, modify, emit. cbv beta iota.
  intros [= <- <-]. reflexivity.
Qed.

Lemma gpio_set_statics cs (st : driver_state D) u st' :
  gpio_set cs st = Done (u, st') -> statics st' = statics st.
Proof.
  unfold gpio_set, bind, modify, emit. cbv beta iota.
  intros [= <- <-]. reflexivity.
Qed.

Lemma put_CTL0_statics bus v (st : driver_state D) u st' :
  put_CTL0 bus v st = Done (u, st') -> statics st' = statics st.
Proof.
  intros Hput. apply put_CTL0_Done in Hput as (_ & _ & Hl & Hc & Hd & _).
  unfold statics. congruence.
Qed.

Lemma spi_transfer_bytes_statics fuel bus cs cont out inp len
    (st : driver_state D) r st' :
  spi_transfer_bytes fuel bus cs cont out inp len st = Done (r, st') ->
  statics st' = statics st.
Proof.
  unfold spi_transfer_bytes. intros Hrun.
  apply bind_Done in Hrun as (u0 & s0 & Hassert & Hrun).
  apply assert_Done in Hassert as [_ ->].
  apply bind_Done in Hrun as (v & s1 & Hget & Hrun).
  apply get_CTL0_Done in Hget as [_ ->].
  apply bind_Done in Hrun as (u1 & s1 & Hput & Hrun).
  apply put_CTL0_statics in Hput.
  apply bind_Done in Hrun as (u2 & s2 & Hsel & Hrun).
  assert (Hs2 : statics s2 = statics s1).
  { destruct (negb (cs =? SPI_HWCS_MASK) && gpio_is_valid cs).
    - eapply gpio_clear_statics; eauto.
    - cbv beta delta [ret] in Hsel. injection Hsel as _ <-. reflexivity. }
  apply bind_Done in Hrun as (inbuf & s3 & Hbody & Hrun).
  assert (Hs3 : statics s3 = statics s2).
  { apply statics_ctl. destruct MODULE_PERIPH_DMA.
    - apply bind_Done in Hbody as (conf & s2' & Hconf & Hbody).
      apply config_Done in Hconf as [_ ->].
      destruct (_use_dma conf);
        [eapply transfer_dma_frame|eapply transfer_no_dma_frame]; eauto.
    - eapply transfer_no_dma_frame; eauto. }
  apply bind_Done in Hrun as (u3 & s4 & Hrel & Hret).
  cbv beta delta [ret] in Hret. injection Hret as _ <-.
  assert (Hs4 : statics s4 = statics s3).
  { destruct (negb cont && gpio_is_valid cs).
    - apply bind_Done in Hrel as (w & s3' & Hget & Hrel).
      apply get_CTL0_Done in Hget as [_ ->].
      apply bind_Done in Hrel as (u4 & s5 & Hput5 & Hrel).
      apply put_CTL0_statics in Hput5. rewrite <- Hput5.
      destruct (negb (cs =? SPI_HWCS_MASK)).
      + eapply gpio_set_statics; eauto.
      + cbv beta delta [ret] in Hrel. injection Hrel as _ <-. reflexivity.
    - cbv beta delta [ret] in Hrel. injection Hrel as _ <-. reflexivity. }
  congruence.
Qed.

Lemma spi_init_cs_statics bus cs (st : driver_state D) r st' :
  spi_init_cs bus cs st = Done (r, st') -> statics st' = statics st.
Proof.
  unfold spi_init_cs, gpio_init, gpio_init_af. intros Hrun.
  destruct (SPI_NUMOF <=? bus)%nat;
    [cbv beta delta [ret] in Hrun; injection Hrun as _ <-; reflexivity|].
  destruct (negb (gpio_is_valid cs) || _);
    [cbv beta delta [ret] in Hrun; injection Hrun as _ <-; reflexivity|].
  destruct (cs =? SPI_HWCS_MASK).
  - apply bind_Done in Hrun as (conf & s0 & Hconf & Hrun).
    apply config_Done in Hconf as [_ ->].
    destruct (negb (gpio_is_valid (cs_pin conf)));
      [cbv beta delta [ret] in Hrun; injection Hrun as _ <-; reflexivity|].
    rewrite !bind_emit in Hrun. cbv beta delta [ret] in Hrun.
    injection Hrun as _ <-. reflexivity.
  - rewrite bind_emit in Hrun.
    apply bind_Done in Hrun as (u & s1 & Hset & Hrun).
    apply gpio_set_statics in Hset.
    cbv beta delta [ret] in Hrun. injection Hrun as _ <-. exact Hset.
Qed.

(** The effect of one call on the lock and the cache. *)
Lemma do_call_statics fuel c (st : driver_state D) u st' :
  do_call fuel c st = Done (u, st') ->
  match c with
  | CallAcquire bus cs mode clk => spi_acquire bus cs mode clk st = Done (u, st')
  | CallRelease bus => spi_release bus st = Done (u, st')
  | _ => statics st' = statics st
  end.
Proof.
  destruct c as [bus cs|bus cs mode clk|bus cs cont out inp len|bus]; cbn [do_call];
    intros Hrun; try exact Hrun.
  - apply bind_Done in Hrun as (r & s1 & Hcall & Hret).
    cbv beta delta [ret] in Hret. injection Hret as _ <-.
    eapply spi_init_cs_statics; eauto.
  - apply bind_Done in Hrun as (r & s1 & Hcall & Hret).
    cbv beta delta [ret] in Hret. injection Hret as _ <-.
    eapply spi_transfer_bytes_statics; eauto.
Qed.

Lemma do_run_snoc fuel run x (st : driver_state D) u st' :
  do_run fuel (run ++ [x]) st = Done (u, st') <->
  exists u1 s, do_run fuel run st = Done (u1, s) /\ do_call fuel x.2 s = Done (u, st').
Proof.
  revert st. induction run as [|[t c] run IH]; intros st; cbn [app do_run].
  - destruct x as [t c]. cbn. split.
    + intros Hrun. apply bind_Done in Hrun as (u1 & s & Hcall & Hret).
      cbv beta delta [ret] in Hret. injection Hret as <- <-.
      exists tt, st. split; [reflexivity|]. destruct u1. exact Hcall.
    + intros (u1 & s & [= _ <-] & Hcall). unfold bind. rewrite Hcall.
      destruct u. reflexivity.
  - split.
    + intros Hrun. apply bind_Done in Hrun as (u1 & s & Hcall & Hrest).
      apply IH in Hrest as (u2 & s2 & Hrun & Hlast).
      exists u2, s2. split; [|assumption]. unfold bind. rewrite Hcall. exact Hrun.
    + intros (u1 & s & Hrun & Hlast).
      apply bind_Done in Hrun as (u2 & s2 & Hcall & Hrest).
      unfold bind. rewrite Hcall. apply IH. eauto.
Qed.

End AcquireRelease.

(** ** Mutual exclusion *)

Section MutualExclusion.
Context `{P : Platform} {D : Type} `{HW : SpiHw D}.

Lemma holders_snoc bus run x : holders bus (run ++ [x]) = hold_step bus (holders bus run) x.
Proof. unfold holders. rewrite fold_left_app. reflexivity. Qed.

Lemma protocol_ok_snoc run x :
  protocol_ok (run ++ [x]) ->
  protocol_ok run /\
  (forall t bus, x = (t, CallRelease bus) -> t ∈ holders bus run).
Proof.
  intros Hok. split.
  - intros before t bus after Hrun. apply (Hok before t bus (after ++ [x])).
    rewrite Hrun, <- app_assoc. reflexivity.
  - intros t bus ->. apply (Hok run t bus []). reflexivity.
Qed.

(** Along a run the lock of a bus is held exactly while a caller has an
    open sequence on it, and there is never more than one such caller. *)
Lemma run_exclusion fuel run (st0 st : driver_state D) u :
  locks st0 = replicate SPI_NUMOF false -> protocol_ok run ->
  do_run fuel run st0 = Done (u, st) ->
  forall bus, (bus < SPI_NUMOF)%nat ->
    (length (holders bus run) <= 1)%nat /\
    locks st !! bus = Some (bool_decide (holders bus run <> [])).
Proof.
  intros Hboot. revert st u.
  induction run as [|[t c] run IH] using rev_ind; intros st u Hok Hrun bus Hbus.
  - cbv beta delta [do_run ret] in Hrun. injection Hrun as _ <-.
    split; [cbn; lia|]. rewrite Hboot. cbn. apply lookup_replicate_2. assumption.
  - apply do_run_snoc in Hrun as (u1 & s & Hrun & Hcall). cbn in Hcall.
    apply protocol_ok_snoc in Hok as [Hok Hrel].
    specialize (IH s u1 Hok Hrun).
    destruct (IH bus Hbus) as [Hlen Hlock].
    rewrite holders_snoc. apply do_call_statics in Hcall.
    destruct c as [b cs|b cs mode clk|b cs cont out inp len|b]; cbn [hold_step].
    + unfold statics in Hcall. injection Hcall as -> _ _. auto.
    + apply spi_acquire_Done in Hcall
        as (conf & cached & br & _ & _ & Hfree & -> & _).
      destruct (decide (b = bus)) as [->|Hne].
      * rewrite Hlock in Hfree. injection Hfree as Hfree.
        apply bool_decide_eq_false in Hfree.
        assert (Hnil : holders bus run = []).
        { destruct (holders bus run); [reflexivity|exfalso; apply Hfree; discriminate]. }
        rewrite Hnil. split; [cbn; lia|].
        rewrite list_lookup_insert_eq by (eapply lookup_lt_Some; eauto).
        reflexivity.
      * rewrite list_lookup_insert_ne by assumption. auto.
    + unfold statics in Hcall. injection Hcall as -> _ _. auto.
    + apply spi_release_Done in Hcall as (Hlt & -> & _).
      destruct (decide (b = bus)) as [->|Hne].
      * specialize (Hrel t bus eq_refl).
        assert (Hone : holders bus run = [t]).
        { destruct (holders bus run) as [|h [|h' l]]; cbn in Hlen; try lia.
          - inversion Hrel.
          - apply list_elem_of_singleton in Hrel. subst. reflexivity. }
        rewrite Hone.
        replace (list_difference [t] [t]) with (@nil nat).
        2:{ cbn. case_decide as Hd; [reflexivity|].
            exfalso. apply Hd. apply list_elem_of_singleton. reflexivity. }
        split; [cbn; lia|].
        rewrite list_lookup_insert_eq by assumption. reflexivity.
      * rewrite list_lookup_insert_ne by assumption. auto.
Qed.

(** C9.  In a run of calls that starts with every bus idle and in which
    only the holder of a bus releases it, at most one caller at a time has
    acquired a bus without having released it; the lock of the bus is held
    exactly then, a further acquire of the bus does not return while it is
    held, and the only call after which the lock is free again is the
    release of that bus. *)
Theorem bus_mutual_exclusion fuel run (st0 st : driver_state D) bus :
  locks st0 = replicate SPI_NUMOF false -> protocol_ok run ->
  do_run fuel run st0 = Done (tt, st) -> (bus < SPI_NUMOF)%nat ->
  (length (holders bus run) <= 1)%nat /\
  locks st !! bus = Some (bool_decide (holders bus run <> [])) /\
  (holders bus run <> [] ->
   (forall cs mode clk, spi_acquire bus cs mode clk st = Blocked) /\
   (forall c u st', do_call fuel c st = Done (u, st') ->
                    locks st' !! bus = Some false -> c = CallRelease bus)).
Proof.
  intros Hboot Hok Hrun Hbus.
  destruct (run_exclusion fuel run st0 st tt Hboot Hok Hrun bus Hbus) as [Hlen Hlock].
  split; [assumption|]. split; [assumption|].
  intros Hheld. rewrite bool_decide_eq_true_2 in Hlock by assumption.
  split.
  - intros cs mode clk. apply spi_acquire_held; assumption.
  - intros c u st' Hcall Hfree. apply do_call_statics in Hcall.
    destruct c as [b cs|b cs mode clk|b cs cont out inp len|b].
    + unfold statics in Hcall. injection Hcall as Hl _ _. congruence.
    + apply spi_acquire_Done in Hcall
        as (conf & cached & br & _ & _ & Hf & Hl & _).
      rewrite Hl in Hfree. destruct (decide (b = bus)) as [->|Hne].
      * congruence.
      * rewrite list_lookup_insert_ne in Hfree by assumption. congruence.
    + unfold statics in Hcall. injection Hcall as Hl _ _. congruence.
    + apply spi_release_Done in Hcall as (_ & Hl & _).
      destruct (decide (b = bus)) as [->|Hne]; [reflexivity|].
      rewrite Hl, list_lookup_insert_ne in Hfree by assumption. congruence.
Qed.

End MutualExclusion.

(** ** The clock cache *)

Section ClockCache.
Context `{P : Platform} {D : Type} `{HW : SpiHw D}.

Lemma cache_valid_boot n (d : D) : cache_valid (boot_state n d).
Proof.
  intros bus conf clk _ Hclk Hne. cbn in Hclk.
  apply lookup_replicate in Hclk as [-> _]. contradiction.
Qed.

Lemma cache_valid_same (st st' : driver_state D) :
  clocks st' = clocks st -> dividers st' = dividers st ->
  cache_valid st -> cache_valid st'.
Proof.
  intros Hc Hd Hvalid bus conf clk. rewrite Hc, Hd. apply Hvalid.
Qed.

Lemma cache_valid_acquire bus cs mode clk (st : driver_state D) u st' :
  cache_valid st -> spi_acquire bus cs mode clk st = Done (u, st') ->
  cache_valid st'.
Proof.
  intros Hvalid Hrun.
  apply spi_acquire_Done in Hrun
    as (conf & cached & br & _ & Hconf & _ & _ & Hcached & Hbr & Hupd).
  destruct (clk =? cached).
  - destruct Hupd as [Hc Hd]. eapply cache_valid_same; eauto.
  - destruct Hupd as (d & Hclk & Hc & Hd).
    intros bus' conf' clk' Hconf' Hclk' Hne. rewrite Hc in Hclk'. rewrite Hd.
    destruct (decide (bus' = bus)) as [->|Hother].
    + rewrite list_lookup_insert_eq in Hclk' by (eapply lookup_lt_Some; eauto).
      injection Hclk' as <-.
      assert (conf' = conf) by congruence. subst conf'.
      exists d. split; [|assumption].
      apply list_lookup_insert_eq.
      rewrite Hd in Hbr. apply lookup_lt_Some in Hbr.
      rewrite length_insert in Hbr. assumption.
    + rewrite list_lookup_insert_ne in Hclk' by auto.
      rewrite list_lookup_insert_ne by auto. eauto.
Qed.

Lemma cache_valid_call fuel c (st : driver_state D) u st' :
  cache_valid st -> do_call fuel c st = Done (u, st') -> cache_valid st'.
Proof.
  intros Hvalid Hcall. apply do_call_statics in Hcall.
  destruct c as [b cs|b cs mode clk|b cs cont out inp len|b].
  - unfold statics in Hcall. injection Hcall as _ Hc Hd.
    eapply cache_valid_same; eauto.
  - eapply cache_valid_acquire; eauto.
  - unfold statics in Hcall. injection Hcall as _ Hc Hd.
    eapply cache_valid_same; eauto.
  - apply spi_release_Done in Hcall as (_ & _ & Hc & Hd).
    eapply cache_valid_same; eauto.
Qed.

Lemma cache_valid_run fuel run (st0 st : driver_state D) u :
  cache_valid st0 -> do_run fuel run st0 = Done (u, st) -> cache_valid st.
Proof.
  revert st0. induction run as [|[t c] run IH]; intros st0 Hvalid Hrun;
    cbn [do_run] in Hrun.
  - cbv beta delta [ret] in Hrun. injection Hrun as _ <-. assumption.
  - apply bind_Done in Hrun as (u1 & s & Hcall & Hrest).
    eapply IH; [|exact Hrest]. eapply cache_valid_call; eauto.
Qed.

(** C5.  In every state a run of calls reaches from a state with a valid
    cache (the boot state is one), the cached divider of a bus whose cached
    clock is not 0 is the divider [_get_clkdiv] computes for that clock; and
    an acquire in such a state leaves both cache arrays as they are when the
    requested clock is the cached one, and otherwise stores the requested
    clock and its divider at the index of the bus. *)
Theorem acquire_cache_invariant fuel run (st0 st : driver_state D) :
  cache_valid st0 -> do_run fuel run st0 = Done (tt, st) ->
  cache_valid st /\
  forall bus cs mode clk conf cached st',
    spi_config !! bus = Some conf -> clocks st !! bus = Some cached ->
    spi_acquire bus cs mode clk st = Done (tt, st') ->
    cache_valid st' /\
    (clk = cached -> clocks st' = clocks st /\ dividers st' = dividers st) /\
    (clk <> cached ->
     exists d, _get_clkdiv conf clk = Done d /\
               clocks st' = <[bus := clk]> (clocks st) /\
               dividers st' = <[bus := d]> (dividers st)).
Proof.
  intros Hvalid0 Hrun.
  pose proof (cache_valid_run _ _ _ _ _ Hvalid0 Hrun) as Hvalid.
  split; [assumption|].
  intros bus cs mode clk conf cached st' Hconf Hcached Hacq.
  split; [eapply cache_valid_acquire; eauto|].
  apply spi_acquire_Done in Hacq
    as (conf' & cached' & br & _ & Hconf' & _ & _ & Hcached' & _ & Hupd).
  assert (conf' = conf) by congruence.
  assert (cached' = cached) by congruence. subst conf' cached'.
  destruct (Z.eqb_spec clk cached) as [Heq|Hne].
  - split; [auto|]. intros; contradiction.
  - split; [intros; contradiction|]. intros _. exact Hupd.
Qed.

(** C6.  [_get_clkdiv] depends on the bus descriptor through its input
    clock only, so that equal bus clocks and equal requests give equal
    results; and an acquire that follows an acquire and a release with the
    same requested clock leaves the cached clocks and dividers as the first
    acquire left them. *)
Theorem clkdiv_deterministic_idempotent bus cs mode cs' mode' clk conf conf'
    (st st1 st2 st3 : driver_state D) :
  periph_apb_clk (apbbus conf) = periph_apb_clk (apbbus conf') ->
  spi_acquire bus cs mode clk st = Done (tt, st1) ->
  spi_release bus st1 = Done (tt, st2) ->
  spi_acquire bus cs' mode' clk st2 = Done (tt, st3) ->
  _get_clkdiv conf clk = _get_clkdiv conf' clk /\
  clocks st3 = clocks st1 /\ dividers st3 = dividers st1.
Proof.
  intros HB H1 H2 H3. split.
  - unfold _get_clkdiv. rewrite HB. reflexivity.
  - apply spi_acquire_Done in H1
      as (c1 & cached1 & br1 & _ & _ & _ & _ & Hcached1 & Hbr1 & Hupd1).
    apply spi_release_Done in H2 as (_ & _ & Hc2 & Hd2).
    apply spi_acquire_Done in H3
      as (c3 & cached3 & br3 & _ & _ & _ & _ & Hcached3 & _ & Hupd3).
    assert (Hclk1 : clocks st1 !! bus = Some clk).
    { destruct (Z.eqb_spec clk cached1) as [->|Hne].
      - destruct Hupd1 as [-> _]. assumption.
      - destruct Hupd1 as (d & _ & -> & _).
        apply list_lookup_insert_eq. eapply lookup_lt_Some; eauto. }
    rewrite Hc2, Hclk1 in Hcached3. injection Hcached3 as <-.
    rewrite Z.eqb_refl in Hupd3. destruct Hupd3 as [-> ->]. auto.
Qed.

(** C10.  [_get_clkdiv] divides by [2 * clock] unguarded: for a requested
    clock of 0 it divides by zero, and so does every acquire of a free bus
    in range with a requested clock of 0 while another clock is cached. *)
Theorem acquire_zero_clock_divides_by_zero bus cs mode cached (st : driver_state D) :
  (bus < SPI_NUMOF)%nat -> locks st !! bus = Some false ->
  clocks st !! bus = Some cached -> cached <> 0 ->
  (forall conf, _get_clkdiv conf 0 = Fault DivisionByZero) /\
  spi_acquire bus cs mode 0 st = Fault DivisionByZero.
Proof.
  intros Hbus Hfree Hcached Hne.
  assert (Hdiv : forall conf, _get_clkdiv conf 0 = Fault DivisionByZero)
    by reflexivity.
  split; [assumption|].
  destruct (lookup_lt_is_Some_2 spi_config bus Hbus) as [conf Hconf].
  unfold spi_acquire. apply Nat.ltb_lt in Hbus. rewrite Hbus.
  unfold bind at 1. cbn [assert ret].
  unfold bind at 1, mutex_lock, bind at 1, index at 1. rewrite Hfree.
  cbv beta iota delta [bind modify emit].
  unfold config. rewrite Hconf. unfold periph_clk_en, emit, modify, index.
  cbn. rewrite Hcached.
  destruct cached; [congruence|reflexivity|reflexivity].
Qed.

End ClockCache.

(** ** The receive path after a polled transfer *)

Section ReceivePath.
Context `{P : Platform} {D : Type} `{HW : SpiHw D}.
Variable L : SpiHwLaws D.
Variable bus : nat.

Local Abbreviation total d := (rx_pending L d + in_flight L d)%nat.

Lemma get_STAT_port (st : driver_state D) v st' :
  get_STAT bus st = Done (v, st') ->
  exists d, port_of bus st = Some d /\
            (read_STAT d).1 = v /\ port_of bus st' = Some (read_STAT d).2.
Proof.
  intros Hget. apply get_STAT_Done in Hget as (d & d' & Hd & Hrd & ->).
  exists d. rewrite Hrd. split; [assumption|]. split; [reflexivity|].
  eapply port_of_accessed; eauto.
Qed.

Lemma get_STAT_sat (Q : D -> Prop) (st : driver_state D) v st' :
  (forall d, Q d -> Q (read_STAT d).2) ->
  port_sat bus Q st -> get_STAT bus st = Done (v, st') -> port_sat bus Q st'.
Proof.
  intros Hstable (d & Hd & HQ) Hget.
  apply get_STAT_port in Hget as (d0 & Hd0 & _ & Hd').
  assert (d0 = d) by congruence. subst d0.
  exists (read_STAT d).2. auto.
Qed.

Lemma wait_flag_set_sat (Q : D -> Prop) fuel mask (st : driver_state D) u st' :
  (forall d, Q d -> Q (read_STAT d).2) ->
  port_sat bus Q st -> wait_flag_set fuel bus mask st = Done (u, st') ->
  port_sat bus (fun d' => exists d, Q d /\ d' = (read_STAT d).2 /\
                                    flag_set (read_STAT d).1 mask = true) st'.
Proof.
  intros Hstable Hsat Hrun.
  apply (wait_flag_set_Done (port_sat bus Q)) in Hrun
    as (s & v & (d & Hd & HQ) & Hget & Hflag); [|eauto using get_STAT_sat|assumption].
  apply get_STAT_port in Hget as (d0 & Hd0 & Hv & Hd').
  assert (d0 = d) by congruence. subst d0 v.
  exists (read_STAT d).2. split; [assumption|]. eauto.
Qed.

Lemma wait_flag_clear_sat (Q : D -> Prop) fuel mask (st : driver_state D) u st' :
  (forall d, Q d -> Q (read_STAT d).2) ->
  port_sat bus Q st -> wait_flag_clear fuel bus mask st = Done (u, st') ->
  port_sat bus (fun d' => exists d, Q d /\ d' = (read_STAT d).2 /\
                                    flag_set (read_STAT d).1 mask = false) st'.
Proof.
  intros Hstable Hsat Hrun.
  apply (wait_flag_clear_Done (port_sat bus Q)) in Hrun
    as (s & v & (d & Hd & HQ) & Hget & Hflag); [|eauto using get_STAT_sat|assumption].
  apply get_STAT_port in Hget as (d0 & Hd0 & Hv & Hd').
  assert (d0 = d) by congruence. subst d0 v.
  exists (read_STAT d).2. split; [assumption|]. eauto.
Qed.

Lemma port_sat_impl (Q R : D -> Prop) (st : driver_state D) :
  (forall d, Q d -> R d) -> port_sat bus Q st -> port_sat bus R st.
Proof. intros HQR (d & Hd & HQ). exists d. auto. Qed.

(** A state that a status read has produced has a port. *)
Lemma wait_flag_set_has_port fuel mask (st : driver_state D) u st' :
  wait_flag_set fuel bus mask st = Done (u, st') -> port_sat bus (fun _ => True) st'.
Proof.
  intros Hrun.
  apply (wait_flag_set_Done (fun _ => True)) in Hrun as (s & v & _ & Hget & _); auto.
  apply get_STAT_port in Hget as (d & _ & _ & Hd'). eexists; eauto.
Qed.

Lemma total_zero_stable d : total d = 0%nat -> total (read_STAT d).2 = 0%nat.
Proof. intros Hz. pose proof (stat_total L d). lia. Qed.

(** The final wait leaves an empty receive path empty. *)
Lemma wait_for_end_empty fuel (st : driver_state D) u st' :
  port_sat bus (fun d => total d = 0%nat) st ->
  _wait_for_end fuel bus st = Done (u, st') ->
  port_sat bus (fun d => total d = 0%nat) st'.
Proof.
  unfold _wait_for_end. intros Hsat Hrun.
  apply bind_Done in Hrun as (u1 & s1 & H1 & H2).
  apply (wait_flag_set_sat (fun d => total d = 0%nat)) in H1;
    [|apply total_zero_stable|exact Hsat].
  apply (port_sat_impl _ (fun d => total d = 0%nat)) in H1;
    [|intros d' (d & Hz & -> & _); apply total_zero_stable; exact Hz].
  apply (wait_flag_clear_sat (fun d => total d = 0%nat)) in H2;
    [|apply total_zero_stable|exact H1].
  eapply port_sat_impl; [|exact H2].
  intros d' (d & Hz & -> & _). apply total_zero_stable. exact Hz.
Qed.

(** The output-only path: once the peripheral is no longer busy, the drain
    loop runs until nothing is pending. *)
Lemma output_only_drained fuel out len (st : driver_state D) r st' :
  _transfer_no_dma fuel bus out false len st = Done (r, st') ->
  port_sat bus (fun d => total d = 0%nat) st'.
Proof.
  unfold _transfer_no_dma. cbn [negb]. intros Hrun.
  apply bind_Done in Hrun as (inbuf & s & Hpath & Hrun).
  apply bind_Done in Hrun as (u & s' & Hend & Hret).
  cbv beta delta [ret] in Hret. injection Hret as _ <-.
  eapply wait_for_end_empty; [|exact Hend]. clear Hend.
  apply bind_Done in Hpath as (l & s1 & _ & Hpath).
  apply bind_Done in Hpath as (u1 & s2 & Htbe & Hpath).
  apply bind_Done in Hpath as (u2 & s3 & Htrans & Hpath).
  apply bind_Done in Hpath as (u3 & s4 & Hdrain & Hret).
  cbv beta delta [ret] in Hret. injection Hret as _ <-.
  apply wait_flag_set_has_port in Htbe.
  apply (wait_flag_clear_sat (fun _ => True)) in Htrans; [|auto|exact Htbe].
  assert (Hidle : port_sat bus (fun d => in_flight L d = 0%nat) s3).
  { eapply port_sat_impl; [|exact Htrans].
    intros d' (d & _ & -> & Hflag). apply (stat_TRANS L). exact Hflag. }
  apply (drain_receive_Done (port_sat bus (fun d => in_flight L d = 0%nat)))
    in Hdrain as (sd & v & (d & Hd & Hz) & Hget & Hflag); [| |exact Hidle].
  - apply get_STAT_port in Hget as (d0 & Hd0 & Hv & Hd').
    assert (d0 = d) by congruence. subst d0 v.
    exists (read_STAT d).2. split; [assumption|].
    pose proof (stat_in_flight L d) as Hfl.
    destruct (rx_pending L (read_STAT d).2) as [|n] eqn:Hrx; [lia|].
    assert (Hset : flag_set (read_STAT d).1 SPI0_STAT_RBNE_Msk = true)
      by (apply (stat_RBNE L); lia).
    congruence.
  - intros sa v s1' w sb (d & Hd & Hz) Hget _ Hdata.
    apply get_STAT_port in Hget as (d0 & Hd0 & _ & Hd').
    assert (d0 = d) by congruence. subst d0.
    apply get_DATA_Done in Hdata as (d1 & d2 & Hd1 & Hrd & ->).
    exists d2. split; [eapply port_of_accessed; eauto|].
    assert (d1 = (read_STAT d).2) by congruence. subst d1.
    pose proof (stat_in_flight L d). pose proof (read_in_flight L (read_STAT d).2) as Hr.
    rewrite Hrd in Hr. cbn in Hr. lia.
Qed.

(** The input-only path: every round writes one byte and takes one byte
    out of the receive path. *)
Lemma input_only_balanced fuel len (st : driver_state D) r st' :
  port_sat bus (fun d => total d = 0%nat) st ->
  _transfer_no_dma fuel bus None true len st = Done (r, st') ->
  port_sat bus (fun d => total d = 0%nat) st'.
Proof.
  unfold _transfer_no_dma. cbn [negb]. intros Hsat Hrun.
  apply bind_Done in Hrun as (inbuf & s & Hloop & Hrun).
  apply bind_Done in Hrun as (u & s' & Hend & Hret).
  cbv beta delta [ret] in Hret. injection Hret as _ <-.
  eapply wait_for_end_empty; [|exact Hend]. clear Hend.
  eapply (for_loop_Done (port_sat bus (fun d => total d = 0%nat)));
    [|exact Hsat|exact Hloop].
  clear. intros j sa b sb Hsa Hbody. cbv beta in Hbody.
  apply bind_Done in Hbody as (u1 & s1 & Htbe & Hbody).
  apply bind_Done in Hbody as (u2 & s2 & Hput & Hbody).
  apply bind_Done in Hbody as (u3 & s3 & Hrbne & Hget).
  apply (wait_flag_set_sat (fun d => total d = 0%nat)) in Htbe;
    [|apply total_zero_stable|exact Hsa].
  destruct Htbe as (d1 & Hd1 & d0 & Hz0 & -> & _).
  apply total_zero_stable in Hz0.
  apply put_DATA8_Done in Hput as (d1' & Hd1' & ->).
  assert (d1' = (read_STAT d0).2) by congruence. subst d1'.
  assert (Hs2 : port_sat bus (fun d => (total d <= 1)%nat)
                  (accessed bus (write_DATA8 0 (read_STAT d0).2) (EvDataWrite bus 0) s1)).
  { eexists. split; [eapply port_of_accessed; eauto|].
    pose proof (write_total L 0 (read_STAT d0).2). lia. }
  apply (wait_flag_set_sat (fun d => (total d <= 1)%nat)) in Hrbne; [| |exact Hs2].
  2:{ intros d Hd. pose proof (stat_total L d). lia. }
  destruct Hrbne as (d3 & Hd3 & d2 & Hle & -> & Hflag).
  apply (stat_RBNE L) in Hflag.
  apply get_DATA8_Done in Hget as (d3' & d4 & w & Hd3' & Hrd & _ & ->).
  assert (d3' = (read_STAT d2).2) by congruence. subst d3'.
  exists d4. split; [eapply port_of_accessed; eauto|].
  pose proof (stat_total L d2).
  pose proof (read8_total L (read_STAT d2).2 Hflag) as Hr.
  rewrite Hrd in Hr. cbn in Hr. lia.
Qed.

(** C8.  With a peripheral whose receive path obeys [SpiHwLaws]: when an
    output-only polled transfer returns, no byte is pending in the receive
    path and none is in flight, whatever the state it started in; and an
    input-only polled transfer that starts with an empty receive path
    returns with an empty receive path. *)
Theorem polled_shortcuts_leave_receive_path_empty fuel out len
    (st : driver_state D) r st' :
  (_transfer_no_dma fuel bus out false len st = Done (r, st') ->
   exists d', port_of bus st' = Some d' /\
              rx_pending L d' = 0%nat /\ in_flight L d' = 0%nat) /\
  (forall d, port_of bus st = Some d ->
             rx_pending L d = 0%nat -> in_flight L d = 0%nat ->
             _transfer_no_dma fuel bus None true len st = Done (r, st') ->
             exists d', port_of bus st' = Some d' /\
                        rx_pending L d' = 0%nat /\ in_flight L d' = 0%nat).
Proof.
  split.
  - intros Hrun. apply output_only_drained in Hrun as (d' & Hd' & Hz).
    exists d'. split; [assumption|]. lia.
  - intros d Hd Hrx Hfl Hrun.
    apply input_only_balanced in Hrun as (d' & Hd' & Hz).
    + exists d'. split; [assumption|]. lia.
    + exists d. split; [assumption|]. lia.
Qed.

End ReceivePath.

(** ** The loopback peripheral obeys the laws of the receive path *)

Lemma loop_tick_total (d : loop_port) :
  (loop_rx_pending (loop_tick d) + loop_in_flight (loop_tick d)
   = loop_rx_pending d + loop_in_flight d)%nat.
Proof.
  destruct d as [tx [b|] rx]; unfold loop_tick, loop_rx_pending, loop_in_flight; cbn.
  - rewrite length_app. cbn. lia.
  - destruct tx; cbn; lia.
Qed.

Lemma loop_tick_in_flight (d : loop_port) :
  (loop_in_flight (loop_tick d) <= loop_in_flight d)%nat.
Proof.
  destruct d as [tx [b|] rx]; unfold loop_tick, loop_in_flight; cbn; [lia|].
  destruct tx; cbn; lia.
Qed.

Lemma loop_status_RBNE (d : loop_port) :
  flag_set (loop_status d) 0x01 = true <-> (0 < loop_rx_pending d)%nat.
Proof.
  destruct d as [[|b tx] [w|] [|r rx]];
    unfold loop_status, loop_busy, loop_rx_pending; cbn;
    (split; [intros Hf; try discriminate Hf; lia|intros Hl; try reflexivity; lia]).
Qed.

Lemma loop_status_TRANS (d : loop_port) :
  flag_set (loop_status d) 0x80 = false -> loop_in_flight d = 0%nat.
Proof.
  destruct d as [[|b tx] [w|] [|r rx]];
    unfold loop_status, loop_busy, loop_in_flight; cbn;
    intros Hf; try discriminate Hf; reflexivity.
Qed.

Lemma loop_write_total b (d : loop_port) :
  (loop_rx_pending (write_DATA8 (SpiHw := loop_hw) b d)
   + loop_in_flight (write_DATA8 (SpiHw := loop_hw) b d)
   <= S (loop_rx_pending d + loop_in_flight d))%nat.
Proof.
  destruct d as [tx w rx]. unfold loop_rx_pending, loop_in_flight. cbn.
  rewrite length_app. cbn. lia.
Qed.

Lemma loop_read8_total (d : loop_port) :
  (0 < loop_rx_pending d)%nat ->
  (S (loop_rx_pending (read_DATA8 (SpiHw := loop_hw) d).2
      + loop_in_flight (read_DATA8 (SpiHw := loop_hw) d).2)
   <= loop_rx_pending d + loop_in_flight d)%nat.
Proof.
  destruct d as [tx w [|r rx]]; unfold loop_rx_pending, loop_in_flight; cbn; lia.
Qed.

Lemma loop_read_total (d : loop_port) :
  (loop_rx_pending (read_DATA (SpiHw := loop_hw) d).2
   + loop_in_flight (read_DATA (SpiHw := loop_hw) d).2
   <= loop_rx_pending d + loop_in_flight d)%nat.
Proof.
  destruct d as [tx w [|r [|r' rx]]]; unfold loop_rx_pending, loop_in_flight; cbn; lia.
Qed.

Lemma loop_read_in_flight (d : loop_port) :
  (loop_in_flight (read_DATA (SpiHw := loop_hw) d).2 <= loop_in_flight d)%nat.
Proof.
  destruct d as [tx w [|r [|r' rx]]]; unfold loop_in_flight; cbn; lia.
Qed.

Lemma loop_stat_total (d : loop_port) :
  (loop_rx_pending (read_STAT (SpiHw := loop_hw) d).2
   + loop_in_flight (read_STAT (SpiHw := loop_hw) d).2
   <= loop_rx_pending d + loop_in_flight d)%nat.
Proof. cbn. rewrite loop_tick_total. reflexivity. Qed.

Lemma loop_stat_in_flight (d : loop_port) :
  (loop_in_flight (read_STAT (SpiHw := loop_hw) d).2 <= loop_in_flight d)%nat.
Proof. cbn. apply loop_tick_in_flight. Qed.

Lemma loop_stat_RBNE (d : loop_port) :
  flag_set (read_STAT (SpiHw := loop_hw) d).1 (SPI0_STAT_RBNE_Msk (Platform := board)) = true
  <-> (0 < loop_rx_pending (read_STAT (SpiHw := loop_hw) d).2)%nat.
Proof. cbn. apply loop_status_RBNE. Qed.

Lemma loop_stat_TRANS (d : loop_port) :
  flag_set (read_STAT (SpiHw := loop_hw) d).1 (SPI0_STAT_TRANS_Msk (Platform := board)) = false ->
  loop_in_flight (read_STAT (SpiHw := loop_hw) d).2 = 0%nat.
Proof. cbn. apply loop_status_TRANS. Qed.

Definition loop_laws : SpiHwLaws (P := board) (HW := loop_hw) loop_port := {|
  rx_pending := loop_rx_pending;
  in_flight := loop_in_flight;
  stat_total := loop_stat_total;
  stat_in_flight := loop_stat_in_flight;
  stat_RBNE := loop_stat_RBNE;
  stat_TRANS := loop_stat_TRANS;
  write_total := loop_write_total;
  read8_total := loop_read8_total;
  read_total := loop_read_total;
  read_in_flight := loop_read_in_flight
|}.

(** ** Full-duplex transfers on the loopback peripheral *)

Section Loopback.
Variable bus : nat.

(** On an idle peripheral the wait for an empty transmit buffer returns at
    its first status read. *)
Lemma loop_wait_tbe fuel (st : driver_state loop_port) :
  port_of bus st = Some loop_idle ->
  wait_flag_set (HW := loop_hw) (S fuel) bus 0x02 st
  = Done (tt, accessed bus loop_idle (EvSTAT bus 2) st).
Proof.
  intros Hport.
  rewrite (wait_flag_set_step (HW := loop_hw) fuel bus 2 st loop_idle Hport).
  reflexivity.
Qed.

(** A byte written to an idle peripheral is received at the second status
    read. *)
Lemma loop_wait_rbne fuel b (st : driver_state loop_port) :
  port_of bus st = Some {| tx_buf := [b]; on_wire := None; rx_buf := [] |} ->
  exists st',
    wait_flag_set (HW := loop_hw) (S (S fuel)) bus 0x01 st = Done (tt, st') /\
    port_of bus st' = Some {| tx_buf := []; on_wire := None; rx_buf := [b] |}.
Proof.
  intros Hport.
  rewrite (wait_flag_set_step (HW := loop_hw) (S fuel) bus 1 st _ Hport).
  change (read_STAT (SpiHw := loop_hw) {| tx_buf := [b]; on_wire := None; rx_buf := [] |})
    with (130, {| tx_buf := []; on_wire := Some b; rx_buf := [] |}).
  cbn [fst snd]. change (flag_set 130 1) with false. cbv iota.
  erewrite (wait_flag_set_step (HW := loop_hw) fuel bus 1);
    [|eapply port_of_accessed; eauto].
  change (read_STAT (SpiHw := loop_hw) {| tx_buf := []; on_wire := Some b; rx_buf := [] |})
    with (3, {| tx_buf := []; on_wire := None; rx_buf := [b] |}).
  cbn [fst snd]. change (flag_set 3 1) with true. cbv iota.
  eexists. split; [reflexivity|].
  eapply port_of_accessed. eapply port_of_accessed; eauto.
Qed.

Lemma loop_round fuel out i b (st : driver_state loop_port) :
  port_of bus st = Some loop_idle -> out !! i = Some b ->
  exists st',
    (wait_flag_set (HW := loop_hw) (S (S fuel)) bus 0x02;;
     v <- load (Some out) i;;
     put_DATA8 (HW := loop_hw) bus v;;
     wait_flag_set (HW := loop_hw) (S (S fuel)) bus 0x01;;
     get_DATA8 (HW := loop_hw) bus)%drv st = Done (u8 b, st') /\
    port_of bus st' = Some loop_idle.
Proof.
  intros Hport Hb.
  unfold bind at 1. rewrite loop_wait_tbe by assumption.
  unfold bind at 1, load. rewrite Hb. cbn [ret].
  assert (Hp1 : port_of bus (accessed bus loop_idle (EvSTAT bus 2) st) = Some loop_idle)
    by (eapply port_of_accessed; eauto).
  unfold bind at 1. rewrite (put_DATA8_exec (HW := loop_hw) bus (u8 b) _ _ Hp1).
  match goal with
  | |- context [accessed bus (write_DATA8 ?v ?d) ?e ?s] =>
      assert (Hp2 : port_of bus (accessed bus (write_DATA8 (SpiHw := loop_hw) v d) e s)
                    = Some {| tx_buf := [u8 b]; on_wire := None; rx_buf := [] |})
        by (eapply port_of_accessed; eauto)
  end.
  destruct (loop_wait_rbne fuel (u8 b) _ Hp2) as (s3 & Hwait & Hp3).
  unfold bind at 1. rewrite Hwait.
  rewrite (get_DATA8_exec (HW := loop_hw) bus s3 _ Hp3). cbn.
  eexists. split.
  - f_equal. f_equal. unfold u8. apply Z.mod_mod. lia.
  - eapply port_of_accessed; eauto.
Qed.

Lemma loop_for_loop fuel out n i (st : driver_state loop_port) :
  port_of bus st = Some loop_idle -> (i + n)%nat = length out ->
  exists st',
    for_loop n i (fun i =>
      wait_flag_set (HW := loop_hw) (S (S fuel)) bus 0x02;;
      v <- load (Some out) i;;
      put_DATA8 (HW := loop_hw) bus v;;
      wait_flag_set (HW := loop_hw) (S (S fuel)) bus 0x01;;
      get_DATA8 (HW := loop_hw) bus)%drv st = Done (u8 <$> drop i out, st') /\
    port_of bus st' = Some loop_idle.
Proof.
  revert i st. induction n as [|n IH]; intros i st Hport Hlen.
  - exists st. split; [|assumption]. cbn.
    rewrite drop_ge by lia. reflexivity.
  - destruct (lookup_lt_is_Some_2 out i ltac:(lia)) as [b Hb].
    destruct (loop_round fuel out i b st Hport Hb) as (s1 & Hround & Hp1).
    destruct (IH (S i) s1 Hp1 ltac:(lia)) as (s2 & Hrest & Hp2).
    exists s2. split; [|assumption].
    cbn [for_loop]. unfold bind at 1. rewrite Hround.
    unfold bind at 1. rewrite Hrest. cbn.
    rewrite (drop_S out b i Hb). reflexivity.
Qed.

(** On the loopback peripheral a full-duplex polled transfer with at least
    two status reads per wait returns, and what it stores into the input
    buffer is the output buffer, byte for byte. *)
Theorem loopback_round_trip fuel out (st : driver_state loop_port) :
  port_of bus st = Some loop_idle ->
  exists st',
    _transfer_no_dma (P := board) (HW := loop_hw) (S (S fuel)) bus (Some out) true
      (length out) st = Done (u8 <$> out, st') /\
    port_of bus st' = Some loop_idle.
Proof.
  intros Hport. unfold _transfer_no_dma. cbn [negb].
  destruct (loop_for_loop fuel out (length out) 0 st Hport eq_refl)
    as (s1 & Hloop & Hp1).
  unfold bind at 1.
  change (SPI0_STAT_TBE_Msk (Platform := board)) with 0x02.
  change (SPI0_STAT_RBNE_Msk (Platform := board)) with 0x01.
  rewrite Hloop. rewrite drop_0.
  unfold bind at 1, _wait_for_end, bind at 1.
  change (SPI0_STAT_TBE_Msk (Platform := board)) with 0x02.
  rewrite loop_wait_tbe by assumption.
  change (SPI0_STAT_TRANS_Msk (Platform := board)) with 0x80.
  erewrite (wait_flag_clear_step (HW := loop_hw) (S fuel) bus);
    [|eapply port_of_accessed; eauto].
  change (read_STAT (SpiHw := loop_hw) loop_idle) with (2, loop_idle).
  cbn [fst snd]. change (flag_set 2 128) with false. cbv iota.
  eexists. split; [reflexivity|].
  eapply port_of_accessed. eapply port_of_accessed; eauto.
Qed.

End Loopback.

(** The round trip of three bytes from the boot state. *)
Lemma loopback_round_trip_witness :
  port_of 0 (boot_state 1 loop_idle) = Some loop_idle /\
  exists st',
    _transfer_no_dma (P := board) (HW := loop_hw) 2 0 (Some [0xAA; 0xBB; 0xCC]) true 3
      (boot_state 1 loop_idle) = Done ([0xAA; 0xBB; 0xCC], st') /\
    port_of 0 st' = Some loop_idle.
Proof.
  split; [reflexivity|].
  apply (loopback_round_trip 0 0 [0xAA; 0xBB; 0xCC] (boot_state 1 loop_idle)).
  reflexivity.
Defined.

(** ** The properties on the evaluation board *)


(** Mutual exclusion on the hand-over of bus 0 from caller 1 to caller 2. *)
Lemma bus_mutual_exclusion_witness :
  (locks (boot_state 1 loop_idle) = replicate (SPI_NUMOF (P := board)) false /\
   protocol_ok handoff /\ handoff_run = Done (tt, handoff_end) /\
   (0 < SPI_NUMOF (P := board))%nat) /\
  (length (holders 0 handoff) <= 1)%nat /\
  locks handoff_end !! 0%nat = Some (bool_decide (holders 0 handoff <> [])) /\
  (holders 0 handoff <> [] ->
   (forall cs mode clk,
      spi_acquire (P := board) 0 cs mode clk handoff_end = Blocked) /\
   (forall c u st',
      do_call (P := board) (HW := loop_hw) 4 c handoff_end = Done (u, st') ->
      locks st' !! 0%nat = Some false -> c = CallRelease 0)).
Proof.
  assert (Hok : protocol_ok handoff).
  { intros before t bus after Hrun.
    destruct before as [|x0 [|x1 [|x2 [|x3 [|x4 before]]]]];
      try discriminate Hrun.
    unfold handoff in Hrun. cbn [app] in Hrun. simplify_eq.
    vm_compute. constructor. }
  split.
  - split; [reflexivity|]. split; [exact Hok|]. split; [vm_compute; reflexivity|].
    vm_compute. lia.
  - apply (bus_mutual_exclusion (P := board) (HW := loop_hw) 4 handoff
             (boot_state 1 loop_idle) handoff_end 0).
    + reflexivity.
    + exact Hok.
    + vm_compute. reflexivity.
    + vm_compute. lia.
Defined.

(** The cache after the session on the evaluation board. *)
Lemma acquire_cache_invariant_witness :
  (cache_valid (P := board) (boot_state 1 loop_idle) /\
   session_run = Done (tt, session_end)) /\
  cache_valid (P := board) session_end /\
  forall bus cs mode clk conf cached st',
    spi_config (Platform := board) !! bus = Some conf ->
    clocks session_end !! bus = Some cached ->
    spi_acquire (P := board) bus cs mode clk session_end = Done (tt, st') ->
    cache_valid (P := board) st' /\
    (clk = cached -> clocks st' = clocks session_end /\
                     dividers st' = dividers session_end) /\
    (clk <> cached ->
     exists d, _get_clkdiv (P := board) conf clk = Done d /\
               clocks st' = <[bus := clk]> (clocks session_end) /\
               dividers st' = <[bus := d]> (dividers session_end)).
Proof.
  split.
  - split; [apply cache_valid_boot|vm_compute; reflexivity].
  - apply (acquire_cache_invariant (P := board) (HW := loop_hw) 4 session
             (boot_state 1 loop_idle) session_end).
    + apply cache_valid_boot.
    + vm_compute. reflexivity.
Defined.

(** Acquire, release and acquire again at 8 MHz on the evaluation board. *)
Lemma clkdiv_deterministic_idempotent_witness :
  (periph_apb_clk (Platform := board) (apbbus board_bus0)
   = periph_apb_clk (Platform := board) (apbbus board_bus0) /\
   spi_acquire (P := board) 0 0x48000004 0 8000000 (boot_state 1 loop_idle)
   = Done (tt, acquired) /\
   spi_release (P := board) 0 acquired = Done (tt, released) /\
   spi_acquire (P := board) 0 0xffffff00 3 8000000 released = Done (tt, reacquired)) /\
  _get_clkdiv (P := board) board_bus0 8000000 = _get_clkdiv (P := board) board_bus0 8000000 /\
  clocks reacquired = clocks acquired /\ dividers reacquired = dividers acquired.
Proof.
  split.
  - repeat split; vm_compute; reflexivity.
  - apply (clkdiv_deterministic_idempotent (P := board) 0 0x48000004 0 0xffffff00 3
             8000000 board_bus0 board_bus0 (boot_state 1 loop_idle)
             acquired released reacquired);
      vm_compute; reflexivity.
Defined.

(** An acquire with clock 0 after 8 MHz has been cached. *)
Lemma acquire_zero_clock_divides_by_zero_witness :
  ((0 < SPI_NUMOF (P := board))%nat /\ locks released !! 0%nat = Some false /\
   clocks released !! 0%nat = Some 8000000 /\ 8000000 <> 0) /\
  (forall conf, _get_clkdiv (P := board) conf 0 = Fault DivisionByZero) /\
  spi_acquire (P := board) 0 0x48000004 0 0 released = Fault DivisionByZero.
Proof.
  split.
  - split; [vm_compute; lia|]. split; [reflexivity|]. split; [reflexivity|lia].
  - apply (acquire_zero_clock_divides_by_zero (P := board) 0 0x48000004 0 8000000
             released).
    + vm_compute. lia.
    + reflexivity.
    + reflexivity.
    + lia.
Defined.

(** The receive path of the loopback peripheral after an output-only
    transfer that found a stale byte, and after an input-only transfer. *)
Lemma polled_shortcuts_leave_receive_path_empty_witness :
  (output_only_run = Done ([], output_only_end) /\
   exists d', port_of 0 output_only_end = Some d' /\
              rx_pending loop_laws d' = 0%nat /\ in_flight loop_laws d' = 0%nat) /\
  (port_of 0 (boot_state 1 loop_idle) = Some loop_idle /\
   rx_pending loop_laws loop_idle = 0%nat /\ in_flight loop_laws loop_idle = 0%nat /\
   input_only_run = Done ([0; 0], input_only_end) /\
   exists d', port_of 0 input_only_end = Some d' /\
              rx_pending loop_laws d' = 0%nat /\ in_flight loop_laws d' = 0%nat).
Proof.
  split.
  - split; [vm_compute; reflexivity|].
    apply (proj1 (polled_shortcuts_leave_receive_path_empty (P := board) (HW := loop_hw)
                    loop_laws 0 4 (Some [0xAA; 0xBB; 0xCC]) 3
                    (boot_state 1 stale_port) [] output_only_end)).
    vm_compute. reflexivity.
  - split; [reflexivity|]. split; [reflexivity|]. split; [reflexivity|].
    split; [vm_compute; reflexivity|].
    apply (proj2 (polled_shortcuts_leave_receive_path_empty (P := board) (HW := loop_hw)
                    loop_laws 0 4 None 2
                    (boot_state 1 loop_idle) [0; 0] input_only_end) loop_idle).
    + reflexivity.
    + reflexivity.
    + reflexivity.
    + vm_compute. reflexivity.
Defined.

(** * Further properties of the driver *)

(** ** The clock divider in closed form *)

Section ClockDividerClosedForm.
Context `{P : Platform}.

Lemma raw_ratio_range (B f : Z) : 0 <= raw_ratio B f < 2 ^ 32.
Proof.
  unfold raw_ratio.
  assert (Hn : 0 <= u32 (Z.shiftl (u32 B) SPI_APB_CLOCK_SHIFT) < 2 ^ 32)
    by (apply Z.mod_pos_bound; lia).
  assert (Hd : 0 <= u32 (2 * f) < 2 ^ 32) by (apply Z.mod_pos_bound; lia).
  destruct (Z.eq_dec (u32 (2 * f)) 0) as [->|Hnz].
  - rewrite Z.div_0_r. lia.
  - split; [apply Z.div_pos; lia|].
    apply Z.div_lt_upper_bound; [lia|]. nia.
Qed.

Lemma selector_of_ratio_range (r : Z) : 0 <= selector_of_ratio r <= BR_MAX.
Proof. unfold selector_of_ratio, BR_MAX. lia. Qed.

Lemma selector_of_ratio_mono (r r' : Z) :
  r <= r' -> selector_of_ratio r <= selector_of_ratio r'.
Proof.
  intros Hle. unfold selector_of_ratio.
  pose proof (Z.log2_up_le_mono r r' Hle). lia.
Qed.

(** The bit test and the conditional increment of the code compute the
    rounded-up logarithm. *)
Lemma rounded_div_log2_up (d : Z) :
  16 < d < 2 ^ 32 ->
  (let rounded_div := u8 (u32 (bitarithm_msb d - SPI_APB_CLOCK_SHIFT)) in
   if negb (Z.land d (u32 (d - 1)) =? 0) then u8 (rounded_div + 1) else rounded_div)
  = Z.log2_up d - SPI_APB_CLOCK_SHIFT /\ 4 <= Z.log2 d < 32.
Proof.
  intros Hd. cbv zeta.
  assert (Hk : 4 <= Z.log2 d < 32).
  { split.
    - change 4 with (Z.log2 16). apply Z.log2_le_mono. lia.
    - apply Z.log2_lt_pow2; lia. }
  split; [|assumption].
  unfold bitarithm_msb, SPI_APB_CLOCK_SHIFT, u32, u8.
  rewrite (Z.mod_small (Z.log2 d - 4)) by lia.
  rewrite (Z.mod_small (Z.log2 d - 4)) by lia.
  rewrite (Z.mod_small (d - 1)) by lia.
  pose proof (Z.log2_spec d ltac:(lia)) as [Hlo Hhi].
  destruct (Z.eq_dec d (2 ^ Z.log2 d)) as [Hpow|Hnpow].
  - pose proof Hpow as Hland. apply land_pred_pow2 in Hland; [|lia].
    rewrite Hland. cbn [Z.eqb negb].
    rewrite Hpow at 2. rewrite Z.log2_up_pow2 by lia. reflexivity.
  - destruct (Z.eqb_spec (Z.land d (d - 1)) 0) as [Hz|_].
    + apply land_pred_pow2 in Hz; [contradiction|lia].
    + cbn [negb]. rewrite (Z.mod_small (Z.log2 d - 4 + 1)) by lia.
      rewrite Z.log2_up_eqn by lia.
      replace (Z.log2 (Z.pred d)) with (Z.log2 d); [lia|].
      symmetry. apply Z.log2_unique; [lia|].
      unfold Z.succ in Hhi. unfold Z.pred. lia.
Qed.

Lemma get_clkdiv_cases (conf : spi_conf_t) (f : Z) :
  (u32 (2 * f) = 0 -> _get_clkdiv conf f = Fault DivisionByZero) /\
  (u32 (2 * f) <> 0 ->
   _get_clkdiv conf f
   = Done (selector_of_ratio (raw_ratio (periph_apb_clk (apbbus conf)) f))).
Proof.
  unfold _get_clkdiv. cbv zeta.
  fold (raw_ratio (periph_apb_clk (apbbus conf)) f).
  pose proof (raw_ratio_range (periph_apb_clk (apbbus conf)) f) as Hr.
  set (d := raw_ratio (periph_apb_clk (apbbus conf)) f) in *.
  split; intros Hdiv.
  - rewrite Hdiv. reflexivity.
  - destruct (Z.eqb_spec (u32 (2 * f)) 0) as [|_]; [contradiction|].
    change SPI_APB_CLOCK_MULT with 16.
    destruct (Z.leb_spec d 16) as [Hle|Hgt].
    + f_equal. unfold selector_of_ratio, BR_MAX, SPI_APB_CLOCK_SHIFT.
      assert (Z.log2_up d <= 4).
      { change 4 with (Z.log2_up 16). apply Z.log2_up_le_mono. assumption. }
      lia.
    + destruct (rounded_div_log2_up d ltac:(lia)) as [Heq Hk].
      cbv zeta in Heq. rewrite Heq. f_equal.
      unfold selector_of_ratio, BR_MAX, SPI_APB_CLOCK_SHIFT.
      pose proof (Z.le_log2_log2_up d).
      destruct (Z.ltb_spec 7 (Z.log2_up d - 4)); lia.
Qed.

(** For every descriptor and every requested clock, wrap-around included:
    [_get_clkdiv] divides by zero exactly when [2 * clock] is 0 in 32 bits,
    and otherwise returns the rounded-up logarithm of the ratio less the
    fixed-point shift, kept within [0, BR_MAX]. *)
Theorem get_clkdiv_closed_form (conf : spi_conf_t) (f : Z) :
  (u32 (2 * f) = 0 -> _get_clkdiv conf f = Fault DivisionByZero) /\
  (u32 (2 * f) <> 0 ->
   _get_clkdiv conf f
   = Done (selector_of_ratio (raw_ratio (periph_apb_clk (apbbus conf)) f))).
Proof. exact (get_clkdiv_cases conf f). Qed.

Lemma u32_double_zero (f : Z) : u32 (2 * f) = 0 <-> f mod 2 ^ 31 = 0.
Proof.
  unfold u32. change (2 ^ 32) with (2 * 2 ^ 31).
  rewrite Zmult_mod_distr_l. lia.
Qed.

(** For a requested clock that fits 32 bits, [_get_clkdiv] divides by zero
    for the clocks 0 and [2^31] and for no other, and returns a selector
    within [0, BR_MAX] for every other clock, whatever the bus clock. *)
Theorem get_clkdiv_division_by_zero_iff (conf : spi_conf_t) (f : Z) :
  0 <= f < 2 ^ 32 ->
  (_get_clkdiv conf f = Fault DivisionByZero <-> f = 0 \/ f = 2 ^ 31) /\
  (f <> 0 -> f <> 2 ^ 31 ->
   exists sel, _get_clkdiv conf f = Done sel /\ 0 <= sel <= BR_MAX).
Proof.
  intros Hf. destruct (get_clkdiv_cases conf f) as [Hzero Hnz].
  assert (Hiff : u32 (2 * f) = 0 <-> f = 0 \/ f = 2 ^ 31).
  { rewrite u32_double_zero. split.
    - intros Hmod. apply Z.mod_divide in Hmod as [q Hq]; lia.
    - intros [->| ->]; reflexivity. }
  split.
  - split.
    + intros Hfault. apply Hiff.
      destruct (Z.eq_dec (u32 (2 * f)) 0) as [|Hne]; [assumption|].
      rewrite (Hnz Hne) in Hfault. discriminate.
    + intros Hcase. apply Hzero, Hiff, Hcase.
  - intros H0 H31. eexists. split.
    + apply Hnz. rewrite Hiff. lia.
    + apply selector_of_ratio_range.
Qed.

Lemma raw_ratio_in_range (B f : Z) :
  0 <= B < 2 ^ 28 -> 0 < f < 2 ^ 31 -> raw_ratio B f = fixed_ratio B f.
Proof.
  intros HB Hf. unfold raw_ratio, fixed_ratio, SPI_APB_CLOCK_SHIFT, u32.
  rewrite (Z.mod_small B) by lia. rewrite Z.shiftl_mul_pow2 by lia.
  rewrite (Z.mod_small (B * 2 ^ 4)) by lia.
  rewrite (Z.mod_small (2 * f)) by lia. f_equal. lia.
Qed.

Lemma get_clkdiv_selector (conf : spi_conf_t) (f : Z) :
  0 <= periph_apb_clk (apbbus conf) < 2 ^ 28 -> 0 < f < 2 ^ 31 ->
  _get_clkdiv conf f
  = Done (selector_of_ratio (fixed_ratio (periph_apb_clk (apbbus conf)) f)).
Proof.
  intros HB Hf. destruct (get_clkdiv_cases conf f) as [_ Hnz].
  rewrite Hnz.
  - rewrite raw_ratio_in_range by assumption. reflexivity.
  - unfold u32. rewrite Z.mod_small; lia.
Qed.

(** Where nothing wraps, a slower request on a bus that is not slower never
    gets a smaller selector: the selector grows with the bus clock and
    shrinks with the requested clock. *)
Theorem get_clkdiv_monotone (conf conf' : spi_conf_t) (f f' : Z) :
  0 <= periph_apb_clk (apbbus conf) <= periph_apb_clk (apbbus conf') ->
  periph_apb_clk (apbbus conf') < 2 ^ 28 ->
  0 < f' <= f -> f < 2 ^ 31 ->
  exists sel sel',
    _get_clkdiv conf f = Done sel /\ _get_clkdiv conf' f' = Done sel' /\
    sel <= sel'.
Proof.
  intros HB HB' Hf Hf'.
  rewrite (get_clkdiv_selector conf f) by lia.
  rewrite (get_clkdiv_selector conf' f') by lia.
  eexists _, _. split; [reflexivity|]. split; [reflexivity|].
  apply selector_of_ratio_mono. unfold fixed_ratio.
  etransitivity.
  - apply Z.div_le_mono with (c := 2 * f); [lia|].
    apply Z.mul_le_mono_nonneg_l with (p := 16); [lia|]. apply HB.
  - apply Z.div_le_compat_l; lia.
Qed.

(** Where nothing wraps, with [r] the fixed-point ratio: at the fastest
    setting the bus clock is less than 17/8 of the request; between the
    fastest setting and the clamp the resulting clock exceeds the request by
    less than 1/32 of it; and past the fastest setting the resulting clock
    is more than half the request, so that no smaller selector would do. *)
Theorem get_clkdiv_accuracy (conf : spi_conf_t) (f : Z) :
  let B := periph_apb_clk (apbbus conf) in
  let r := fixed_ratio B f in
  0 <= B < 2 ^ 28 -> 0 < f < 2 ^ 31 ->
  exists sel,
    _get_clkdiv conf f = Done sel /\
    (r <= 16 -> sel = 0 /\ 8 * B < 17 * f) /\
    (16 < r <= 2048 -> 32 * B < 33 * (f * 2 ^ (sel + 1))) /\
    (16 < r -> f * 2 ^ (sel + 1) < 2 * B).
Proof.
  intros B r HB Hf.
  destruct (get_clkdiv_in_range conf f HB Hf) as [Hr Heq].
  fold B in Heq. fold r in Heq, Hr.
  eexists. split; [exact Heq|]. clear Heq.
  assert (Hdiv1 : 2 * f * r <= 16 * B)
    by (unfold r, fixed_ratio; apply Z.mul_div_le; lia).
  assert (Hdiv2 : 16 * B < 2 * f * (r + 1)).
  { pose proof (Z.mul_succ_div_gt (16 * B) (2 * f) ltac:(lia)) as Hs.
    unfold Z.succ in Hs. exact Hs. }
  destruct (Z.leb_spec r 16) as [Hle|Hgt].
  { split; [|split; intros; lia]. intros _. split; [reflexivity|].
    pose proof (Z.mul_le_mono_nonneg_l (r + 1) 17 f ltac:(lia) ltac:(lia)). lia. }
  split; [intros; lia|].
  assert (Hk : 4 <= Z.log2 r).
  { change 4 with (Z.log2 16). apply Z.log2_le_mono. lia. }
  pose proof (Z.log2_spec r ltac:(lia)) as [Hlo Hhi].
  rewrite <- Z.add_1_r in Hhi.
  rewrite (pow2_shift4 (Z.log2 r)) in Hlo by lia.
  rewrite (pow2_shift4 (Z.log2 r + 1)) in Hhi by lia.
  replace (Z.log2 r + 1 - 4) with (1 + (Z.log2 r - 4)) in Hhi by lia.
  rewrite Z.pow_add_r in Hhi by lia. change (2 ^ 1) with 2 in Hhi.
  set (k := Z.log2 r) in *.
  assert (Hp : 0 < 2 ^ (k - 4)) by (apply Z.pow_pos_nonneg; lia).
  assert (Hbig : 11 <= k -> 128 <= 2 ^ (k - 4)).
  { intros. change 128 with (2 ^ 7). apply Z.pow_le_mono_r; lia. }
  assert (Hbig' : 12 <= k -> 256 <= 2 ^ (k - 4)).
  { intros. change 256 with (2 ^ 8). apply Z.pow_le_mono_r; lia. }
  assert (Hpow16 : r = 2 ^ k -> r = 16 * 2 ^ (k - 4)).
  { intros Hrk. etransitivity; [exact Hrk|apply pow2_shift4; lia]. }
  assert (Hnpow16 : r <> 2 ^ k -> 16 * 2 ^ (k - 4) < r).
  { intros Hnpow. destruct (Z.eq_dec r (16 * 2 ^ (k - 4))) as [Heq|]; [|lia].
    exfalso. apply Hnpow. rewrite Heq. symmetry. apply pow2_shift4. lia. }
  assert (E1 : 2 ^ (k - 4 + 1) = 2 * 2 ^ (k - 4)).
  { replace (k - 4 + 1) with (1 + (k - 4)) by lia.
    rewrite Z.pow_add_r by lia. reflexivity. }
  assert (E2 : 2 ^ (k - 3 + 1) = 4 * 2 ^ (k - 4)).
  { replace (k - 3 + 1) with (2 + (k - 4)) by lia.
    rewrite Z.pow_add_r by lia. reflexivity. }
  set (p := 2 ^ (k - 4)) in *.
  assert (Hfp : 0 < f * p) by (apply Z.mul_pos_pos; lia).
  cbv zeta. split.
  - intros Hrange.
    destruct (Z.eq_dec r (2 ^ k)) as [Hpow|Hnpow].
    + specialize (Hpow16 Hpow).
      assert (k <= 11).
      { destruct (Z.le_gt_cases k 11) as [|Hc]; [assumption|].
        specialize (Hbig' ltac:(lia)). lia. }
      destruct (Z.ltb_spec 7 (k - 4)); [lia|]. rewrite E1.
      assert (Hp2 : f * 2 <= f * p) by (apply Z.mul_le_mono_nonneg_l; lia).
      rewrite Hpow16 in Hdiv2. lia.
    + assert (k <= 10).
      { destruct (Z.le_gt_cases k 10) as [|Hc]; [assumption|].
        specialize (Hbig ltac:(lia)).
        assert (Hr2048 : r = 2048) by lia.
        exfalso. apply Hnpow. assert (E : k = 11) by lia.
        rewrite E, Hr2048. reflexivity. }
      destruct (Z.ltb_spec 7 (k - 3)); [lia|]. rewrite E2.
      pose proof (Z.mul_le_mono_nonneg_l (r + 1) (32 * p) f ltac:(lia) ltac:(lia)).
      lia.
  - intros _.
    destruct (Z.eq_dec r (2 ^ k)) as [Hpow|Hnpow].
    + specialize (Hpow16 Hpow). rewrite Hpow16 in Hdiv1.
      destruct (Z.ltb_spec 7 (k - 4)) as [Hclamp|Hno].
      * change (2 ^ (7 + 1)) with 256. specialize (Hbig' ltac:(lia)).
        pose proof (Z.mul_le_mono_nonneg_l 256 p f ltac:(lia) ltac:(lia)). lia.
      * rewrite E1. lia.
    + specialize (Hnpow16 Hnpow).
      pose proof (Z.mul_le_mono_nonneg_l (16 * p + 1) r f ltac:(lia) ltac:(lia)).
      destruct (Z.ltb_spec 7 (k - 3)) as [Hclamp|Hno].
      * change (2 ^ (7 + 1)) with 256. specialize (Hbig ltac:(lia)).
        pose proof (Z.mul_le_mono_nonneg_l 128 p f ltac:(lia) ltac:(lia)). lia.
      * rewrite E2. lia.
Qed.

End ClockDividerClosedForm.

(** ** Running the driver forwards *)

Section Forward.
Context `{P : Platform} {D : Type} `{HW : SpiHw D}.

Lemma bind_exec {A B} (m : M D A) (k : A -> M D B) (st : driver_state D) a s :
  m st = Done (a, s) -> bind m k st = k a s.
Proof. unfold bind. intros ->. reflexivity. Qed.

Lemma index_exec {A} (a : driver_state D -> list A) i (st : driver_state D) x :
  a st !! i = Some x -> index a i st = Done (x, st).
Proof. unfold index. intros ->. reflexivity. Qed.

Lemma config_exec bus conf (st : driver_state D) :
  spi_config !! bus = Some conf -> config bus st = Done (conf, st).
Proof. unfold config. intros ->. reflexivity. Qed.

Lemma assert_exec (c : bool) (st : driver_state D) :
  c = true -> assert c st = Done (tt, st).
Proof. intros ->. reflexivity. Qed.

Lemma put_CTL0_exec bus v (st : driver_state D) r :
  regs st !! bus = Some r ->
  put_CTL0 bus v st =
    Done (tt, log (EvCTL0 bus v)
                (set_regs (<[bus := {| CTL0 := v; CTL1 := CTL1 r; port := port r |}]>
                             (regs st)) st)).
Proof. unfold put_CTL0, dev, bind, index. intros ->. reflexivity. Qed.

Lemma put_CTL1_exec bus v (st : driver_state D) r :
  regs st !! bus = Some r ->
  put_CTL1 bus v st =
    Done (tt, log (EvCTL1 bus v)
                (set_regs (<[bus := {| CTL0 := CTL0 r; CTL1 := v; port := port r |}]>
                             (regs st)) st)).
Proof. unfold put_CTL1, dev, bind, index. intros ->. reflexivity. Qed.

Lemma mutex_init_exec bus (st : driver_state D) h :
  locks st !! bus = Some h ->
  mutex_init bus st =
    Done (tt, log (EvMutexInit bus) (set_locks (<[bus := false]> (locks st)) st)).
Proof. unfold mutex_init, bind, index. intros ->. reflexivity. Qed.

Lemma mutex_lock_exec bus (st : driver_state D) :
  locks st !! bus = Some false ->
  mutex_lock bus st =
    Done (tt, log (EvMutexLock bus) (set_locks (<[bus := true]> (locks st)) st)).
Proof. unfold mutex_lock, bind, index. intros ->. reflexivity. Qed.

Lemma mutex_lock_blocks bus (st : driver_state D) :
  locks st !! bus = Some true -> mutex_lock bus st = Blocked.
Proof. unfold mutex_lock, bind, index. intros ->. reflexivity. Qed.

Lemma mutex_unlock_exec bus (st : driver_state D) h :
  locks st !! bus = Some h ->
  mutex_unlock bus st =
    Done (tt, log (EvMutexUnlock bus) (set_locks (<[bus := false]> (locks st)) st)).
Proof. unfold mutex_unlock, bind, index. intros ->. reflexivity. Qed.

Lemma log_logged e evs (st : driver_state D) :
  log e (logged evs st) = logged (evs ++ [e]) st.
Proof. unfold log, logged. cbn. rewrite <- app_assoc. reflexivity. Qed.

Lemma logged_nil (st : driver_state D) : logged [] st = st.
Proof. destruct st. unfold logged. cbn. rewrite app_nil_r. reflexivity. Qed.

Lemma spi_init_pins_exec bus conf (st : driver_state D) :
  spi_config !! bus = Some conf ->
  spi_init_pins bus st = Done (tt, logged (pin_events conf) st).
Proof.
  intros Hconf. unfold spi_init_pins.
  rewrite (bind_exec _ _ _ _ _ (config_exec _ _ _ Hconf)).
  unfold pin_events, gpio_init, gpio_init_af, emit, modify, bind, ret, log, logged.
  destruct (gpio_is_valid (mosi_pin conf)), (gpio_is_valid (miso_pin conf)),
    (gpio_is_valid (sclk_pin conf)); cbn;
    rewrite <- ?app_assoc, ?app_nil_r; try reflexivity.
  destruct st; reflexivity.
Qed.

Lemma state_ext (s s' : driver_state D) :
  locks s = locks s' -> clocks s = clocks s' -> dividers s = dividers s' ->
  regs s = regs s' -> gpio_out s = gpio_out s' -> trace s = trace s' -> s = s'.
Proof. destruct s, s'. cbn. intros. subst. reflexivity. Qed.

Lemma lookup_in_range {A} (l : list A) (i : nat) :
  (i < length l)%nat -> exists x, l !! i = Some x.
Proof. intros Hi. apply lookup_lt_is_Some_2 in Hi as [x Hx]. eauto. Qed.

Lemma wf_lookups bus (st : driver_state D) :
  wf st -> (bus < SPI_NUMOF)%nat ->
  exists conf h c d r,
    spi_config !! bus = Some conf /\ locks st !! bus = Some h /\
    clocks st !! bus = Some c /\ dividers st !! bus = Some d /\
    regs st !! bus = Some r.
Proof.
  intros (Hl & Hc & Hd & Hr) Hbus.
  destruct (lookup_in_range spi_config bus Hbus) as [conf Hconf].
  destruct (lookup_in_range (locks st) bus) as [h Hh]; [lia|].
  destruct (lookup_in_range (clocks st) bus) as [c Hcl]; [lia|].
  destruct (lookup_in_range (dividers st) bus) as [d Hdv]; [lia|].
  destruct (lookup_in_range (regs st) bus) as [r Hrg]; [lia|].
  exists conf, h, c, d, r. auto.
Qed.

End Forward.

(** ** Initialisation *)

Section Initialisation.
Context `{P : Platform} {D : Type} `{HW : SpiHw D}.

(** [spi_init] refuses a bus that is not configured; on a configured bus it
    returns whatever the state of the bus was, leaves the lock free, the
    first control register zero and the second at its default, writes both
    between enabling and disabling the peripheral clock, configures the
    valid pins among MOSI, MISO and SCLK, and touches neither the clock
    cache, nor any pin level, nor the port, nor another bus. *)
Theorem spi_init_resets_bus bus (st : driver_state D) :
  wf st ->
  ((SPI_NUMOF <= bus)%nat -> spi_init bus st = Fault AssertionFailed) /\
  ((bus < SPI_NUMOF)%nat ->
   exists conf st',
     spi_config !! bus = Some conf /\ spi_init bus st = Done (tt, st') /\ wf st' /\
     locks st' = <[bus := false]> (locks st) /\
     ctl0_of bus st' = Some 0 /\ ctl1_of bus st' = Some SPI_CTL1_SETTINGS /\
     port_of bus st' = port_of bus st /\ other_buses bus st st' /\
     clocks st' = clocks st /\ dividers st' = dividers st /\
     gpio_out st' = gpio_out st /\
     trace st' =
       trace st ++ EvMutexInit bus :: pin_events conf
                ++ [EvClkEn (apbbus conf) (rcumask conf); EvCTL0 bus 0;
                    EvCTL1 bus SPI_CTL1_SETTINGS;
                    EvClkDis (apbbus conf) (rcumask conf)]).
Proof.
  intros Hwf. split.
  - intros Hbus. unfold spi_init, bind.
    apply Nat.ltb_ge in Hbus. rewrite Hbus. reflexivity.
  - intros Hbus.
    destruct (wf_lookups bus st Hwf Hbus) as (conf & h & c & d & r & Hconf & Hh & _ & _ & Hr).
    exists conf. eexists. split; [exact Hconf|]. split.
    + unfold spi_init.
      rewrite (bind_exec _ _ _ _ _ (assert_exec _ _ (proj2 (Nat.ltb_lt _ _) Hbus))).
      rewrite (bind_exec _ _ _ _ _ (mutex_init_exec _ _ _ Hh)).
      rewrite (bind_exec _ _ _ _ _ (spi_init_pins_exec _ _ _ Hconf)).
      rewrite (bind_exec _ _ _ _ _ (config_exec _ _ _ Hconf)).
      unfold periph_clk_en, periph_clk_dis. rewrite bind_emit.
      erewrite bind_exec; [|apply put_CTL0_exec; cbn; exact Hr].
      erewrite bind_exec; [|apply put_CTL1_exec; cbn;
                            apply list_lookup_insert_eq; eapply lookup_lt_Some; eauto].
      cbn. reflexivity.
    + destruct Hwf as (Hl & Hc & Hd & Hrg).
      assert (Hlt : (bus < length (regs st))%nat) by (eapply lookup_lt_Some; eauto).
      unfold wf, ctl0_of, ctl1_of, port_of, other_buses. cbn.
      rewrite !length_insert, !list_lookup_insert_eq, Hr
        by (rewrite ?length_insert; assumption).
      cbn. repeat split; try assumption.
      * intros b Hb. rewrite !list_lookup_insert_ne by auto. reflexivity.
      * rewrite <- !app_assoc. reflexivity.
Qed.

End Initialisation.

(** ** Chip-select set-up: what it does to the pins *)

Section ChipSelectEffects.
Context `{P : Platform} {D : Type} `{HW : SpiHw D}.

(** [spi_init_cs] always returns.  A refused designator leaves no trace at
    all; an accepted GPIO line is made an output and driven high, that is,
    deasserted, before anything can be selected with it; the hardware
    chip select only has the [cs_pin] of the bus configured and no level
    driven.  In no case is the lock, the cache or a register touched. *)
Theorem spi_init_cs_effect bus cs (st : driver_state D) :
  exists s st',
    spi_init_cs bus cs st = Done (s, st') /\
    locks st' = locks st /\ clocks st' = clocks st /\ dividers st' = dividers st /\
    regs st' = regs st /\
    match s with
    | SPI_OK =>
        if cs =? SPI_HWCS_MASK
        then exists conf,
               spi_config !! bus = Some conf /\ gpio_out st' = gpio_out st /\
               trace st' = trace st ++ [EvGpioInit (cs_pin conf) GPIO_OUT;
                                        EvGpioInitAf (cs_pin conf) (cs_af conf)]
        else gpio_out st' = <[cs := true]> (gpio_out st) /\
             gpio_out st' !! cs = Some true /\
             trace st' = trace st ++ [EvGpioInit cs GPIO_OUT; EvGpioSet cs]
    | _ => st' = st
    end.
Proof.
  unfold spi_init_cs.
  destruct (SPI_NUMOF <=? bus)%nat eqn:Hbus.
  { exists SPI_NODEV, st. repeat split. }
  destruct (negb (gpio_is_valid cs)
            || (Z.land cs SPI_HWCS_MASK =? SPI_HWCS_MASK)
               && flag_set cs (not32 SPI_HWCS_MASK)).
  { exists SPI_NOCS, st. repeat split. }
  apply Nat.leb_gt in Hbus.
  destruct (cs =? SPI_HWCS_MASK) eqn:Hcs.
  - destruct (lookup_in_range spi_config bus Hbus) as [conf Hconf].
    rewrite (bind_exec _ _ _ _ _ (config_exec _ _ _ Hconf)).
    destruct (negb (gpio_is_valid (cs_pin conf))).
    + exists SPI_NOCS, st. repeat split.
    + eexists SPI_OK, _. split; [reflexivity|]. cbn.
      repeat split. exists conf. repeat split; [assumption|].
      rewrite <- app_assoc. reflexivity.
  - eexists SPI_OK, _. split; [reflexivity|]. cbn.
    repeat split.
    + apply lookup_insert_eq.
    + rewrite <- app_assoc. reflexivity.
Qed.

End ChipSelectEffects.

(** ** Acquire and release, run forwards *)

Section AcquireReleaseForward.
Context `{P : Platform} {D : Type} `{HW : SpiHw D}.

Lemma insert_insert_same {A} (l : list A) (i : nat) (x y : A) :
  <[i := y]> (<[i := x]> l) = <[i := y]> l.
Proof.
  apply list_eq. intros j. destruct (decide (j = i)) as [->|Hne].
  - destruct (decide (i < length l)%nat) as [Hi|Hi].
    + rewrite !list_lookup_insert_eq by (rewrite ?length_insert; assumption).
      reflexivity.
    + rewrite !lookup_ge_None_2 by (rewrite ?length_insert; lia). reflexivity.
  - rewrite !list_lookup_insert_ne by auto. reflexivity.
Qed.

Lemma bind_assoc {A B C} (m : M D A) (k : A -> M D B) (k' : B -> M D C)
    (st : driver_state D) :
  bind (bind m k) k' st = bind m (fun a => bind (k a) k') st.
Proof. unfold bind. destruct (m st) as [[a s]| | |]; reflexivity. Qed.

Lemma bind_ret {A B} (a : A) (k : A -> M D B) (st : driver_state D) :
  bind (ret a) k st = k a st.
Proof. reflexivity. Qed.

Lemma spi_acquire_exec bus cs mode clk (st : driver_state D) conf cached d0 r br :
  (bus < SPI_NUMOF)%nat -> spi_config !! bus = Some conf ->
  locks st !! bus = Some false -> clocks st !! bus = Some cached ->
  dividers st !! bus = Some d0 -> regs st !! bus = Some r ->
  (if clk =? cached then br = d0 else _get_clkdiv conf clk = Done br) ->
  spi_acquire bus cs mode clk st =
    Done (tt, after_acquire bus cs mode clk conf cached br r st).
Proof.
  intros Hbus Hconf Hfree Hcached Hd0 Hr Hbr. unfold spi_acquire.
  rewrite (bind_exec _ _ _ _ _ (assert_exec _ _ (proj2 (Nat.ltb_lt _ _) Hbus))).
  rewrite (bind_exec _ _ _ _ _ (mutex_lock_exec _ _ Hfree)).
  rewrite (bind_exec _ _ _ _ _ (config_exec _ _ _ Hconf)).
  unfold periph_clk_en. rewrite bind_emit.
  erewrite bind_exec; [|apply index_exec; cbn; exact Hcached].
  assert (Hlt : (bus < length (dividers st))%nat) by (eapply lookup_lt_Some; eauto).
  unfold after_acquire, acquire_ctl0, acquire_ctl1_extra, dma_acquire_events.
  unfold dma_acquire, dma_setup.
  destruct (clk =? cached) eqn:Hclk; cbn [negb].
  - subst br.
    rewrite (bind_exec _ _ _ _ _ (eq_refl : ret tt _ = Done (tt, _))).
    erewrite bind_exec; [|apply index_exec; cbn; exact Hd0].
    destruct (MODULE_PERIPH_DMA && _use_dma conf);
      repeat (rewrite bind_assoc, bind_emit); rewrite ?bind_assoc, bind_ret;
      (erewrite bind_exec; [|apply put_CTL0_exec; exact Hr]);
      match goal with
      | |- context [negb (?e =? 0)] => destruct (negb (e =? 0))
      end;
      try (erewrite put_CTL1_exec
             by (cbn [regs set_regs log]; apply list_lookup_insert_eq;
                 eapply lookup_lt_Some; eauto));
      unfold ret; do 2 f_equal; apply state_ext;
      cbn [locks clocks dividers regs gpio_out trace CTL0 CTL1 port
           log set_regs set_locks set_clocks set_dividers];
      rewrite ?insert_insert_same, <- ?app_assoc; reflexivity.
  - erewrite bind_exec; [|unfold bind, lift, modify; rewrite Hbr; reflexivity].
    erewrite bind_exec;
      [|apply index_exec; cbn [dividers set_clocks set_dividers];
        apply list_lookup_insert_eq; exact Hlt].
    destruct (MODULE_PERIPH_DMA && _use_dma conf);
      repeat (rewrite bind_assoc, bind_emit); rewrite ?bind_assoc, bind_ret;
      (erewrite bind_exec; [|apply put_CTL0_exec; exact Hr]);
      match goal with
      | |- context [negb (?e =? 0)] => destruct (negb (e =? 0))
      end;
      try (erewrite put_CTL1_exec
             by (cbn [regs set_regs log]; apply list_lookup_insert_eq;
                 eapply lookup_lt_Some; eauto));
      unfold ret; do 2 f_equal; apply state_ext;
      cbn [locks clocks dividers regs gpio_out trace CTL0 CTL1 port
           log set_regs set_locks set_clocks set_dividers];
      rewrite ?insert_insert_same, <- ?app_assoc; reflexivity.
Qed.

Lemma spi_release_exec bus (st : driver_state D) conf h r :
  spi_config !! bus = Some conf -> locks st !! bus = Some h ->
  regs st !! bus = Some r ->
  spi_release bus st = Done (tt, after_release bus conf r st).
Proof.
  intros Hconf Hh Hr. unfold spi_release.
  rewrite (bind_exec _ _ _ _ _ (config_exec _ _ _ Hconf)).
  unfold after_release, dma_release_events, pm_events, dma_release, pm_unblock,
    periph_clk_dis.
  destruct (MODULE_PERIPH_DMA && _use_dma conf), GD32_PM_STOP as [m|];
    repeat (rewrite bind_assoc || rewrite bind_emit || rewrite bind_ret);
    (erewrite bind_exec; [|apply put_CTL0_exec; exact Hr]);
    (erewrite bind_exec;
       [|apply put_CTL1_exec; cbn [regs set_regs log];
         apply list_lookup_insert_eq; eapply lookup_lt_Some; eauto]);
    rewrite ?bind_emit, ?bind_ret;
    (erewrite mutex_unlock_exec by (cbn [locks set_regs log]; exact Hh));
    do 2 f_equal; apply state_ext;
    cbn [locks clocks dividers regs gpio_out trace CTL0 CTL1 port
         log set_regs set_locks];
    rewrite ?insert_insert_same, <- ?app_assoc; reflexivity.
Qed.

Lemma wf_after_acquire bus cs mode clk conf cached br r (st : driver_state D) :
  wf st -> wf (after_acquire bus cs mode clk conf cached br r st).
Proof.
  unfold wf, after_acquire. cbn. intros (Hl & Hc & Hd & Hr).
  destruct (clk =? cached); rewrite ?length_insert; auto.
Qed.

(** On a state with an entry for every bus, [spi_acquire] has four
    outcomes and no other: the assertion fails for a bus that is not
    configured; the call does not return while the lock is held; on a free
    bus it divides by zero when the clock differs from the cached one and
    twice the clock is 0 in 32 bits; in every other case it returns, with
    the lock taken, the cache holding the clock, and the registers
    programmed as [after_acquire] tells.  A selector it computes fits the
    register field; a selector it finds cached for the clock it uses as it
    is, so that one fits the field where the cache held selectors of the
    field only, and the cache then still does.  It never raises a pin, and
    it touches no other bus. *)
Theorem spi_acquire_outcome bus cs mode clk (st : driver_state D) :
  wf st ->
  ((SPI_NUMOF <= bus)%nat ->
   spi_acquire bus cs mode clk st = Fault AssertionFailed) /\
  ((bus < SPI_NUMOF)%nat ->
   exists conf cached d0 r,
     spi_config !! bus = Some conf /\ clocks st !! bus = Some cached /\
     dividers st !! bus = Some d0 /\ regs st !! bus = Some r /\
     (locks st !! bus = Some true -> spi_acquire bus cs mode clk st = Blocked) /\
     (locks st !! bus = Some false ->
      if clk =? cached
      then spi_acquire bus cs mode clk st
           = Done (tt, after_acquire bus cs mode clk conf cached d0 r st) /\
           (dividers_ok st ->
            0 <= d0 <= BR_MAX /\
            dividers_ok (after_acquire bus cs mode clk conf cached d0 r st))
      else if u32 (2 * clk) =? 0
      then spi_acquire bus cs mode clk st = Fault DivisionByZero
      else exists br,
             _get_clkdiv conf clk = Done br /\ 0 <= br <= BR_MAX /\
             spi_acquire bus cs mode clk st
             = Done (tt, after_acquire bus cs mode clk conf cached br r st) /\
             (dividers_ok st ->
              dividers_ok (after_acquire bus cs mode clk conf cached br r st)))).
Proof.
  intros Hwf. split.
  - intros Hbus. unfold spi_acquire, bind.
    apply Nat.ltb_ge in Hbus. rewrite Hbus. reflexivity.
  - intros Hbus.
    destruct (wf_lookups bus st Hwf Hbus)
      as (conf & h & cached & d0 & r & Hconf & Hh & Hc & Hd & Hr).
    exists conf, cached, d0, r. repeat (split; [assumption|]). split.
    + intros Hheld. unfold spi_acquire.
      rewrite (bind_exec _ _ _ _ _ (assert_exec _ _ (proj2 (Nat.ltb_lt _ _) Hbus))).
      unfold bind at 1. rewrite (mutex_lock_blocks _ _ Hheld). reflexivity.
    + intros Hfree. destruct (clk =? cached) eqn:Hclk.
      * split.
        -- apply (spi_acquire_exec bus cs mode clk st conf cached d0 r d0); auto.
           rewrite Hclk. reflexivity.
        -- intros Hok. split.
           ++ unfold dividers_ok in Hok. rewrite Forall_lookup in Hok.
              exact (Hok _ _ Hd).
           ++ unfold dividers_ok, after_acquire. cbn [dividers].
              rewrite Hclk. exact Hok.
      * destruct (get_clkdiv_cases conf clk) as [Hzero Hnz].
        destruct (Z.eqb_spec (u32 (2 * clk)) 0) as [Hz|Hz].
        -- unfold spi_acquire.
           rewrite (bind_exec _ _ _ _ _
                      (assert_exec _ _ (proj2 (Nat.ltb_lt _ _) Hbus))).
           rewrite (bind_exec _ _ _ _ _ (mutex_lock_exec _ _ Hfree)).
           rewrite (bind_exec _ _ _ _ _ (config_exec _ _ _ Hconf)).
           unfold periph_clk_en. rewrite bind_emit.
           erewrite bind_exec; [|apply index_exec; cbn; exact Hc].
           rewrite Hclk. cbn [negb].
           unfold bind at 1. unfold bind at 1. unfold lift.
           rewrite (Hzero Hz). reflexivity.
        -- eexists. split; [exact (Hnz Hz)|]. split.
           ++ apply selector_of_ratio_range.
           ++ split.
              ** apply (spi_acquire_exec bus cs mode clk st conf cached d0 r); auto.
                 rewrite Hclk. exact (Hnz Hz).
              ** intros Hok. unfold dividers_ok, after_acquire. cbn [dividers].
                 rewrite Hclk. apply Forall_insert; [exact Hok|].
                 apply selector_of_ratio_range.
Qed.

Lemma land_u16 (x m : Z) : 0 <= m < 2 ^ 16 -> Z.land (u16 x) m = Z.land x m.
Proof.
  intros Hm. unfold u16. change (2 ^ 16) with (2 ^ 16) in *.
  rewrite <- Z.land_ones by lia. rewrite <- Z.land_assoc. f_equal.
  rewrite Z.land_comm, Z.land_ones by lia. apply Z.mod_small. lia.
Qed.

Lemma land_u16_zero (x m : Z) : Z.land x m = 0 -> Z.land (u16 x) m = 0.
Proof.
  intros Hx. unfold u16. rewrite <- Z.land_ones by lia.
  rewrite <- Z.land_assoc, (Z.land_comm (Z.ones 16)), Z.land_assoc, Hx.
  apply Z.land_0_l.
Qed.

Lemma br_shift_in_field (br : Z) :
  0 <= br <= BR_MAX ->
  Z.land (Z.shiftl br BR_SHIFT) BR_MASK = Z.shiftl br BR_SHIFT /\
  Z.shiftr (Z.shiftl br BR_SHIFT) BR_SHIFT = br.
Proof.
  unfold BR_MAX, BR_SHIFT, BR_MASK. intros Hbr.
  assert (Hcases : br = 0 \/ br = 1 \/ br = 2 \/ br = 3 \/ br = 4 \/ br = 5
                   \/ br = 6 \/ br = 7) by lia.
  repeat destruct Hcases as [->|Hcases]; try subst br; split; reflexivity.
Qed.

Lemma acquire_ctl0_fields (br mode cs : Z) :
  0 <= br <= BR_MAX -> ctl0_layout mode ->
  br_field (acquire_ctl0 br mode cs) = br /\
  flag_set (acquire_ctl0 br mode cs) SPI0_CTL0_SPIEN_Msk = false.
Proof.
  intros Hbr [Hfields Hen].
  destruct (br_shift_in_field br Hbr) as [Hin Hback].
  repeat match goal with
         | H : Forall _ (_ :: _) |- _ => apply Forall_cons in H as [[? ?] H]
         end.
  assert (Hbr_en : Z.land (Z.shiftl br BR_SHIFT) SPI0_CTL0_SPIEN_Msk = 0).
  { rewrite <- Hin, <- Z.land_assoc, Hen. apply Z.land_0_r. }
  assert (Hmask : 0 <= BR_MASK < 2 ^ 16) by (cbv; split; congruence).
  unfold br_field, flag_set, acquire_ctl0. cbv zeta.
  destruct (negb (cs =? SPI_HWCS_MASK)); split.
  - rewrite !land_u16 by assumption.
    rewrite !Z.land_lor_distr_l, land_u16 by assumption.
    rewrite !Z.land_lor_distr_l.
    repeat match goal with H : Z.land _ BR_MASK = _ |- _ => rewrite H end.
    rewrite !Z.lor_0_r. exact Hback.
  - apply negb_false_iff, Z.eqb_eq. apply land_u16_zero.
    rewrite !Z.land_lor_distr_l, land_u16_zero.
    + repeat match goal with
             | H : Z.land _ SPI0_CTL0_SPIEN_Msk = _ |- _ => rewrite H
             end.
      reflexivity.
    + rewrite !Z.land_lor_distr_l, Hbr_en.
      repeat match goal with
             | H : Z.land _ SPI0_CTL0_SPIEN_Msk = _ |- _ => rewrite H
             end.
      reflexivity.
  - rewrite land_u16 by assumption. rewrite !Z.land_lor_distr_l.
    repeat match goal with H : Z.land _ BR_MASK = _ |- _ => rewrite H end.
    rewrite !Z.lor_0_r. exact Hback.
  - apply negb_false_iff, Z.eqb_eq. apply land_u16_zero.
    rewrite !Z.land_lor_distr_l, Hbr_en.
    repeat match goal with
           | H : Z.land _ SPI0_CTL0_SPIEN_Msk = _ |- _ => rewrite H
           end.
    reflexivity.
Qed.

(** When the bits [spi_acquire] ors together stay clear of the baud-rate
    field and of the enable bit, and the cache held selectors of the field
    only, an acquire that returns leaves the selector it cached for the bus
    in the baud-rate field of the control word and the peripheral disabled,
    so that the hardware chip select stays high until the first transfer;
    the cache again holds selectors of the field only. *)
Theorem spi_acquire_control_word bus cs mode clk (st : driver_state D) u st' :
  wf st -> dividers_ok st -> ctl0_layout mode ->
  spi_acquire bus cs mode clk st = Done (u, st') ->
  dividers_ok st' /\
  exists br w,
    dividers st' !! bus = Some br /\ ctl0_of bus st' = Some w /\
    br_field w = br /\ flag_set w SPI0_CTL0_SPIEN_Msk = false.
Proof.
  intros Hwf Hok Hlayout Hrun.
  pose proof Hrun as Hinv.
  apply spi_acquire_Done in Hinv
    as (conf & cached & br & Hbus & Hconf & Hfree & _ & Hc & Hbr & Hcache).
  destruct (wf_lookups bus st Hwf Hbus)
    as (conf' & h & c' & d0 & r & Hconf' & _ & _ & Hd0 & Hr).
  assert (Hbr' : if clk =? cached then br = d0 else _get_clkdiv conf clk = Done br).
  { destruct (clk =? cached).
    - destruct Hcache as [_ Hdiv]. rewrite Hdiv in Hbr. congruence.
    - destruct Hcache as (d & Hd & _ & Hdiv). rewrite Hdiv in Hbr.
      rewrite list_lookup_insert_eq in Hbr by (eapply lookup_lt_Some; eauto).
      congruence. }
  rewrite (spi_acquire_exec bus cs mode clk st conf cached d0 r br) in Hrun
    by assumption.
  injection Hrun as _ <-.
  assert (Hrange : 0 <= br <= BR_MAX).
  { destruct (clk =? cached).
    - subst br. unfold dividers_ok in Hok. rewrite Forall_lookup in Hok.
      exact (Hok _ _ Hd0).
    - destruct (get_clkdiv_cases conf clk) as [Hzero Hnz].
      destruct (Z.eq_dec (u32 (2 * clk)) 0) as [Hz|Hz].
      + rewrite (Hzero Hz) in Hbr'. discriminate.
      + rewrite (Hnz Hz) in Hbr'. injection Hbr' as <-.
        apply selector_of_ratio_range. }
  split.
  - unfold dividers_ok, after_acquire. cbn.
    destruct (clk =? cached); [assumption|].
    apply Forall_insert; assumption.
  - exists br, (acquire_ctl0 br mode cs).
    split; [exact Hbr|]. split.
    + unfold ctl0_of, after_acquire. cbn.
      rewrite list_lookup_insert_eq by (eapply lookup_lt_Some; eauto). reflexivity.
    + apply acquire_ctl0_fields; assumption.
Qed.

(** [spi_release] does not check its argument, and on a configured bus it
    returns whether or not the bus was acquired: the lock is free, the
    first control register zero (the peripheral disabled) and the second
    at its default, as [spi_init] leaves them; the clock cache survives
    for the next acquire; no pin is driven, so a chip-select line that a
    transfer left low stays low. *)
Theorem spi_release_resets_bus bus (st : driver_state D) :
  wf st ->
  ((SPI_NUMOF <= bus)%nat -> spi_release bus st = Fault OutOfBounds) /\
  ((bus < SPI_NUMOF)%nat ->
   exists conf st',
     spi_config !! bus = Some conf /\ spi_release bus st = Done (tt, st') /\ wf st' /\
     locks st' = <[bus := false]> (locks st) /\
     ctl0_of bus st' = Some 0 /\ ctl1_of bus st' = Some SPI_CTL1_SETTINGS /\
     port_of bus st' = port_of bus st /\ other_buses bus st st' /\
     clocks st' = clocks st /\ dividers st' = dividers st /\
     gpio_out st' = gpio_out st /\
     trace st' =
       trace st ++ dma_release_events conf
                ++ [EvCTL0 bus 0; EvCTL1 bus SPI_CTL1_SETTINGS;
                    EvClkDis (apbbus conf) (rcumask conf)]
                ++ pm_events ++ [EvMutexUnlock bus]).
Proof.
  intros Hwf. split.
  - intros Hbus. unfold spi_release, bind, config.
    rewrite lookup_ge_None_2 by exact Hbus. reflexivity.
  - intros Hbus.
    destruct (wf_lookups bus st Hwf Hbus)
      as (conf & h & c & d & r & Hconf & Hh & _ & _ & Hr).
    exists conf, (after_release bus conf r st).
    split; [exact Hconf|]. split; [eapply spi_release_exec; eauto|].
    destruct Hwf as (Hl & Hc & Hd & Hrg).
    assert (Hlt : (bus < length (regs st))%nat) by (eapply lookup_lt_Some; eauto).
    unfold wf, ctl0_of, ctl1_of, port_of, other_buses, after_release. cbn.
    rewrite !length_insert, !list_lookup_insert_eq, Hr by assumption.
    cbn. repeat split; try assumption.
    intros b Hb. rewrite !list_lookup_insert_ne by auto. reflexivity.
Qed.


End AcquireReleaseForward.

(** ** The bytes of a polled transfer *)

(** Splits a hypothesis on a sequence of driver steps at its first step. *)
Ltac unseq H :=
  let a := fresh "a" in
  let s := fresh "s" in
  let Hs := fresh "Hstep" in
  match type of H with
  | bind _ _ _ = Done _ => apply bind_Done in H as (a & s & Hs & H)
  end.

Tactic Notation "seq" hyp(H) "as" ident(Hs) "at" ident(s) :=
  let a := fresh "a" in
  match type of H with
  | bind _ _ _ = Done _ => apply bind_Done in H as (a & s & Hs & H)
  end.

Tactic Notation "seq" hyp(H) "as" ident(Hs) :=
  let a := fresh "a" in
  let s := fresh "s" in
  match type of H with
  | bind _ _ _ = Done _ => apply bind_Done in H as (a & s & Hs & H)
  end.

Section PolledData.
Context `{P : Platform} {D : Type} `{HW : SpiHw D}.

Lemma for_loop_indexed {A} (I : nat -> list A -> driver_state D -> Prop)
    (body : nat -> M D A) n i acc (st : driver_state D) l st' :
  (forall j acc s a s', I j acc s -> body j s = Done (a, s') -> I (S j) (acc ++ [a]) s') ->
  I i acc st -> for_loop n i body st = Done (l, st') ->
  I (i + n)%nat (acc ++ l) st' /\ length l = n.
Proof.
  intros Hbody. revert i acc st l.
  induction n as [|n IH]; intros i acc st l HI Hrun; cbn in Hrun.
  - injection Hrun as <- <-. rewrite Nat.add_0_r, app_nil_r. auto.
  - apply bind_Done in Hrun as (a & s1 & Ha & Hrun).
    apply bind_Done in Hrun as (l' & s2 & Hl & Hret).
    injection Hret as <- <-.
    destruct (IH (S i) (acc ++ [a]) s1 l') as [HI' Hlen]; eauto.
    rewrite <- app_assoc in HI'. cbn in HI'.
    rewrite Nat.add_succ_r. cbn. auto.
Qed.

Lemma data_accesses_STAT bus b (vs : list Z) :
  data_accesses bus (EvSTAT b <$> vs) = [].
Proof. induction vs as [|v vs IH]; [reflexivity|exact IH]. Qed.

Lemma register_io_STAT b (vs : list Z) : Forall register_io (EvSTAT b <$> vs).
Proof. induction vs as [|v vs IH]; constructor; [exact Logic.I|exact IH]. Qed.

Lemma exchanged_since_refl (st : driver_state D) bus : exchanged_since st bus [] st.
Proof. exists []. rewrite app_nil_r. repeat split. constructor. Qed.

Lemma exchanged_since_app (st0 : driver_state D) bus a s s' evs :
  exchanged_since st0 bus a s -> trace s' = trace s ++ evs ->
  Forall register_io evs ->
  exchanged_since st0 bus (a ++ data_accesses bus evs) s'.
Proof.
  intros (evs0 & Ht & Hio & Ha) Ht' Hio'. exists (evs0 ++ evs).
  split; [rewrite Ht', Ht, <- app_assoc; reflexivity|].
  split; [apply Forall_app; auto|].
  unfold data_accesses in *. rewrite omap_app, Ha. reflexivity.
Qed.

Lemma exchanged_wait_set st0 bus a fuel mask (s : driver_state D) u s' :
  exchanged_since st0 bus a s -> wait_flag_set fuel bus mask s = Done (u, s') ->
  exchanged_since st0 bus a s'.
Proof.
  intros Hs Hrun. apply wait_flag_set_trace in Hrun as (_ & vs & _ & Ht).
  rewrite <- (app_nil_r a), <- (data_accesses_STAT bus bus vs).
  eapply exchanged_since_app; eauto using register_io_STAT.
Qed.

Lemma exchanged_wait_clear st0 bus a fuel mask (s : driver_state D) u s' :
  exchanged_since st0 bus a s -> wait_flag_clear fuel bus mask s = Done (u, s') ->
  exchanged_since st0 bus a s'.
Proof.
  intros Hs Hrun. apply wait_flag_clear_trace in Hrun as (_ & vs & _ & Ht).
  rewrite <- (app_nil_r a), <- (data_accesses_STAT bus bus vs).
  eapply exchanged_since_app; eauto using register_io_STAT.
Qed.

Lemma exchanged_wait_for_end st0 bus a fuel (s : driver_state D) u s' :
  exchanged_since st0 bus a s -> _wait_for_end fuel bus s = Done (u, s') ->
  exchanged_since st0 bus a s'.
Proof.
  unfold _wait_for_end. intros Hs Hrun.
  apply bind_Done in Hrun as (u1 & s1 & H1 & H2).
  eauto using exchanged_wait_set, exchanged_wait_clear.
Qed.

Lemma exchanged_get_STAT st0 bus a (s : driver_state D) v s' :
  exchanged_since st0 bus a s -> get_STAT bus s = Done (v, s') ->
  exchanged_since st0 bus a s'.
Proof.
  intros Hs Hrun. apply get_STAT_Done in Hrun as (d & d' & _ & _ & ->).
  rewrite <- (app_nil_r a).
  apply (exchanged_since_app st0 bus a s _ [EvSTAT bus v]); auto.
  repeat constructor.
Qed.

Lemma exchanged_put st0 bus a b (s : driver_state D) u s' :
  exchanged_since st0 bus a s -> put_DATA8 bus b s = Done (u, s') ->
  exchanged_since st0 bus (a ++ [Wrote b]) s'.
Proof.
  intros Hs Hrun. apply put_DATA8_Done in Hrun as (d & _ & ->).
  replace [Wrote b] with (data_accesses bus [EvDataWrite bus b])
    by (cbn; rewrite decide_True by reflexivity; reflexivity).
  apply (exchanged_since_app st0 bus a s); auto. repeat constructor.
Qed.

Lemma exchanged_get8 st0 bus a (s : driver_state D) v s' :
  exchanged_since st0 bus a s -> get_DATA8 bus s = Done (v, s') ->
  exists w, v = u8 w /\ exchanged_since st0 bus (a ++ [Got w]) s'.
Proof.
  intros Hs Hrun. apply get_DATA8_Done in Hrun as (d & d' & w & _ & _ & -> & ->).
  exists w. split; [reflexivity|].
  replace [Got w] with (data_accesses bus [EvDataRead bus w])
    by (cbn; rewrite decide_True by reflexivity; reflexivity).
  apply (exchanged_since_app st0 bus a s); auto. repeat constructor.
Qed.

Lemma exchanged_get st0 bus a (s : driver_state D) v s' :
  exchanged_since st0 bus a s -> get_DATA bus s = Done (v, s') ->
  exchanged_since st0 bus (a ++ [Got v]) s'.
Proof.
  intros Hs Hrun. apply get_DATA_Done in Hrun as (d & d' & _ & _ & ->).
  replace [Got v] with (data_accesses bus [EvDataRead bus v])
    by (cbn; rewrite decide_True by reflexivity; reflexivity).
  apply (exchanged_since_app st0 bus a s); auto. repeat constructor.
Qed.

Lemma exchanged_drain st0 bus a fuel (s : driver_state D) u s' :
  exchanged_since st0 bus a s -> drain_receive fuel bus s = Done (u, s') ->
  exists vs, exchanged_since st0 bus (a ++ (Got <$> vs)) s'.
Proof.
  intros Hs Hrun.
  apply (drain_receive_Done
           (fun s => exists vs, exchanged_since st0 bus (a ++ (Got <$> vs)) s))
    in Hrun as (s1 & v & (vs & Hs1) & Hget & _).
  - exists vs. eapply exchanged_get_STAT; eauto.
  - intros s0 v s1 w s2 (vs & Hs0) Hstat _ Hget. exists (vs ++ [w]).
    rewrite fmap_app, app_assoc. eapply exchanged_get; [|exact Hget].
    eapply exchanged_get_STAT; eauto.
  - exists []. cbn. rewrite app_nil_r. exact Hs.
Qed.

Lemma full_duplex_snoc (x : list (Z * Z)) w v :
  full_duplex (x ++ [(w, v)]) = full_duplex x ++ [Wrote w; Got v].
Proof. unfold full_duplex. rewrite bind_app. reflexivity. Qed.

Lemma transfer_no_dma_data fuel bus out inp len (st : driver_state D) r st' :
  _transfer_no_dma fuel bus out inp len st = Done (r, st') ->
  (forall l, out = Some l -> (len <= length l)%nat) /\
  if inp
  then exists x, exchanged_since st bus (full_duplex x) st' /\
                 x.*1 = sent out len /\ r = u8 <$> x.*2
  else r = [] /\
       exists drained,
         exchanged_since st bus ((Wrote <$> sent out len) ++ (Got <$> drained)) st'.
Proof.
  unfold _transfer_no_dma. intros Hrun. seq Hrun as Hloop. seq Hrun as Hend.
  injection Hrun as <- <-.
  destruct inp; cbn [negb] in Hloop.
  - destruct out as [l|].
    + apply (for_loop_indexed
               (fun j acc s => exists x, exchanged_since st bus (full_duplex x) s /\
                                         x.*1 = u8 <$> take j l /\ acc = u8 <$> x.*2 /\
                                         (j <= length l)%nat)
               _ _ _ []) in Hloop as [(x & Hx & Hw & Hr & Hlen) _].
      * cbn in Hw, Hr, Hlen. split; [intros l' [= <-]; exact Hlen|].
        exists x. eauto using exchanged_wait_for_end.
      * intros j acc sj b sj' (x & Hx & Hw & Hr & Hlen) Hbody. cbv beta in Hbody.
        seq Hbody as Hwait. seq Hbody as Hload.
        apply load_Done in Hload as (-> & l' & w & [= <-] & Hlw & ->).
        seq Hbody as Hput. seq Hbody as Hrbne.
        eapply exchanged_wait_set in Hwait; [|exact Hx].
        eapply exchanged_put in Hput; [|exact Hwait].
        eapply exchanged_wait_set in Hrbne; [|exact Hput].
        eapply exchanged_get8 in Hbody as (v & -> & Hs'); [|exact Hrbne].
        exists (x ++ [(u8 w, v)]).
        rewrite <- app_assoc in Hs'.
        split; [rewrite full_duplex_snoc; exact Hs'|].
        split; [rewrite fmap_app, Hw, (take_S_r _ _ _ Hlw), fmap_app; reflexivity|].
        split; [rewrite !fmap_app, Hr; reflexivity|eapply lookup_lt_Some; eauto].
      * exists []. repeat split; [apply exchanged_since_refl|cbn; lia].
    + apply (for_loop_indexed
               (fun j acc s => exists x, exchanged_since st bus (full_duplex x) s /\
                                         x.*1 = replicate j 0 /\ acc = u8 <$> x.*2)
               _ _ _ []) in Hloop as [(x & Hx & Hw & Hr) _].
      * cbn in Hw, Hr. split; [discriminate|].
        exists x. eauto using exchanged_wait_for_end.
      * intros j acc sj b sj' (x & Hx & Hw & Hr) Hbody. cbv beta in Hbody.
        seq Hbody as Hwait. seq Hbody as Hput. seq Hbody as Hrbne.
        eapply exchanged_wait_set in Hwait; [|exact Hx].
        eapply exchanged_put in Hput; [|exact Hwait].
        eapply exchanged_wait_set in Hrbne; [|exact Hput].
        eapply exchanged_get8 in Hbody as (v & -> & Hs'); [|exact Hrbne].
        exists (x ++ [(0, v)]).
        rewrite <- app_assoc in Hs'.
        split; [rewrite full_duplex_snoc; exact Hs'|].
        split; [rewrite fmap_app, Hw, replicate_S_end; reflexivity|].
        rewrite !fmap_app, Hr. reflexivity.
      * exists []. repeat split. apply exchanged_since_refl.
  - seq Hloop as Hfor. seq Hloop as Htbe. seq Hloop as Htrans. seq Hloop as Hdrain.
    injection Hloop as <- <-. split; [|split; [reflexivity|]].
    + intros l ->.
      apply (for_loop_indexed
               (fun j (acc : list unit) (s : driver_state D) => (j <= length l)%nat)
               _ _ _ []) in Hfor as [Hlen _]; [exact Hlen| |cbn; lia].
      intros j acc sj b sj' _ Hbody. cbv beta in Hbody.
      seq Hbody as Hwait. seq Hbody as Hload.
      apply load_Done in Hload as (_ & l' & w & [= <-] & Hlw & _).
      eapply lookup_lt_Some; eauto.
    + apply (for_loop_indexed
               (fun j (acc : list unit) s =>
                  exchanged_since st bus (Wrote <$> sent out j) s /\
                  (out = None -> j = 0%nat))
               _ _ _ []) in Hfor as [[Hs Hnone] _].
      * cbn in Hs.
        eapply exchanged_wait_set in Htbe; [|exact Hs].
        eapply exchanged_wait_clear in Htrans; [|exact Htbe].
        eapply exchanged_drain in Hdrain as [vs Hvs]; [|exact Htrans].
        exists vs. eauto using exchanged_wait_for_end.
      * intros j acc sj b sj' [Hs _] Hbody. cbv beta in Hbody.
        seq Hbody as Hwait. seq Hbody as Hload.
        apply load_Done in Hload as (-> & l' & w & -> & Hlw & ->).
        eapply exchanged_wait_set in Hwait; [|exact Hs].
        eapply exchanged_put in Hbody; [|exact Hwait].
        split; [|discriminate]. cbn [sent] in *.
        rewrite (take_S_r _ _ _ Hlw), !fmap_app. exact Hbody.
      * split; [|reflexivity]. destruct out; apply exchanged_since_refl.
Qed.

Lemma transfer_bytes_split fuel bus cs cont out inp len (st : driver_state D) r st' :
  spi_transfer_bytes fuel bus cs cont out inp len st = Done (r, st') ->
  exists s2 s3 pre post,
    trace s2 = trace st ++ pre /\ Forall framing_event pre /\
    (if strategy_is_dma bus
     then _transfer_dma fuel bus out inp len s2
     else _transfer_no_dma fuel bus out inp len s2) = Done (r, s3) /\
    trace st' = trace s3 ++ post /\ Forall framing_event post /\
    bool_decide (is_Some out) || inp = true.
Proof.
  unfold spi_transfer_bytes. intros Hrun.
  seq Hrun as Hassert at sa. apply assert_Done in Hassert as [Hbuf ->].
  seq Hrun as Hget at sg. apply get_CTL0_Done in Hget as [Hv ->].
  seq Hrun as Hput at s1. apply put_CTL0_Done in Hput as (_ & _ & _ & _ & _ & Ht1).
  seq Hrun as Hsel at s2. seq Hrun as Hbody at s3. seq Hrun as Hrel at s4.
  cbv beta delta [ret] in Hrun. injection Hrun as <- <-.
  exists s2, s3.
  assert (Hpre : exists pre, trace s2 = trace st ++ pre /\ Forall framing_event pre).
  { destruct (negb (cs =? SPI_HWCS_MASK) && gpio_is_valid cs).
    - apply gpio_clear_Done in Hsel as (_ & _ & Ht).
      eexists. split; [rewrite Ht, Ht1, <- app_assoc; reflexivity|].
      repeat constructor.
    - cbv beta delta [ret] in Hsel. injection Hsel as _ <-.
      eexists. split; [exact Ht1|]. repeat constructor. }
  destruct Hpre as (pre & Hpre & Hfpre).
  assert (Hpost : exists post, trace s4 = trace s3 ++ post /\ Forall framing_event post).
  { destruct (negb cont && gpio_is_valid cs).
    - seq Hrel as Hget at sg. apply get_CTL0_Done in Hget as [_ ->].
      seq Hrel as Hput at s5. apply put_CTL0_Done in Hput as (_ & _ & _ & _ & _ & Ht).
      destruct (negb (cs =? SPI_HWCS_MASK)).
      + apply gpio_set_Done in Hrel as (_ & _ & _ & _ & _ & Ht').
        eexists. split; [rewrite Ht', Ht, <- app_assoc; reflexivity|].
        repeat constructor.
      + cbv beta delta [ret] in Hrel. injection Hrel as _ <-.
        eexists. split; [exact Ht|]. repeat constructor.
    - cbv beta delta [ret] in Hrel. injection Hrel as _ <-.
      exists []. rewrite app_nil_r. split; [reflexivity|constructor]. }
  destruct Hpost as (post & Hpost & Hfpost).
  exists pre, post. repeat (split; [assumption|]). split; [|auto].
  unfold strategy_is_dma. destruct MODULE_PERIPH_DMA; cbn [andb]; [|exact Hbody].
  seq Hbody as Hconf at sc. apply config_Done in Hconf as [Hconf ->].
  rewrite Hconf. cbn [from_option]. destruct (_use_dma _); exact Hbody.
Qed.

(** A transfer is the selection, the exchange by one of the two
    strategies, and the release, with nothing else in between. *)
Lemma transfer_bytes_exact fuel bus cs cont out inp len (st : driver_state D) r st' :
  spi_transfer_bytes fuel bus cs cont out inp len st = Done (r, st') ->
  exists v s2 s3,
    ctl0_of bus st = Some v /\
    trace s2 = trace st ++ select_trace bus cs v /\
    (if strategy_is_dma bus
     then _transfer_dma fuel bus out inp len s2
     else _transfer_no_dma fuel bus out inp len s2) = Done (r, s3) /\
    trace st' = trace s3 ++ release_trace bus cs cont v.
Proof.
  unfold spi_transfer_bytes. intros Hrun.
  seq Hrun as Hassert at sa. apply assert_Done in Hassert as [Hbuf ->].
  seq Hrun as Hget at sg. apply get_CTL0_Done in Hget as [Hv ->].
  seq Hrun as Hput at s1. apply put_CTL0_Done in Hput as (Hc1 & _ & _ & _ & _ & Ht1).
  seq Hrun as Hsel at s2. seq Hrun as Hbody at s3. seq Hrun as Hrel at s4.
  cbv beta delta [ret] in Hrun. injection Hrun as <- <-.
  lazymatch goal with
  | H : ctl0_of bus st = Some ?x, H' : _ s2 = Done (?y, s3) |- _ =>
      rename x into v; rename y into res
  end.
  exists v, s2, s3. split; [exact Hv|].
  assert (Hs2 : trace s2 = trace st ++ select_trace bus cs v /\
                ctl0_of bus s2 = Some (Z.lor v SPI0_CTL0_SPIEN_Msk)).
  { unfold select_trace.
    destruct (negb (cs =? SPI_HWCS_MASK) && gpio_is_valid cs).
    - apply gpio_clear_Done in Hsel as (_ & Hregs & Ht).
      split; [rewrite Ht, Ht1, <- app_assoc; reflexivity|].
      unfold ctl0_of in *. rewrite Hregs. exact Hc1.
    - cbv beta delta [ret] in Hsel. injection Hsel as _ <-.
      split; [exact Ht1|exact Hc1]. }
  destruct Hs2 as [Ht2 Hc2]. split; [exact Ht2|].
  assert (Hstrategy :
            (if strategy_is_dma bus
             then _transfer_dma fuel bus out inp len s2
             else _transfer_no_dma fuel bus out inp len s2) = Done (res, s3)).
  { unfold strategy_is_dma. destruct MODULE_PERIPH_DMA; cbn [andb]; [|exact Hbody].
    seq Hbody as Hconf at sc. apply config_Done in Hconf as [Hconf ->].
    rewrite Hconf. cbn [from_option]. destruct (_use_dma _); exact Hbody. }
  split; [exact Hstrategy|].
  assert (Hframe : io_frame s2 s3).
  { destruct (strategy_is_dma bus);
      [eapply transfer_dma_frame|eapply transfer_no_dma_frame]; eauto. }
  destruct Hframe as [Hctl _].
  pose proof (ctl0_of_ctl bus _ _ Hctl) as Hc3. rewrite Hc2 in Hc3.
  unfold release_trace. destruct (negb cont && gpio_is_valid cs).
  - seq Hrel as Hget at sg. apply get_CTL0_Done in Hget as [Hw ->].
    rewrite Hc3 in Hw. injection Hw as <-.
    seq Hrel as Hput at s5. apply put_CTL0_Done in Hput as (_ & _ & _ & _ & _ & Ht).
    destruct (negb (cs =? SPI_HWCS_MASK)).
    + apply gpio_set_Done in Hrel as (_ & _ & _ & _ & _ & Ht').
      rewrite Ht', Ht, <- app_assoc. reflexivity.
    + cbv beta delta [ret] in Hrel. injection Hrel as _ <-. exact Ht.
  - cbv beta delta [ret] in Hrel. injection Hrel as _ <-.
    rewrite app_nil_r. reflexivity.
Qed.

Lemma select_trace_no_data bus b cs v : data_accesses b (select_trace bus cs v) = [].
Proof.
  unfold select_trace.
  destruct (negb (cs =? SPI_HWCS_MASK) && gpio_is_valid cs); reflexivity.
Qed.

Lemma release_trace_no_data bus b cs cont v :
  data_accesses b (release_trace bus cs cont v) = [].
Proof.
  unfold release_trace.
  destruct (negb cont && gpio_is_valid cs), (negb (cs =? SPI_HWCS_MASK)); reflexivity.
Qed.

Lemma data_accesses_app bus (evs evs' : list event) :
  data_accesses bus (evs ++ evs') = data_accesses bus evs ++ data_accesses bus evs'.
Proof. apply omap_app. Qed.

Lemma data_accesses_dma_calls bus conf out inp len :
  data_accesses bus (dma_calls conf out inp len) = [].
Proof. unfold dma_calls. destruct DMA_CCR_EN; reflexivity. Qed.

Lemma framing_no_data bus (evs : list event) :
  Forall framing_event evs -> data_accesses bus evs = [].
Proof.
  induction 1 as [|e evs He _ IH]; [reflexivity|].
  destruct e; try contradiction; exact IH.
Qed.

Lemma framing_not_dma (evs : list event) :
  Forall framing_event evs -> Forall (fun e => ~ dma_event e) evs.
Proof.
  intros H. eapply Forall_impl; [exact H|].
  intros e He. destruct e; try contradiction; auto.
Qed.

Lemma register_io_not_dma (evs : list event) :
  Forall register_io evs -> Forall (fun e => ~ dma_event e) evs.
Proof.
  intros H. eapply Forall_impl; [exact H|].
  intros e He. destruct e; try contradiction; auto.
Qed.

(** Where the bytes of a bus are not handed to the DMA driver, a transfer
    that returns has called the DMA driver not once and has sent exactly the
    first [len] bytes of the output buffer, in order and truncated to 8
    bits, or [len] zeros where there is no output buffer; the buffer holds
    at least [len] bytes.  With an input buffer every byte written is
    followed by one read of the data register before the next is written,
    and the bytes returned are the values read, truncated to 8 bits, in
    order.  Without one nothing is read until every byte is written, what
    is read afterwards is dropped, and nothing is returned. *)
Theorem polled_transfer_bytes_data fuel bus cs cont out inp len
    (st : driver_state D) r st' :
  strategy_is_dma bus = false ->
  spi_transfer_bytes fuel bus cs cont out inp len st = Done (r, st') ->
  (forall l, out = Some l -> (len <= length l)%nat) /\
  exists evs,
    trace st' = trace st ++ evs /\ Forall (fun e => ~ dma_event e) evs /\
    if inp
    then exists x, data_accesses bus evs = full_duplex x /\
                   x.*1 = sent out len /\ r = u8 <$> x.*2
    else r = [] /\ is_Some out /\
         exists drained,
           data_accesses bus evs = (Wrote <$> sent out len) ++ (Got <$> drained).
Proof.
  intros Hpolled Hrun.
  apply transfer_bytes_split in Hrun
    as (s2 & s3 & pre & post & Hpre & Hfpre & Hbody & Hpost & Hfpost & Hbuf).
  rewrite Hpolled in Hbody.
  apply transfer_no_dma_data in Hbody as [Hlen Hdata]. split; [exact Hlen|].
  assert (Hsum : forall a, exchanged_since s2 bus a s3 ->
            exists evs, trace st' = trace st ++ evs /\
                        Forall (fun e => ~ dma_event e) evs /\
                        data_accesses bus evs = a).
  { intros a (evs & Ht & Hio & Ha). exists (pre ++ evs ++ post).
    split; [rewrite Hpost, Ht, Hpre, <- !app_assoc; reflexivity|]. split.
    - repeat apply Forall_app_2;
        auto using framing_not_dma, register_io_not_dma.
    - rewrite !data_accesses_app, Ha, !framing_no_data by assumption.
      rewrite app_nil_r. reflexivity. }
  destruct inp.
  - destruct Hdata as (x & Hx & Hw & Hr).
    destruct (Hsum _ Hx) as (evs & Ht & Hno & Ha).
    exists evs. eauto 8.
  - destruct Hdata as (-> & drained & Hx).
    destruct (Hsum _ Hx) as (evs & Ht & Hno & Ha).
    exists evs. split; [exact Ht|]. split; [exact Hno|]. split; [reflexivity|].
    split; [|eauto].
    rewrite orb_false_r in Hbuf. apply bool_decide_eq_true in Hbuf. exact Hbuf.
Qed.

(** Where the bytes of a bus are handed to the DMA driver, a transfer that
    returns has done exactly this, in this order: the selection (the
    peripheral enabled, a valid software chip select pulled low), the calls
    of the DMA driver of [_transfer_dma] with the length passed unchanged
    to both channels, the status reads that wait for the transmit buffer to
    empty and then for the busy flag to clear, and the release.  The
    processor itself makes no access to the data register, and the driver
    stores nothing into the input buffer. *)
Theorem dma_transfer_bytes_no_data_access fuel bus cs cont out inp len
    (st : driver_state D) r st' :
  strategy_is_dma bus = true ->
  spi_transfer_bytes fuel bus cs cont out inp len st = Done (r, st') ->
  r = [] /\
  exists conf v tbe trans evs,
    spi_config !! bus = Some conf /\ ctl0_of bus st = Some v /\
    polls_until_set SPI0_STAT_TBE_Msk tbe /\
    polls_until_clear SPI0_STAT_TRANS_Msk trans /\
    evs = select_trace bus cs v ++ dma_calls conf out inp len
          ++ (EvSTAT bus <$> tbe) ++ (EvSTAT bus <$> trans)
          ++ release_trace bus cs cont v /\
    trace st' = trace st ++ evs /\
    data_accesses bus evs = [].
Proof.
  intros Hdma Hrun.
  apply transfer_bytes_exact in Hrun as (v & s2 & s3 & Hv & Hpre & Hbody & Hpost).
  rewrite Hdma in Hbody.
  assert (Hr : r = []).
  { unfold _transfer_dma in Hbody.
    repeat unseq Hbody. cbv beta delta [ret] in Hbody.
    injection Hbody as <- _. reflexivity. }
  split; [exact Hr|].
  apply transfer_dma_split in Hbody as (conf & u & Hconf & Hend).
  apply wait_for_end_trace in Hend as (_ & tbe & trans & Htbe & Htrans & Ht).
  rewrite trace_fold_log in Ht.
  exists conf, v, tbe, trans. eexists.
  split; [exact Hconf|]. split; [exact Hv|].
  split; [exact Htbe|]. split; [exact Htrans|].
  split; [reflexivity|]. split.
  - rewrite Hpost, Ht, Hpre, <- !app_assoc. reflexivity.
  - rewrite !data_accesses_app, data_accesses_dma_calls, !data_accesses_STAT.
    rewrite select_trace_no_data, release_trace_no_data. reflexivity.
Qed.

(** With a chip-select designator that is no valid pin the driver drives
    no line and, whatever the continuation flag, does not disable the
    peripheral when the transfer is over: the control word keeps the enable
    bit until the bus is released. *)
Theorem transfer_without_chip_select fuel bus cs cont out inp len
    (st : driver_state D) r st' :
  gpio_is_valid cs = false -> SPI0_CTL0_SPIEN_Msk <> 0 ->
  spi_transfer_bytes fuel bus cs cont out inp len st = Done (r, st') ->
  exists v evs,
    ctl0_of bus st = Some v /\
    ctl0_of bus st' = Some (Z.lor v SPI0_CTL0_SPIEN_Msk) /\
    flag_set (Z.lor v SPI0_CTL0_SPIEN_Msk) SPI0_CTL0_SPIEN_Msk = true /\
    gpio_out st' = gpio_out st /\
    trace st' = trace st ++ EvCTL0 bus (Z.lor v SPI0_CTL0_SPIEN_Msk) :: evs /\
    Forall io_event evs.
Proof.
  intros Hvalid Hen Hrun. unfold spi_transfer_bytes in Hrun.
  rewrite Hvalid, !andb_false_r in Hrun.
  seq Hrun as Hassert at sa. apply assert_Done in Hassert as [_ ->].
  seq Hrun as Hget at sg. apply get_CTL0_Done in Hget as [Hv ->].
  seq Hrun as Hput at s1. apply put_CTL0_Done in Hput as (Hc1 & Hg1 & _ & _ & _ & Ht1).
  seq Hrun as Hsel at s2. cbv beta delta [ret] in Hsel. injection Hsel as _ <-.
  seq Hrun as Hbody at s3. seq Hrun as Hrel at s4.
  cbv beta delta [ret] in Hrel, Hrun. injection Hrel as _ <-.
  injection Hrun as _ <-.
  assert (Hframe : io_frame s1 s3).
  { destruct MODULE_PERIPH_DMA.
    - seq Hbody as Hconf at sc. apply config_Done in Hconf as [_ ->].
      destruct (_use_dma _);
        [eapply transfer_dma_frame|eapply transfer_no_dma_frame]; eauto.
    - eapply transfer_no_dma_frame; eauto. }
  destruct Hframe as (Hctl & evs & Ht3 & Hio).
  exists a0, evs. split; [exact Hv|].
  split; [rewrite (ctl0_of_ctl bus _ _ Hctl); exact Hc1|].
  split; [apply flag_set_enable; exact Hen|].
  split; [rewrite (gpio_out_ctl _ _ Hctl); exact Hg1|].
  split; [|exact Hio]. rewrite Ht3, Ht1, <- app_assoc. reflexivity.
Qed.

End PolledData.

(** ** A peripheral that never becomes ready *)

Section NoTimeout.
Context `{P : Platform} {D : Type} `{HW : SpiHw D}.

Lemma bind_hang {A B} (m : M D A) (k : A -> M D B) (st : driver_state D) :
  m st = Hang -> bind m k st = Hang.
Proof. unfold bind. intros ->. reflexivity. Qed.

Lemma wait_flag_set_hangs fuel bus mask (st : driver_state D) d :
  (forall d, flag_set (read_STAT d).1 mask = false) ->
  port_of bus st = Some d -> wait_flag_set fuel bus mask st = Hang.
Proof.
  intros Hstuck. revert st d.
  induction fuel as [|fuel IH]; intros st d Hport; [reflexivity|].
  rewrite (wait_flag_set_step _ _ _ _ d) by assumption. rewrite Hstuck.
  eapply IH. eapply port_of_accessed. exact Hport.
Qed.

Ltac hangs :=
  repeat first
    [ eapply wait_flag_set_hangs; eassumption
    | rewrite bind_ret
    | apply bind_hang
    | progress unfold _wait_for_end ].

Lemma transfer_no_dma_hangs fuel bus out inp len (st : driver_state D) d :
  (forall d, flag_set (read_STAT d).1 SPI0_STAT_TBE_Msk = false) ->
  port_of bus st = Some d -> _transfer_no_dma fuel bus out inp len st = Hang.
Proof.
  intros Hstuck Hport. unfold _transfer_no_dma.
  destruct inp, out as [l|], len as [|n]; cbn [negb for_loop]; hangs.
Qed.

Lemma transfer_dma_hangs fuel bus out inp len (st : driver_state D) conf d :
  (forall d, flag_set (read_STAT d).1 SPI0_STAT_TBE_Msk = false) ->
  spi_config !! bus = Some conf ->
  port_of bus st = Some d -> _transfer_dma fuel bus out inp len st = Hang.
Proof.
  intros Hstuck Hconf Hport. unfold _transfer_dma.
  rewrite (bind_exec _ _ _ _ _ (config_exec _ _ _ Hconf)).
  unfold dma_prepare, dma_start, dma_wait, dma_stop.
  destruct out, inp, DMA_CCR_EN;
    repeat (rewrite bind_assoc || rewrite bind_emit || rewrite bind_ret);
    hangs.
Qed.

(** The driver has no time-out.  On a configured bus whose status register
    never shows the transmit buffer empty, a transfer with a buffer does not
    return however many times the status may be read, whichever strategy
    moves the bytes and even for a transfer of no byte. *)
Theorem transfer_never_times_out fuel bus cs cont out inp len (st : driver_state D) :
  (forall d, flag_set (read_STAT d).1 SPI0_STAT_TBE_Msk = false) ->
  wf st -> (bus < SPI_NUMOF)%nat -> bool_decide (is_Some out) || inp = true ->
  spi_transfer_bytes fuel bus cs cont out inp len st = Hang.
Proof.
  intros Hstuck Hwf Hbus Hbuf.
  destruct (wf_lookups bus st Hwf Hbus)
    as (conf & h & c & d0 & r & Hconf & _ & _ & _ & Hr).
  assert (Hlt : (bus < length (regs st))%nat) by (eapply lookup_lt_Some; eauto).
  unfold spi_transfer_bytes.
  rewrite (bind_exec _ _ _ _ _ (assert_exec _ _ Hbuf)).
  erewrite bind_exec;
    [|unfold get_CTL0; erewrite bind_exec by (apply index_exec; exact Hr); reflexivity].
  erewrite bind_exec; [|apply put_CTL0_exec; exact Hr].
  match goal with
  | |- bind _ _ ?s = _ =>
      assert (Hport : port_of bus s = Some (port r))
        by (unfold port_of; cbn [regs log set_regs];
            rewrite list_lookup_insert_eq by exact Hlt; reflexivity)
  end.
  assert (Hbody : forall s : driver_state D,
             port_of bus s = Some (port r) ->
             (if MODULE_PERIPH_DMA
              then conf <- config bus;;
                   if _use_dma conf then _transfer_dma fuel bus out inp len
                   else _transfer_no_dma fuel bus out inp len
              else _transfer_no_dma fuel bus out inp len) s = Hang).
  { intros s Hs. destruct MODULE_PERIPH_DMA.
    - rewrite (bind_exec _ _ _ _ _ (config_exec _ _ _ Hconf)).
      destruct (_use_dma conf);
        eauto using transfer_dma_hangs, transfer_no_dma_hangs.
    - eauto using transfer_no_dma_hangs. }
  destruct (negb (cs =? SPI_HWCS_MASK) && gpio_is_valid cs).
  - erewrite bind_exec by (unfold gpio_clear, bind, modify, emit; reflexivity).
    apply bind_hang, Hbody. exact Hport.
  - rewrite bind_ret. apply bind_hang, Hbody. exact Hport.
Qed.

End NoTimeout.

(** ** The further properties on the evaluation boards *)

Lemma get_clkdiv_division_by_zero_iff_witness :
  0 <= 2 ^ 31 < 2 ^ 32 /\
  (_get_clkdiv (P := board) board_bus0 (2 ^ 31) = Fault DivisionByZero
   <-> 2 ^ 31 = 0 \/ 2 ^ 31 = 2 ^ 31) /\
  (2 ^ 31 <> 0 -> 2 ^ 31 <> 2 ^ 31 ->
   exists sel, _get_clkdiv (P := board) board_bus0 (2 ^ 31) = Done sel /\
               0 <= sel <= BR_MAX).
Proof.
  split; [lia|].
  apply (get_clkdiv_division_by_zero_iff (P := board) board_bus0 (2 ^ 31)). lia.
Defined.

(** From 8 MHz down to 1 MHz on the 48 MHz board the selector does not
    decrease. *)
Lemma get_clkdiv_monotone_witness :
  (0 <= 48000000 <= 48000000 /\ 48000000 < 2 ^ 28 /\
   0 < 1000000 <= 8000000 /\ 8000000 < 2 ^ 31) /\
  exists sel sel',
    _get_clkdiv (P := board) board_bus0 8000000 = Done sel /\
    _get_clkdiv (P := board) board_bus0 1000000 = Done sel' /\ sel <= sel'.
Proof.
  split; [lia|].
  apply (get_clkdiv_monotone (P := board) board_bus0 board_bus0 8000000 1000000);
    cbn; lia.
Defined.

Lemma get_clkdiv_accuracy_witness :
  (0 <= 48000000 < 2 ^ 28 /\ 0 < 8000000 < 2 ^ 31) /\
  exists sel,
    _get_clkdiv (P := board) board_bus0 8000000 = Done sel /\
    (fixed_ratio 48000000 8000000 <= 16 -> sel = 0 /\ 8 * 48000000 < 17 * 8000000) /\
    (16 < fixed_ratio 48000000 8000000 <= 2048 ->
     32 * 48000000 < 33 * (8000000 * 2 ^ (sel + 1))) /\
    (16 < fixed_ratio 48000000 8000000 -> 8000000 * 2 ^ (sel + 1) < 2 * 48000000).
Proof.
  split; [lia|].
  apply (get_clkdiv_accuracy (P := board) board_bus0 8000000); cbn; lia.
Defined.

(** [spi_init] on the bus of the evaluation board, from the boot state. *)
Lemma spi_init_resets_bus_witness :
  wf (P := board) (boot_state 1 loop_idle) /\
  exists conf st',
    spi_config (Platform := board) !! 0%nat = Some conf /\
    spi_init (P := board) 0 (boot_state 1 loop_idle) = Done (tt, st') /\
    ctl0_of 0 st' = Some 0 /\ ctl1_of 0 st' = Some 0x1700.
Proof.
  assert (Hwf : wf (P := board) (boot_state 1 loop_idle)) by (repeat split).
  split; [exact Hwf|].
  destruct (proj2 (spi_init_resets_bus (P := board) 0 (boot_state 1 loop_idle) Hwf))
    as (conf & st' & Hconf & Hrun & _ & _ & Hc0 & Hc1 & _); [cbv; lia|].
  exists conf, st'. repeat split; assumption.
Defined.

(** The first acquire of the bus at 8 MHz, and an acquire with clock 0:
    equal to the clock the cache holds at boot, it returns without dividing. *)
Lemma spi_acquire_outcome_witness :
  (wf (P := board) (boot_state 1 loop_idle) /\
   dividers_ok (boot_state 1 loop_idle)) /\
  spi_acquire (P := board) 0 0x48000004 0 8000000 (boot_state 1 loop_idle)
  = Done (tt, acquired) /\
  exists st' d0,
    spi_acquire (P := board) 0 0x48000004 0 0 (boot_state 1 loop_idle)
    = Done (tt, st') /\
    dividers (boot_state 1 loop_idle) !! 0%nat = Some d0 /\
    0 <= d0 <= BR_MAX /\ dividers_ok st'.
Proof.
  assert (Hwf : wf (P := board) (boot_state 1 loop_idle)) by (repeat split).
  assert (Hok : dividers_ok (boot_state 1 loop_idle)).
  { repeat constructor; cbv; discriminate. }
  split; [split; [exact Hwf|exact Hok]|]. split; [vm_compute; reflexivity|].
  destruct (proj2 (spi_acquire_outcome (P := board) 0 0x48000004 0 0
                     (boot_state 1 loop_idle) Hwf))
    as (conf & cached & d0 & r & _ & Hc & Hd & _ & _ & Hfree); [cbv; lia|].
  injection Hc as <-. specialize (Hfree eq_refl). cbn [Z.eqb] in Hfree.
  destruct Hfree as [Hrun Hsel]. destruct (Hsel Hok) as [Hrange Hok'].
  eexists _, d0. repeat split; try eassumption; apply Hrange.
Defined.

Lemma spi_acquire_control_word_witness :
  (wf (P := board) (boot_state 1 loop_idle) /\
   dividers_ok (boot_state 1 loop_idle) /\ ctl0_layout (P := board) 0 /\
   spi_acquire (P := board) 0 0x48000004 0 8000000 (boot_state 1 loop_idle)
   = Done (tt, acquired)) /\
  dividers_ok acquired /\
  exists br w,
    dividers acquired !! 0%nat = Some br /\ ctl0_of 0 acquired = Some w /\
    br_field w = br /\ flag_set w (SPI0_CTL0_SPIEN_Msk (Platform := board)) = false.
Proof.
  assert (Hwf : wf (P := board) (boot_state 1 loop_idle)) by (repeat split).
  assert (Hok : dividers_ok (boot_state 1 loop_idle)).
  { repeat constructor; cbv; discriminate. }
  assert (Hlayout : ctl0_layout (P := board) 0).
  { split; [|reflexivity]. repeat constructor. }
  assert (Hrun : spi_acquire (P := board) 0 0x48000004 0 8000000
                   (boot_state 1 loop_idle) = Done (tt, acquired))
    by (vm_compute; reflexivity).
  split; [auto|].
  apply (spi_acquire_control_word (P := board) 0 0x48000004 0 8000000
           (boot_state 1 loop_idle) tt acquired Hwf Hok Hlayout).
  vm_compute. reflexivity.
Defined.

(** The release of the acquired bus. *)
Lemma spi_release_resets_bus_witness :
  wf (P := board) acquired /\
  exists conf st',
    spi_config (Platform := board) !! 0%nat = Some conf /\
    spi_release (P := board) 0 acquired = Done (tt, st') /\
    locks st' = <[0%nat := false]> (locks acquired) /\
    ctl0_of 0 st' = Some 0 /\ ctl1_of 0 st' = Some 0x1700.
Proof.
  assert (Hwf : wf (P := board) acquired) by (repeat split).
  split; [exact Hwf|].
  destruct (proj2 (spi_release_resets_bus (P := board) 0 acquired Hwf))
    as (conf & st' & Hconf & Hrun & _ & Hl & Hc0 & Hc1 & _); [cbv; lia|].
  exists conf, st'. repeat split; assumption.
Defined.


(** Two bytes exchanged in lock step on the loopback peripheral. *)
Lemma polled_transfer_bytes_data_witness :
  (strategy_is_dma (P := board) 0 = false /\
   duplex_run = Done ([0x9F; 0x01], duplex_end)) /\
  (forall l, Some [0x9F; 0x01] = Some l -> (2 <= length l)%nat) /\
  exists evs,
    trace duplex_end = trace (boot_state 1 loop_idle) ++ evs /\
    Forall (fun e => ~ dma_event e) evs /\
    exists x, data_accesses 0 evs = full_duplex x /\
              x.*1 = sent (Some [0x9F; 0x01]) 2 /\ [0x9F; 0x01] = u8 <$> x.*2.
Proof.
  assert (Hrun : duplex_run = Done ([0x9F; 0x01], duplex_end))
    by (vm_compute; reflexivity).
  split; [split; [reflexivity|exact Hrun]|].
  apply (polled_transfer_bytes_data (P := board) (HW := loop_hw) 4 0 0x48000004 false
           (Some [0x9F; 0x01]) true 2 (boot_state 1 loop_idle) [0x9F; 0x01]
           duplex_end).
  - reflexivity.
  - vm_compute. reflexivity.
Defined.

(** One byte handed to the DMA driver on the DMA board. *)
Lemma dma_transfer_bytes_no_data_access_witness :
  (strategy_is_dma (P := dma_board) 0 = true /\
   dma_bytes_run = Done ([], dma_bytes_end)) /\
  @nil Z = [] /\
  exists conf v tbe trans evs,
    spi_config (Platform := dma_board) !! 0%nat = Some conf /\
    ctl0_of 0 (boot_state 1 loop_idle) = Some v /\
    polls_until_set (SPI0_STAT_TBE_Msk (Platform := dma_board)) tbe /\
    polls_until_clear (SPI0_STAT_TRANS_Msk (Platform := dma_board)) trans /\
    evs = select_trace (P := dma_board) 0 0x48000004 v
          ++ dma_calls (P := dma_board) conf (Some [0xAA]) true 1
          ++ (EvSTAT 0 <$> tbe) ++ (EvSTAT 0 <$> trans)
          ++ release_trace (P := dma_board) 0 0x48000004 false v /\
    trace dma_bytes_end = trace (boot_state 1 loop_idle) ++ evs /\
    data_accesses 0 evs = [].
Proof.
  assert (Hrun : dma_bytes_run = Done ([], dma_bytes_end))
    by (vm_compute; reflexivity).
  split; [split; [reflexivity|exact Hrun]|].
  apply (dma_transfer_bytes_no_data_access (P := dma_board) (HW := loop_hw)
           4 0 0x48000004 false (Some [0xAA]) true 1
           (boot_state 1 loop_idle) [] dma_bytes_end).
  - reflexivity.
  - vm_compute. reflexivity.
Defined.

(** A transfer with an undefined chip select leaves the peripheral
    enabled. *)
Lemma transfer_without_chip_select_witness :
  (gpio_is_valid (Platform := board) GPIO_UNDEF = false /\
   SPI0_CTL0_SPIEN_Msk (Platform := board) <> 0 /\
   nocs_run = Done ([0x9F], nocs_end)) /\
  exists v evs,
    ctl0_of 0 (boot_state 1 loop_idle) = Some v /\
    ctl0_of 0 nocs_end = Some (Z.lor v (SPI0_CTL0_SPIEN_Msk (Platform := board))) /\
    flag_set (Z.lor v (SPI0_CTL0_SPIEN_Msk (Platform := board)))
      (SPI0_CTL0_SPIEN_Msk (Platform := board)) = true /\
    gpio_out nocs_end = gpio_out (boot_state 1 loop_idle) /\
    trace nocs_end
    = trace (boot_state 1 loop_idle)
      ++ EvCTL0 0 (Z.lor v (SPI0_CTL0_SPIEN_Msk (Platform := board))) :: evs /\
    Forall (io_event) evs.
Proof.
  assert (Hen : SPI0_CTL0_SPIEN_Msk (Platform := board) <> 0) by discriminate.
  assert (Hrun : nocs_run = Done ([0x9F], nocs_end)) by (vm_compute; reflexivity).
  split; [split; [reflexivity|split; [exact Hen|exact Hrun]]|].
  apply (transfer_without_chip_select (P := board) (HW := loop_hw) 4 0 GPIO_UNDEF false
           (Some [0x9F]) true 1 (boot_state 1 loop_idle) [0x9F] nocs_end).
  - reflexivity.
  - exact Hen.
  - vm_compute. reflexivity.
Defined.

(** A transfer on the peripheral whose transmit buffer never empties, with
    a thousand status reads allowed per wait. *)
Lemma transfer_never_times_out_witness :
  ((forall d : unit,
      flag_set (read_STAT (SpiHw := stuck_hw) d).1
        (SPI0_STAT_TBE_Msk (Platform := board)) = false) /\
   wf (P := board) (boot_state 1 tt) /\ (0 < SPI_NUMOF (P := board))%nat) /\
  spi_transfer_bytes (P := board) (HW := stuck_hw) 1000 0 0x48000004 false
    (Some [0x9F]) false 1 (boot_state 1 tt) = Hang.
Proof.
  assert (Hstuck : forall d : unit,
            flag_set (read_STAT (SpiHw := stuck_hw) d).1
              (SPI0_STAT_TBE_Msk (Platform := board)) = false)
    by (intros d; reflexivity).
  assert (Hwf : wf (P := board) (boot_state 1 tt)) by (repeat split).
  assert (Hbus : (0 < SPI_NUMOF (P := board))%nat) by (cbv; lia).
  split; [auto|].
  exact (transfer_never_times_out (P := board) (HW := stuck_hw) 1000 0 0x48000004 false
           (Some [0x9F]) false 1 (boot_state 1 tt) Hstuck Hwf Hbus eq_refl).
Defined.

(** ** The end of a transfer *)

Section TransferEnd.
Context `{P : Platform} {D : Type} `{HW : SpiHw D}.

Lemma wait_for_end_last fuel bus (st : driver_state D) u st' :
  _wait_for_end fuel bus st = Done (u, st') ->
  exists evs v,
    trace st' = trace st ++ evs ++ [EvSTAT bus v] /\ Forall io_event evs /\
    flag_set v SPI0_STAT_TRANS_Msk = false.
Proof.
  intros Hrun.
  apply wait_for_end_trace in Hrun
    as (_ & tbe & trans & _ & (ws & v & -> & _ & Hv) & Ht).
  exists ((EvSTAT bus <$> tbe) ++ (EvSTAT bus <$> ws)), v.
  split; [|split; [|exact Hv]].
  - rewrite Ht, fmap_app, <- !app_assoc. reflexivity.
  - apply Forall_app_2; apply Forall_fmap, Forall_forall; intros; exact Logic.I.
Qed.

(** A transfer that returns has seen the peripheral idle.  Its events are
    the selection, then accesses to the status and data registers and calls
    of the DMA driver only, the last of them a read of the status register
    that shows the busy flag clear, then the release: between the selection
    and that read nothing is written to the control register or to the
    chip-select line, so the peripheral is disabled and the line raised
    only after the read. *)
Theorem transfer_returns_idle fuel bus cs cont out inp len
    (st : driver_state D) r st' :
  spi_transfer_bytes fuel bus cs cont out inp len st = Done (r, st') ->
  exists v io w,
    ctl0_of bus st = Some v /\
    trace st' = trace st ++ select_trace bus cs v ++ io ++ [EvSTAT bus w]
                         ++ release_trace bus cs cont v /\
    Forall io_event io /\ flag_set w SPI0_STAT_TRANS_Msk = false.
Proof.
  intros Hrun.
  apply transfer_bytes_exact in Hrun as (v & s2 & s3 & Hv & Hpre & Hbody & Hpost).
  assert (Hend : exists s u evs, trace s = trace s2 ++ evs /\ Forall io_event evs /\
                                 _wait_for_end fuel bus s = Done (u, s3)).
  { destruct (strategy_is_dma bus).
    - apply transfer_dma_split in Hbody as (conf & u & _ & Hend).
      eexists _, u, _. split; [apply trace_fold_log|]. split; [|exact Hend].
      unfold dma_calls. destruct DMA_CCR_EN; repeat constructor.
    - apply transfer_no_dma_split in Hbody as (s & u & (_ & evs & Ht & Hio) & Hend).
      exists s, u, evs. auto. }
  destruct Hend as (s & u & evs & Ht & Hio & Hend).
  apply wait_for_end_last in Hend as (evs' & w & Ht' & Hio' & Hw).
  exists v, (evs ++ evs'), w.
  split; [exact Hv|]. split.
  - rewrite Hpost, Ht', Ht, Hpre, <- !app_assoc. reflexivity.
  - split; [apply Forall_app_2; assumption|exact Hw].
Qed.

Lemma land_lor_disjoint (v s m : Z) :
  Z.land m s = 0 -> Z.land (Z.lor v s) m = Z.land v m.
Proof.
  intros Hd. rewrite Z.land_lor_distr_l, (Z.land_comm s m), Hd.
  apply Z.lor_0_r.
Qed.

Lemma land_not32_disjoint (w s m : Z) :
  0 <= m < 2 ^ 32 -> Z.land m s = 0 ->
  Z.land (Z.land w (not32 s)) m = Z.land w m.
Proof.
  intros Hm Hd. rewrite <- Z.land_assoc. f_equal.
  unfold not32, u32. rewrite <- Z.land_ones by lia.
  rewrite <- Z.land_assoc, (Z.land_comm (Z.ones 32)), Z.land_ones by lia.
  rewrite Z.mod_small by exact Hm.
  apply Z.bits_inj'. intros n Hn.
  rewrite Z.land_spec, Z.lnot_spec by assumption.
  assert (Hbit : Z.testbit (Z.land m s) n = false) by (rewrite Hd; apply Z.bits_0).
  rewrite Z.land_spec in Hbit.
  destruct (Z.testbit m n), (Z.testbit s n); cbn in *; congruence.
Qed.

(** A transfer that returns has changed no bit of the first control
    register but the enable bit, and has left the second control register
    alone: the mode, the baud rate and the master and chip-select settings
    of [spi_acquire] survive every transfer.  The enable bit is left set
    when the continuation flag is set or the chip select is no valid pin,
    and clear otherwise. *)
Theorem transfer_touches_enable_bit_only fuel bus cs cont out inp len
    (st : driver_state D) r st' :
  SPI0_CTL0_SPIEN_Msk <> 0 ->
  spi_transfer_bytes fuel bus cs cont out inp len st = Done (r, st') ->
  exists v v',
    ctl0_of bus st = Some v /\ ctl0_of bus st' = Some v' /\
    ctl1_of bus st' = ctl1_of bus st /\
    (forall m, 0 <= m < 2 ^ 32 -> Z.land m SPI0_CTL0_SPIEN_Msk = 0 ->
               Z.land v' m = Z.land v m) /\
    flag_set v' SPI0_CTL0_SPIEN_Msk = cont || negb (gpio_is_valid cs).
Proof.
  intros Hen Hrun. unfold spi_transfer_bytes in Hrun.
  seq Hrun as Hassert at sa. apply assert_Done in Hassert as [_ ->].
  seq Hrun as Hget at sg. apply get_CTL0_Done in Hget as [Hv ->].
  assert (Hr : exists r0, regs st !! bus = Some r0).
  { unfold ctl0_of in Hv. destruct (regs st !! bus); [eauto|discriminate]. }
  destruct Hr as [r0 Hr].
  seq Hrun as Hput at s1. rewrite (put_CTL0_exec _ _ _ _ Hr) in Hput.
  injection Hput as _ <-.
  seq Hrun as Hsel at s2. seq Hrun as Hbody at s3. seq Hrun as Hrel at s4.
  cbv beta delta [ret] in Hrun. injection Hrun as _ <-.
  assert (Hlt : (bus < length (regs st))%nat) by (eapply lookup_lt_Some; eauto).
  assert (Hs2 : regs s2 !! bus
                = Some {| CTL0 := Z.lor a0 SPI0_CTL0_SPIEN_Msk; CTL1 := CTL1 r0;
                          port := port r0 |}).
  { destruct (negb (cs =? SPI_HWCS_MASK) && gpio_is_valid cs).
    - apply gpio_clear_Done in Hsel as (_ & -> & _). cbn [regs log set_regs].
      apply list_lookup_insert_eq. exact Hlt.
    - cbv beta delta [ret] in Hsel. injection Hsel as _ <-. cbn [regs log set_regs].
      apply list_lookup_insert_eq. exact Hlt. }
  assert (Hframe : ctl s3 = ctl s2).
  { destruct MODULE_PERIPH_DMA.
    - seq Hbody as Hconf at sc. apply config_Done in Hconf as [_ ->].
      destruct (_use_dma _);
        [eapply transfer_dma_frame|eapply transfer_no_dma_frame]; eauto.
    - eapply transfer_no_dma_frame; eauto. }
  assert (Hs3 : ctl0_of bus s3 = Some (Z.lor a0 SPI0_CTL0_SPIEN_Msk) /\
                ctl1_of bus s3 = Some (CTL1 r0)).
  { assert (Hpair : forall s : driver_state D,
               (fun r => (CTL0 r, CTL1 r)) <$> regs s !! bus = (ctl s).2 !! bus).
    { intros s. unfold ctl. cbn. rewrite list_lookup_fmap. reflexivity. }
    pose proof (Hpair s3) as H3. rewrite Hframe, <- Hpair, Hs2 in H3.
    unfold ctl0_of, ctl1_of. destruct (regs s3 !! bus) as [r3|]; [|discriminate].
    cbn in H3. injection H3 as H3a H3b. cbn. rewrite H3a, H3b. auto. }
  destruct Hs3 as [Hc3 Hd3].
  assert (Hst1 : ctl1_of bus st = Some (CTL1 r0)).
  { unfold ctl1_of. rewrite Hr. reflexivity. }
  exists a0. destruct (gpio_is_valid cs) eqn:Hvalid, cont;
    cbn [negb andb orb] in Hrel |- *.
  - cbv beta delta [ret] in Hrel. injection Hrel as _ <-.
    eexists. split; [exact Hv|]. split; [exact Hc3|]. split; [congruence|].
    split; [intros m _ Hm; apply land_lor_disjoint; exact Hm|].
    apply flag_set_enable. exact Hen.
  - seq Hrel as Hget at sg. apply get_CTL0_Done in Hget as [Hw ->].
    rewrite Hc3 in Hw. injection Hw as <-.
    assert (Hr3 : exists r3, regs s3 !! bus = Some r3).
    { unfold ctl0_of in Hc3. destruct (regs s3 !! bus); [eauto|discriminate]. }
    destruct Hr3 as [r3 Hr3].
    seq Hrel as Hput at s5. rewrite (put_CTL0_exec _ _ _ _ Hr3) in Hput.
    injection Hput as _ <-.
    assert (Hregs : regs s4
                    = <[bus := {| CTL0 := Z.land (Z.lor a0 SPI0_CTL0_SPIEN_Msk)
                                               (not32 SPI0_CTL0_SPIEN_Msk);
                                  CTL1 := CTL1 r3; port := port r3 |}]> (regs s3)).
    { destruct (negb (cs =? SPI_HWCS_MASK)).
      - apply gpio_set_Done in Hrel as (_ & -> & _). reflexivity.
      - cbv beta delta [ret] in Hrel. injection Hrel as _ <-. reflexivity. }
    assert (Hlt3 : (bus < length (regs s3))%nat) by (eapply lookup_lt_Some; eauto).
    eexists. split; [exact Hv|].
    unfold ctl0_of, ctl1_of. rewrite Hregs, list_lookup_insert_eq by exact Hlt3.
    split; [reflexivity|]. split.
    { cbn. unfold ctl1_of in Hd3. rewrite Hr3 in Hd3. cbn in Hd3.
      rewrite Hr. cbn. congruence. }
    cbn [CTL0]. split; [|apply flag_set_disable].
    intros m Hm Hd. rewrite land_not32_disjoint by assumption.
    apply land_lor_disjoint. exact Hd.
  - cbv beta delta [ret] in Hrel. injection Hrel as _ <-.
    eexists. split; [exact Hv|]. split; [exact Hc3|]. split; [congruence|].
    split; [intros m _ Hm; apply land_lor_disjoint; exact Hm|].
    apply flag_set_enable. exact Hen.
  - cbv beta delta [ret] in Hrel. injection Hrel as _ <-.
    eexists. split; [exact Hv|]. split; [exact Hc3|]. split; [congruence|].
    split; [intros m _ Hm; apply land_lor_disjoint; exact Hm|].
    apply flag_set_enable. exact Hen.
Qed.

End TransferEnd.

(** The full-duplex transfer of two bytes ends on an idle peripheral. *)
Lemma transfer_returns_idle_witness :
  duplex_run = Done ([0x9F; 0x01], duplex_end) /\
  exists v io w,
    ctl0_of 0 (boot_state 1 loop_idle) = Some v /\
    trace duplex_end
    = trace (boot_state 1 loop_idle)
      ++ select_trace (P := board) 0 0x48000004 v ++ io ++ [EvSTAT 0 w]
      ++ release_trace (P := board) 0 0x48000004 false v /\
    Forall io_event io /\
    flag_set w (SPI0_STAT_TRANS_Msk (Platform := board)) = false.
Proof.
  split; [vm_compute; reflexivity|].
  apply (transfer_returns_idle (P := board) (HW := loop_hw) 4 0 0x48000004 false
           (Some [0x9F; 0x01]) true 2 (boot_state 1 loop_idle) [0x9F; 0x01]
           duplex_end).
  vm_compute. reflexivity.
Defined.

(** The control registers across the full-duplex transfer of two bytes. *)
Lemma transfer_touches_enable_bit_only_witness :
  (SPI0_CTL0_SPIEN_Msk (Platform := board) <> 0 /\
   duplex_run = Done ([0x9F; 0x01], duplex_end)) /\
  exists v v',
    ctl0_of 0 (boot_state 1 loop_idle) = Some v /\ ctl0_of 0 duplex_end = Some v' /\
    ctl1_of 0 duplex_end = ctl1_of 0 (boot_state 1 loop_idle) /\
    (forall m, 0 <= m < 2 ^ 32 -> Z.land m (SPI0_CTL0_SPIEN_Msk (Platform := board)) = 0 ->
               Z.land v' m = Z.land v m) /\
    flag_set v' (SPI0_CTL0_SPIEN_Msk (Platform := board))
    = false || negb (gpio_is_valid (Platform := board) 0x48000004).
Proof.
  assert (Hen : SPI0_CTL0_SPIEN_Msk (Platform := board) <> 0) by discriminate.
  split; [split; [exact Hen|vm_compute; reflexivity]|].
  apply (transfer_touches_enable_bit_only (P := board) (HW := loop_hw) 4 0 0x48000004
           false (Some [0x9F; 0x01]) true 2 (boot_state 1 loop_idle) [0x9F; 0x01]
           duplex_end Hen).
  vm_compute. reflexivity.
Defined.
